(** * Cloud accounting backend: journal posting, ledger view and reports

    A shallow embedding of the Express/knex route handlers of the
    repository:

    - [postJournalEntry]  : POST /journal-entries
    - [getLedger]         : GET  /general-ledger/accounts/:accountId/organization/:organizationId
    - [trialBalance]      : GET  /reports/trial-balance/organization/:organizationId
    - [incomeStatement]   : GET  /reports/income-statement/organization/:organizationId
    - [updateAccount]     : PUT  /accounts/:accountId/organization/:organizationId
    - [errorMiddleware]   : the error handling middleware of app.js

    Conventions of the embedding.

    - The relational store is a record of tables, each table a list of
      rows in table order.  A knex query is a list comprehension over
      these lists: [where] is [List.filter], an inner join is a
      [flat_map] over the matching rows, [.first()] is [head].  No
      uniqueness of keys is assumed.
    - Amounts are exact rationals ([Q]), in request bodies and in rows
      read from the store alike: the store is taken to hand its numeric
      columns over as numbers, and on them [parseFloat(x) || 0] is the
      identity.  Equations between amounts are stated with [==].
      Rounding of IEEE doubles is outside this idealised arithmetic.
      The balance check of the posting handler, where rounding decides
      the answer, is given in IEEE 754 binary64 as well
      ([ieee_unbalanced], [postJournalEntry_ieee]); [unbalanced] and
      [postJournalEntry] are the same check and handler in exact
      arithmetic.
    - A plain object used as a map ([const grouped = {}]) is the list
      of its own properties in creation order; the members it inherits
      from [Object.prototype] are accounted for where it is read.
    - Identifiers are integers, dates are day numbers ([Z]) compared the
      way the store compares dates.
    - A handler returns the store it leaves behind and either the
      response it sent or the error it passed to [next].  Handlers run
      on bodies that passed their Joi schema; authentication, schema
      validation and failures of the connection to the store are
      outside the model. *)

From stdpp Require Import gmap strings list.
From Stdlib Require Import Ascii QArith Qabs DecimalString Permutation Sorted.
From Stdlib Require Import SpecFloat.

Local Open Scope Z_scope.

(** ** Tables *)

Record account_type := {
  at_id : Z;
  at_name : string;
  at_normal_balance : string
}.

Record account_category := {
  cat_id : Z;
  cat_organization_id : Z;
  cat_account_type_id : Z;
  cat_name : string
}.

Record account := {
  acc_id : Z;
  acc_organization_id : Z;
  acc_code : string;
  acc_name : string;
  acc_description : option string;
  acc_account_type_id : Z;
  acc_account_category_id : option Z;
  acc_parent_account_id : option Z;
  acc_is_active : bool;
  acc_is_bank_account : bool;
  acc_bank_account_details : option string;
  acc_updated_at : Z
}.

Record account_balance := {
  bal_account_id : Z;
  bal_organization_id : Z;
  bal_balance : Q
}.

Record journal_entry := {
  je_id : Z;
  je_organization_id : Z;
  je_date : Z;
  je_reference : string;
  je_description : option string;
  je_status : string;
  je_created_at : Z;
  je_updated_at : Z
}.

Record journal_entry_line := {
  jel_id : Z;
  jel_journal_entry_id : Z;
  jel_account_id : Z;
  jel_description : option string;
  jel_debit_amount : Q;
  jel_credit_amount : Q;
  jel_tax_rate : option Q;
  jel_tax_amount : option Q
}.

Record db := {
  account_types : list account_type;
  account_categories : list account_category;
  accounts : list account;
  account_balances : list account_balance;
  journal_entries : list journal_entry;
  journal_entry_lines : list journal_entry_line
}.

(** ** Errors and responses *)

(** A JavaScript [Error] as the error middleware inspects it. *)
Record js_error := {
  e_name : string;
  e_code : option string;
  e_message : string
}.

Inductive error_details :=
| UnbalancedDetails (totalDebit totalCredit difference : Q)
| MessageDetails (message : string).

(** The response envelope [{success, message?, data?, error?}]. *)
Inductive body (A : Type) :=
| Data (message : option string) (data : A)
| Failure (code : string) (message : string) (details : option error_details).
Arguments Data {A} message data.
Arguments Failure {A} code message details.

Record response (A : Type) := {
  status : Z;
  payload : body A
}.
Arguments status {A} r.
Arguments payload {A} r.

(** What a route handler does with a request: it answers, or it calls
    [next(error)]. *)
Inductive outcome (A : Type) :=
| Responded (r : response A)
| Next (e : js_error).
Arguments Responded {A} r.
Arguments Next {A} e.

Definition json {A} (st : Z) (b : body A) : outcome A :=
  Responded {| status := st; payload := b |}.

(** [new Error(message)] *)
Definition new_Error (message : string) : js_error :=
  {| e_name := "Error"; e_code := None; e_message := message |}.

(** ** Strings *)

(** [s.includes(sub)] *)
Fixpoint includes (s sub : string) : bool :=
  String.prefix sub s ||
  match s with
  | EmptyString => false
  | String _ s' => includes s' sub
  end.

(** Template rendering of an integer, as in [`${line.accountId}`]. *)
Definition show_int (n : Z) : string := NilZero.string_of_int (Z.to_int n).

(** ** Ordering of query results *)

Section OrderBy.
Context {A : Type} (le : A -> A -> bool).

Fixpoint insert_by (x : A) (l : list A) : list A :=
  match l with
  | [] => [x]
  | y :: l' => if le x y then x :: y :: l' else y :: insert_by x l'
  end.

(** Rows with equal keys keep their table order; the store leaves
    their order unspecified. *)
Definition order_by (l : list A) : list A := fold_right insert_by [] l.

End OrderBy.

(** Truthiness of an optional query or body parameter. *)
Definition provided {A} (x : option A) : bool :=
  match x with
  | Some _ => true
  | None => false
  end.

(** [.limit(limit).offset(offset)] on an ordered result. *)
Definition limit_offset {A} (limit offset : Z) (l : list A) : list A :=
  firstn (Z.to_nat limit) (skipn (Z.to_nat offset) l).

(** ** Transactions

    Code running inside [db.transaction()] works on the transaction's
    view of the store and may throw. *)

Definition trx (A : Type) : Type := db -> js_error + (A * db).

#[global] Instance trx_ret : MRet trx := fun A a s => inr (a, s).
#[global] Instance trx_bind : MBind trx :=
  fun A B k m s => match m s with
                   | inl e => inl e
                   | inr (a, s') => k a s'
                   end.

Definition throw {A} (e : js_error) : trx A := fun _ => inl e.
Definition query {A} (q : db -> A) : trx A := fun s => inr (q s, s).
Definition exec (f : db -> db) : trx unit := fun s => inr (tt, f s).

(** [for (const x of l) { body }] *)
Fixpoint for_of {A} (l : list A) (loop_body : A -> trx unit) : trx unit :=
  match l with
  | [] => mret tt
  | x :: l' => _ ← loop_body x; for_of l' loop_body
  end.

(** ** Journal engine *)

(** A line of the request body, as [createJournalEntrySchema] types it. *)
Record line_input := {
  accountId : Z;
  description : option string;
  debitAmount : Q;
  creditAmount : Q;
  taxRate : option Q;
  taxAmount : option Q
}.

Record journal_entry_input := {
  organizationId : Z;
  date : Z;
  reference : string;
  entryDescription : option string;
  lines : list line_input
}.

(** Serial primary keys: the next id follows the largest one in use. *)
Definition next_id (ids : list Z) : Z := 1 + fold_right Z.max 0 ids.

Definition totalDebit_of (ls : list line_input) : Q :=
  fold_left (fun sum line => (sum + debitAmount line)%Q) ls 0%Q.

Definition totalCredit_of (ls : list line_input) : Q :=
  fold_left (fun sum line => (sum + creditAmount line)%Q) ls 0%Q.

(** [Math.abs(totalDebit - totalCredit) > 0.001] in exact arithmetic.
    The handler computes the totals and the comparison in double
    precision, see [ieee_total] and [ieee_unbalanced]; the two verdicts
    can differ when the difference is at the tolerance. *)
Definition unbalanced (totalDebit totalCredit : Q) : bool :=
  negb (Qle_bool (Qabs (totalDebit - totalCredit)) (1 # 1000)).

(** [trx('journal_entries').insert({...}).returning('id')] *)
Definition insert_journal_entry (now : Z) (req : journal_entry_input) : trx Z :=
  fun s =>
    let id := next_id (map je_id (journal_entries s)) in
    let row := {| je_id := id;
                  je_organization_id := organizationId req;
                  je_date := date req;
                  je_reference := reference req;
                  je_description := entryDescription req;
                  je_status := "posted";
                  je_created_at := now;
                  je_updated_at := now |} in
    inr (id, {| account_types := account_types s;
                account_categories := account_categories s;
                accounts := accounts s;
                account_balances := account_balances s;
                journal_entries := journal_entries s ++ [row];
                journal_entry_lines := journal_entry_lines s |}).

Definition line_row (journalEntryId : Z) (id : Z) (line : line_input)
  : journal_entry_line :=
  {| jel_id := id;
     jel_journal_entry_id := journalEntryId;
     jel_account_id := accountId line;
     jel_description := description line;
     jel_debit_amount := debitAmount line;
     jel_credit_amount := creditAmount line;
     jel_tax_rate := taxRate line;
     jel_tax_amount := taxAmount line |}.

Fixpoint number_lines (journalEntryId : Z) (first : Z) (ls : list line_input)
  : list journal_entry_line :=
  match ls with
  | [] => []
  | line :: ls' =>
      line_row journalEntryId first line
        :: number_lines journalEntryId (first + 1) ls'
  end.

(** [trx('journal_entry_lines').insert(journalEntryLines)] *)
Definition insert_journal_entry_lines (journalEntryId : Z)
    (ls : list line_input) : trx unit :=
  exec (fun s =>
    let first := next_id (map jel_id (journal_entry_lines s)) in
    {| account_types := account_types s;
       account_categories := account_categories s;
       accounts := accounts s;
       account_balances := account_balances s;
       journal_entries := journal_entries s;
       journal_entry_lines :=
         journal_entry_lines s ++ number_lines journalEntryId first ls |}).

(** [accounts JOIN account_types ON accounts.account_type_id = account_types.id] *)
Definition accounts_with_types (s : db) : list (account * account_type) :=
  flat_map (fun a =>
              map (fun t => (a, t))
                  (List.filter (fun t => at_id t =? acc_account_type_id a)
                               (account_types s)))
           (accounts s).

(** The account lookup of the posting loop: joined with its type,
    filtered on the account id alone, [.first()]. *)
Definition find_account (id : Z) (s : db) : option (account * account_type) :=
  head (List.filter (fun row => acc_id (fst row) =? id) (accounts_with_types s)).

(** The normal-balance sign convention. *)
Definition signed_delta (normalBalance : string) (debit credit : Q) : Q :=
  if String.eqb normalBalance "debit"
  then (debit - credit)%Q
  else (credit - debit)%Q.

(** [trx('account_balances').where({account_id, organization_id})
      .increment('balance', balanceChange)] *)
Definition increment_balance (account_id organization_id : Z)
    (balanceChange : Q) (s : db) : db :=
  {| account_types := account_types s;
     account_categories := account_categories s;
     accounts := accounts s;
     account_balances :=
       map (fun b =>
              if (bal_account_id b =? account_id)
                 && (bal_organization_id b =? organization_id)
              then {| bal_account_id := bal_account_id b;
                      bal_organization_id := bal_organization_id b;
                      bal_balance := (bal_balance b + balanceChange)%Q |}
              else b)
           (account_balances s);
     journal_entries := journal_entries s;
     journal_entry_lines := journal_entry_lines s |}.

Definition account_not_found_message (id : Z) : string :=
  "Account with ID " +:+ show_int id +:+ " not found".

(** One turn of the balance update loop. *)
Definition update_balance_for (organization_id : Z) (line : line_input)
  : trx unit :=
  account ← query (find_account (accountId line));
  match account with
  | None => throw (new_Error (account_not_found_message (accountId line)))
  | Some (_, ty) =>
      let balanceChange :=
        signed_delta (at_normal_balance ty) (debitAmount line) (creditAmount line) in
      exec (increment_balance (accountId line) organization_id balanceChange)
  end.

(** The statements between [db.transaction()] and [trx.commit()]. *)
Definition post_in_transaction (now : Z) (req : journal_entry_input) : trx Z :=
  journalEntryId ← insert_journal_entry now req;
  _ ← insert_journal_entry_lines journalEntryId (lines req);
  _ ← for_of (lines req) (update_balance_for (organizationId req));
  mret journalEntryId.

(** The created entry as read back after the commit. *)
Record created_line := {
  cl_id : Z;
  cl_accountId : Z;
  cl_accountCode : string;
  cl_accountName : string;
  cl_description : option string;
  cl_debitAmount : Q;
  cl_creditAmount : Q;
  cl_taxRate : option Q;
  cl_taxAmount : option Q
}.

Record created_entry := {
  ce_entry : option journal_entry;
  ce_lines : list created_line;
  ce_totalDebit : Q;
  ce_totalCredit : Q
}.

Definition created_lines (journalEntryId : Z) (s : db) : list created_line :=
  order_by (fun x y => cl_id x <=? cl_id y)
    (flat_map (fun l =>
                 map (fun a =>
                        {| cl_id := jel_id l;
                           cl_accountId := jel_account_id l;
                           cl_accountCode := acc_code a;
                           cl_accountName := acc_name a;
                           cl_description := jel_description l;
                           cl_debitAmount := jel_debit_amount l;
                           cl_creditAmount := jel_credit_amount l;
                           cl_taxRate := jel_tax_rate l;
                           cl_taxAmount := jel_tax_amount l |})
                     (List.filter (fun a => acc_id a =? jel_account_id l)
                                  (accounts s)))
              (List.filter (fun l => jel_journal_entry_id l =? journalEntryId)
                           (journal_entry_lines s))).

Definition read_created (journalEntryId : Z) (totalDebit totalCredit : Q)
    (s : db) : created_entry :=
  {| ce_entry := head (List.filter (fun e => je_id e =? journalEntryId)
                                   (journal_entries s));
     ce_lines := created_lines journalEntryId s;
     ce_totalDebit := totalDebit;
     ce_totalCredit := totalCredit |}.

(** POST /journal-entries, on a validated body.  [now] is the clock
    reading used for the timestamps. *)
Definition postJournalEntry (now : Z) (st : db) (req : journal_entry_input)
  : db * outcome created_entry :=
  let totalDebit := totalDebit_of (lines req) in
  let totalCredit := totalCredit_of (lines req) in
  if unbalanced totalDebit totalCredit then
    (st, json 400
           (Failure "UNBALANCED_ENTRY"
              "Journal entry must be balanced (total debits must equal total credits)"
              (Some (UnbalancedDetails totalDebit totalCredit
                                       (totalDebit - totalCredit)%Q))))
  else
    match post_in_transaction now req st with
    | inr (journalEntryId, committed) =>
        (committed,
         json 201 (Data (Some "Journal entry created successfully")
                        (read_created journalEntryId totalDebit totalCredit
                                      committed)))
    | inl error =>
        (* trx.rollback(); next(error) *)
        (st, Next error)
    end.

(** ** The balance check in IEEE 754 binary64

    The handler adds the amounts of the lines and compares the
    difference of the two totals with [0.001] in double precision.  A
    double is a [spec_float] of precision 53 and exponent bound 1024,
    with the operations of the standard. *)

Definition double : Type := spec_float.

(** The double nearest to [a / d], ties to even.  The quotient is taken
    to more than 64 bits and its remainder kept as a sticky bit, so that
    the one rounding of [binary_normalize] is the correct one. *)
Definition nearest_double (negative : bool) (a d : positive) : double :=
  let shift := Z.max 0 (Z.log2 (Zpos d) + 65 - Z.log2 (Zpos a)) in
  let scaled := Zpos a * 2 ^ shift in
  let sticky := if scaled mod Zpos d =? 0 then 0 else 1 in
  let mantissa := 2 * (scaled / Zpos d) + sticky in
  binary_normalize 53 1024 (if negative then - mantissa else mantissa)
                   (- shift - 1) false.

(** The double a number of the request body is parsed to. *)
Definition double_of (q : Q) : double :=
  match Qnum q with
  | Z0 => S754_zero false
  | Zpos a => nearest_double false a (Qden q)
  | Zneg a => nearest_double true a (Qden q)
  end.

(** [x || 0]: [NaN] and both zeros are falsy. *)
Definition or_zero (x : double) : double :=
  match x with
  | S754_nan | S754_zero _ => S754_zero false
  | _ => x
  end.

(** [lines.reduce((sum, line) => sum + (parseFloat(line.amount) || 0), 0)] *)
Definition ieee_total (amount : line_input -> Q) (ls : list line_input) : double :=
  fold_left (fun sum line => SFadd 53 1024 sum (or_zero (double_of (amount line))))
            ls (S754_zero false).

(** [Math.abs(totalDebit - totalCredit) > 0.001] *)
Definition ieee_unbalanced (totalDebit totalCredit : double) : bool :=
  SFltb (double_of (1 # 1000)) (SFabs (SFsub 53 1024 totalDebit totalCredit)).

(** The number a response carries for a double: its exact value.  JSON
    writes [null] for a double that is not finite; it is shown as 0. *)
Definition number_of (x : double) : Q :=
  match x with
  | S754_finite negative m e =>
      let n := if negative then Zneg m else Zpos m in
      if 0 <=? e then inject_Z (n * 2 ^ e)
      else Qmake n (Z.to_pos (2 ^ (- e)))
  | _ => 0%Q
  end.

(** POST /journal-entries with the totals and the check as the machine
    computes them; the transaction is the one of [postJournalEntry]. *)
Definition postJournalEntry_ieee (now : Z) (st : db) (req : journal_entry_input)
  : db * outcome created_entry :=
  let totalDebit := ieee_total debitAmount (lines req) in
  let totalCredit := ieee_total creditAmount (lines req) in
  if ieee_unbalanced totalDebit totalCredit then
    (st, json 400
           (Failure "UNBALANCED_ENTRY"
              "Journal entry must be balanced (total debits must equal total credits)"
              (Some (UnbalancedDetails
                       (number_of totalDebit) (number_of totalCredit)
                       (number_of (SFsub 53 1024 totalDebit totalCredit))))))
  else
    match post_in_transaction now req st with
    | inr (journalEntryId, committed) =>
        (committed,
         json 201 (Data (Some "Journal entry created successfully")
                        (read_created journalEntryId
                                      (number_of totalDebit) (number_of totalCredit)
                                      committed)))
    | inl error =>
        (* trx.rollback(); next(error) *)
        (st, Next error)
    end.

(** ** Error handling middleware

    [development] is [process.env.NODE_ENV === 'development'].  The
    [details] of a validation error are opaque and left out. *)

Definition errorMiddleware {A} (development : bool) (err : js_error)
  : response A :=
  if (match e_code err with
      | Some c => String.eqb c "ECONNREFUSED"
      | None => false
      end)
     || includes (e_message err) "timeout"
     || includes (e_message err) "pool"
     || includes (e_message err) "connection"
  then {| status := 503;
          payload := Failure "DATABASE_ERROR"
            "Database service is currently unavailable. Please try again later."
            (if development then Some (MessageDetails (e_message err)) else None) |}
  else if String.eqb (e_name err) "ValidationError"
  then {| status := 400;
          payload := Failure "VALIDATION_ERROR" "Invalid input data" None |}
  else {| status := 500;
          payload := Failure "SERVER_ERROR" "An unexpected error occurred"
            (if development then Some (MessageDetails (e_message err)) else None) |}.

(** What the client receives. *)
Definition respond {A} (development : bool) (o : outcome A) : response A :=
  match o with
  | Responded r => r
  | Next e => errorMiddleware development e
  end.

(** ** Ledger view *)

(** The account header of the ledger. *)
Record ledger_account := {
  la_id : Z;
  la_code : string;
  la_name : string;
  la_accountTypeName : string;
  la_normalBalance : string
}.

(** A row of the transactions query. *)
Record ledger_transaction := {
  lt_journalEntryId : Z;
  lt_date : Z;
  lt_reference : string;
  lt_journalDescription : option string;
  lt_lineDescription : option string;
  lt_debitAmount : Q;
  lt_creditAmount : Q
}.

(** The same row once [transaction.balance] is set. *)
Record ledger_row := {
  lr_transaction : ledger_transaction;
  lr_balance : Q
}.

Record pagination := {
  pg_total : Z;
  pg_page : Z;
  pg_limit : Z;
  pg_pages : option Z
}.

Record ledger := {
  lg_account : ledger_account;
  lg_transactions : list ledger_row;
  lg_pagination : pagination
}.

(** [journal_entry_lines JOIN journal_entries
      ON journal_entry_lines.journal_entry_id = journal_entries.id] *)
Definition lines_with_entries (s : db)
  : list (journal_entry_line * journal_entry) :=
  flat_map (fun l =>
              map (fun e => (l, e))
                  (List.filter (fun e => je_id e =? jel_journal_entry_id l)
                               (journal_entries s)))
           (journal_entry_lines s).

(** The [where] clause shared by the three ledger queries. *)
Definition posted_for (account_id organization_id : Z)
    (row : journal_entry_line * journal_entry) : bool :=
  (jel_account_id (fst row) =? account_id)
  && (je_organization_id (snd row) =? organization_id)
  && String.eqb (je_status (snd row)) "posted".

Definition from_date (startDate : option Z)
    (row : journal_entry_line * journal_entry) : bool :=
  match startDate with
  | Some d => d <=? je_date (snd row)
  | None => true
  end.

Definition to_date (endDate : option Z)
    (row : journal_entry_line * journal_entry) : bool :=
  match endDate with
  | Some d => je_date (snd row) <=? d
  | None => true
  end.

(** [orderBy('journal_entries.date', 'desc').orderBy('journal_entries.id', 'desc')] *)
Definition newest_first (x y : journal_entry_line * journal_entry) : bool :=
  (je_date (snd y) <? je_date (snd x))
  || ((je_date (snd y) =? je_date (snd x)) && (je_id (snd y) <=? je_id (snd x))).

Definition select_transaction (row : journal_entry_line * journal_entry)
  : ledger_transaction :=
  {| lt_journalEntryId := je_id (snd row);
     lt_date := je_date (snd row);
     lt_reference := je_reference (snd row);
     lt_journalDescription := je_description (snd row);
     lt_lineDescription := jel_description (fst row);
     lt_debitAmount := jel_debit_amount (fst row);
     lt_creditAmount := jel_credit_amount (fst row) |}.

(** The filtered and ordered transactions of the window, before paging. *)
Definition window_rows (account_id organization_id : Z)
    (startDate endDate : option Z) (s : db)
  : list (journal_entry_line * journal_entry) :=
  order_by newest_first
    (List.filter (fun row => posted_for account_id organization_id row
                             && from_date startDate row
                             && to_date endDate row)
                 (lines_with_entries s)).

(** [previousTransactions]: the rows the seed of the running balance is
    summed over. *)
Definition previous_transactions (account_id organization_id : Z)
    (startDate : option Z) (page limit : Z) (s : db)
  : list ledger_transaction :=
  match startDate with
  | Some d =>
      map select_transaction
          (List.filter (fun row => posted_for account_id organization_id row
                                   && (je_date (snd row) <? d))
                       (lines_with_entries s))
  | None =>
      let offset := (page - 1) * limit in
      map select_transaction
          (skipn (Z.to_nat offset)
                 (order_by newest_first
                    (List.filter (posted_for account_id organization_id)
                                 (lines_with_entries s))))
  end.

Definition transaction_delta (normalBalance : string) (t : ledger_transaction) : Q :=
  signed_delta normalBalance (lt_debitAmount t) (lt_creditAmount t).

(** [for (const transaction of previousTransactions) runningBalance += ...] *)
Definition seed_balance (normalBalance : string)
    (previous : list ledger_transaction) : Q :=
  fold_left (fun runningBalance t =>
               (runningBalance + transaction_delta normalBalance t)%Q)
            previous 0%Q.

(** [transactions.forEach(transaction => { runningBalance += ...;
      transaction.balance = runningBalance })], in the order of the
    array, which is the order of the query. *)
Fixpoint add_running_balance (normalBalance : string) (runningBalance : Q)
    (transactions : list ledger_transaction) : list ledger_row :=
  match transactions with
  | [] => []
  | t :: rest =>
      let runningBalance' :=
        (runningBalance + transaction_delta normalBalance t)%Q in
      {| lr_transaction := t; lr_balance := runningBalance' |}
        :: add_running_balance normalBalance runningBalance' rest
  end.

(** [Math.ceil(count / limit)]; a zero limit gives no finite number. *)
Definition page_count (count limit : Z) : option Z :=
  if limit =? 0 then None else Some ((count + limit - 1) / limit).

(** The store rejects a negative LIMIT or OFFSET. *)
Definition paging_error : js_error :=
  new_Error "LIMIT and OFFSET must not be negative".

Definition ledger_account_of (account_id organization_id : Z) (s : db)
  : option ledger_account :=
  head (map (fun row =>
               {| la_id := acc_id (fst row);
                  la_code := acc_code (fst row);
                  la_name := acc_name (fst row);
                  la_accountTypeName := at_name (snd row);
                  la_normalBalance := at_normal_balance (snd row) |})
            (List.filter (fun row => (acc_id (fst row) =? account_id)
                                     && (acc_organization_id (fst row) =? organization_id))
                         (accounts_with_types s))).

(** GET /general-ledger/accounts/:accountId/organization/:organizationId.
    The URL parameters only reach the store, which reads them as the
    integers they spell; [page] and [limit] default to 1 and 50. *)
Definition getLedger (s : db) (account_id organization_id : Z)
    (startDate endDate : option Z) (page limit : Z) : outcome ledger :=
  match ledger_account_of account_id organization_id s with
  | None => json 404 (Failure "ACCOUNT_NOT_FOUND" "Account not found" None)
  | Some account =>
      let window := window_rows account_id organization_id startDate endDate s in
      let count := Z.of_nat (length window) in
      let offset := (page - 1) * limit in
      if (limit <? 0) || (offset <? 0) then Next paging_error
      else
        let transactions :=
          map select_transaction (limit_offset limit offset window) in
        let runningBalance :=
          if (1 <? page) || provided startDate
          then seed_balance (la_normalBalance account)
                 (previous_transactions account_id organization_id
                                        startDate page limit s)
          else 0%Q in
        json 200
          (Data None
             {| lg_account := account;
                lg_transactions :=
                  rev (add_running_balance (la_normalBalance account)
                                           runningBalance transactions);
                lg_pagination :=
                  {| pg_total := count;
                     pg_page := page;
                     pg_limit := limit;
                     pg_pages := page_count count limit |} |})
  end.

(** ** Plain objects used as maps

    [const grouped = {}] has the members of [Object.prototype] before
    any key is set.  A lookup [grouped[key]] finds an own property when
    there is one and an inherited member otherwise.  The inherited
    members are functions or, for [__proto__], the prototype itself:
    all of them are truthy and none has a property [categories] or
    [accounts]. *)

Definition object_prototype_members : list string :=
  [ "constructor"; "__defineGetter__"; "__defineSetter__"; "hasOwnProperty";
    "__lookupGetter__"; "__lookupSetter__"; "isPrototypeOf";
    "propertyIsEnumerable"; "toString"; "valueOf"; "__proto__";
    "toLocaleString" ].

Definition inherited (key : string) : bool :=
  existsb (String.eqb key) object_prototype_members.

(** [name || 'Uncategorized']: [null] and the empty string are falsy. *)
Definition or_uncategorized (name : option string) : string :=
  match name with
  | Some s => if String.eqb s "" then "Uncategorized" else s
  | None => "Uncategorized"
  end.

(** Reading a property of [undefined] throws. *)
Definition cannot_read (property : string) : js_error :=
  {| e_name := "TypeError";
     e_code := None;
     e_message :=
       "Cannot read properties of undefined (reading '" +:+ property +:+ "')" |}.

(** [l.forEach(step)] on accumulators [s], where [step] may throw. *)
Fixpoint for_each {S X} (step : S -> X -> js_error + S) (l : list X) (s : S)
  : js_error + S :=
  match l with
  | [] => inr s
  | x :: l' =>
      match step s x with
      | inl e => inl e
      | inr s' => for_each step l' s'
      end
  end.

(** [obj[key]] created on first use and then updated in place, for a
    key that is not inherited; the own properties keep the order in
    which their keys were first set. *)
Fixpoint upsert {A} (key : A -> string) (k : string) (init : A)
    (f : A -> A) (l : list A) : list A :=
  match l with
  | [] => [f init]
  | x :: l' =>
      if String.eqb (key x) k then f x :: l'
      else x :: upsert key k init f l'
  end.

(** A key that is an array index: the canonical numeral of an integer
    below 2^32 - 1. *)
Definition array_index (key : string) : option Z :=
  match NilZero.int_of_string key with
  | Some i =>
      let n := Z.of_int i in
      if String.eqb (show_int n) key && (0 <=? n) && (n <? 4294967295)
      then Some n
      else None
  | None => None
  end.

(** [Object.values(obj)]: the properties whose keys are array indices
    first, in ascending order of the index, then the other properties
    in the order of their creation. *)
Definition object_values {A} (key : A -> string) (own : list A) : list A :=
  order_by (fun x y => default 0 (array_index (key x))
                       <=? default 0 (array_index (key y)))
           (List.filter (fun x => provided (array_index (key x))) own)
  ++ List.filter (fun x => negb (provided (array_index (key x)))) own.

(** ** Report engine: trial balance *)

(** A LEFT JOIN keeps a row without a match, with NULL columns. *)
Definition left_join {B} (matches : list B) : list (option B) :=
  match matches with
  | [] => [None]
  | _ => map Some matches
  end.

(** A row of the trial balance query. *)
Record tb_row := {
  tr_id : Z;
  tr_code : string;
  tr_name : string;
  tr_accountTypeId : Z;
  tr_accountTypeName : string;
  tr_normalBalance : string;
  tr_accountCategoryId : option Z;
  tr_accountCategoryName : option string;
  tr_balance : option Q
}.

(** The same account once the handler has set its columns. *)
Record tb_account := {
  ta_row : tb_row;
  ta_balance : Q;
  ta_debitBalance : Q;
  ta_creditBalance : Q
}.

Record tb_category := {
  tc_id : option Z;
  tc_name : string;
  tc_accounts : list tb_account;
  tc_totalDebit : Q;
  tc_totalCredit : Q
}.

Record tb_type := {
  tt_id : Z;
  tt_name : string;
  tt_normalBalance : string;
  tt_categories : list tb_category;
  tt_totalDebit : Q;
  tt_totalCredit : Q
}.

Record tb_totals := {
  totalDebits : Q;
  totalCredits : Q;
  difference : Q
}.

Record trial_balance := {
  tb_trialBalance : list tb_type;
  tb_totals_of : tb_totals;
  tb_asOfDate : string
}.

Definition categories_of (a : account) (s : db) : list (option account_category) :=
  left_join (List.filter (fun c => bool_decide (acc_account_category_id a = Some (cat_id c)))
                         (account_categories s)).

Definition balances_of (a : account) (s : db) : list (option account_balance) :=
  left_join (List.filter (fun b => (bal_account_id b =? acc_id a)
                                   && (bal_organization_id b =? acc_organization_id a))
                         (account_balances s)).

(** ascending order of an optional name, NULL last *)
Definition name_le (x y : option string) : bool :=
  match x, y with
  | Some a, Some b => String.leb a b
  | Some _, None => true
  | None, Some _ => false
  | None, None => true
  end.

Definition name_eqb (x y : option string) : bool :=
  match x, y with
  | Some a, Some b => String.eqb a b
  | None, None => true
  | _, _ => false
  end.

(** [orderBy(['account_types.id', 'account_categories.name', 'accounts.code'])] *)
Definition tb_order (x y : tb_row) : bool :=
  (tr_accountTypeId x <? tr_accountTypeId y)
  || ((tr_accountTypeId x =? tr_accountTypeId y)
      && (negb (name_le (tr_accountCategoryName y) (tr_accountCategoryName x))
          || (name_eqb (tr_accountCategoryName x) (tr_accountCategoryName y)
              && String.leb (tr_code x) (tr_code y)))).

Definition tb_query (organization_id : Z) (s : db) : list tb_row :=
  order_by tb_order
    (flat_map (fun row =>
       let a := fst row in
       let t := snd row in
       flat_map (fun c =>
         map (fun b =>
                {| tr_id := acc_id a;
                   tr_code := acc_code a;
                   tr_name := acc_name a;
                   tr_accountTypeId := at_id t;
                   tr_accountTypeName := at_name t;
                   tr_normalBalance := at_normal_balance t;
                   tr_accountCategoryId := option_map cat_id c;
                   tr_accountCategoryName := option_map cat_name c;
                   tr_balance := option_map bal_balance b |})
             (balances_of a s))
         (categories_of a s))
       (List.filter (fun row => acc_organization_id (fst row) =? organization_id)
                    (accounts_with_types s))).

(** The debit and credit columns of one account. *)
Definition classify (r : tb_row) : tb_account :=
  let balance := default 0%Q (tr_balance r) in
  if String.eqb (tr_normalBalance r) "debit" then
    if Qle_bool 0 balance
    then {| ta_row := r; ta_balance := balance;
            ta_debitBalance := balance; ta_creditBalance := 0 |}
    else {| ta_row := r; ta_balance := balance;
            ta_debitBalance := 0; ta_creditBalance := Qabs balance |}
  else
    if Qle_bool 0 balance
    then {| ta_row := r; ta_balance := balance;
            ta_debitBalance := 0; ta_creditBalance := balance |}
    else {| ta_row := r; ta_balance := balance;
            ta_debitBalance := Qabs balance; ta_creditBalance := 0 |}.

Definition add_to_category (a : tb_account) (c : tb_category) : tb_category :=
  {| tc_id := tc_id c;
     tc_name := tc_name c;
     tc_accounts := tc_accounts c ++ [a];
     tc_totalDebit := (tc_totalDebit c + ta_debitBalance a)%Q;
     tc_totalCredit := (tc_totalCredit c + ta_creditBalance a)%Q |}.

(** The category group of [typeGroup.categories] is created on first
    use; the account is pushed and both pairs of totals are updated. *)
Definition add_to_type (a : tb_account) (t : tb_type) : tb_type :=
  let categoryName := or_uncategorized (tr_accountCategoryName (ta_row a)) in
  {| tt_id := tt_id t;
     tt_name := tt_name t;
     tt_normalBalance := tt_normalBalance t;
     tt_categories :=
       upsert tc_name categoryName
              {| tc_id := tr_accountCategoryId (ta_row a);
                 tc_name := categoryName;
                 tc_accounts := [];
                 tc_totalDebit := 0;
                 tc_totalCredit := 0 |}
              (add_to_category a) (tt_categories t);
     tt_totalDebit := (tt_totalDebit t + ta_debitBalance a)%Q;
     tt_totalCredit := (tt_totalCredit t + ta_creditBalance a)%Q |}.

(** The grouping of one account when neither name is inherited. *)
Definition grouped_with (groupedAccounts : list tb_type) (a : tb_account)
  : list tb_type :=
  upsert tt_name (tr_accountTypeName (ta_row a))
         {| tt_id := tr_accountTypeId (ta_row a);
            tt_name := tr_accountTypeName (ta_row a);
            tt_normalBalance := tr_normalBalance (ta_row a);
            tt_categories := [];
            tt_totalDebit := 0;
            tt_totalCredit := 0 |}
         (add_to_type a) groupedAccounts.

(** The grouping of one account.  When the type name is inherited,
    [groupedAccounts[typeName]] is truthy without having been set, no
    group is created, [typeGroup.categories] is [undefined] and reading
    [categoryName] from it throws.  When the category name is
    inherited, [typeGroup.categories[categoryName]] is truthy without
    having been set, [categoryGroup.accounts] is [undefined] and
    calling [push] on it throws. *)
Definition group_account (groupedAccounts : list tb_type) (a : tb_account)
  : js_error + list tb_type :=
  let categoryName := or_uncategorized (tr_accountCategoryName (ta_row a)) in
  if inherited (tr_accountTypeName (ta_row a)) then inl (cannot_read categoryName)
  else if inherited categoryName then inl (cannot_read "push")
  else inr (grouped_with groupedAccounts a).

(** The accumulators of [accounts.forEach]. *)
Record tb_state := {
  acc_grouped : list tb_type;
  acc_totalDebits : Q;
  acc_totalCredits : Q
}.

Definition tb_step (st : tb_state) (r : tb_row) : js_error + tb_state :=
  let a := classify r in
  match group_account (acc_grouped st) a with
  | inl error => inl error
  | inr groupedAccounts =>
      inr {| acc_grouped := groupedAccounts;
             acc_totalDebits := (acc_totalDebits st + ta_debitBalance a)%Q;
             acc_totalCredits := (acc_totalCredits st + ta_creditBalance a)%Q |}
  end.

(** [{...typeGroup, categories: Object.values(typeGroup.categories)}] *)
Definition with_category_values (t : tb_type) : tb_type :=
  {| tt_id := tt_id t;
     tt_name := tt_name t;
     tt_normalBalance := tt_normalBalance t;
     tt_categories := object_values tc_name (tt_categories t);
     tt_totalDebit := tt_totalDebit t;
     tt_totalCredit := tt_totalCredit t |}.

(** GET /reports/trial-balance/organization/:organizationId.  [asOfDate]
    is echoed and not applied; [today] stands for the current date.  An
    error thrown while grouping is passed to [next]. *)
Definition trialBalance (s : db) (organization_id : Z)
    (asOfDate : option string) (today : string) : outcome trial_balance :=
  match for_each tb_step (tb_query organization_id s)
                 {| acc_grouped := [];
                    acc_totalDebits := 0; acc_totalCredits := 0 |} with
  | inl error => Next error
  | inr final =>
      json 200
        (Data None
           {| tb_trialBalance :=
                map with_category_values
                    (object_values tt_name (acc_grouped final));
              tb_totals_of :=
                {| totalDebits := acc_totalDebits final;
                   totalCredits := acc_totalCredits final;
                   difference :=
                     Qabs (acc_totalDebits final - acc_totalCredits final) |};
              tb_asOfDate :=
                match asOfDate with
                | Some d => if String.eqb d "" then today else d
                | None => today
                end |})
  end.

(** ** Report engine: income statement *)

Record is_account := {
  ia_id : Z;
  ia_code : string;
  ia_name : string;
  ia_categoryName : option string;
  ia_balance : Q
}.

Record is_category := {
  ic_name : string;
  ic_accounts : list is_account;
  ic_total : Q
}.

Record is_section := {
  sec_categories : list is_category;
  sec_total : Q
}.

Record income_statement := {
  revenue : is_section;
  expenses : is_section;
  netIncome : Q;
  period : Z * Z
}.

(** The accounts of the organization whose type is named [typeName],
    before their balance is set. *)
Definition accounts_of_type (typeName : string) (organization_id : Z) (s : db)
  : list (account * option account_category) :=
  flat_map (fun row => map (fun c => (fst row, c)) (categories_of (fst row) s))
           (List.filter (fun row => (acc_organization_id (fst row) =? organization_id)
                                    && String.eqb (at_name (snd row)) typeName)
                        (accounts_with_types s)).

(** [whereIn(account_id, ids)], posted entries of the organization,
    [whereBetween(date, [startDate, endDate])]. *)
Definition period_transactions (ids : list Z) (organization_id : Z)
    (startDate endDate : Z) (s : db) : list journal_entry_line :=
  map fst
      (List.filter (fun row => bool_decide (jel_account_id (fst row) ∈ ids)
                               && (je_organization_id (snd row) =? organization_id)
                               && String.eqb (je_status (snd row)) "posted"
                               && (startDate <=? je_date (snd row))
                               && (je_date (snd row) <=? endDate))
                   (lines_with_entries s)).

(** [if (!byAccount[id]) byAccount[id] = 0; byAccount[id] += amount] *)
Definition accumulate (amount : journal_entry_line -> Q)
    (byAccount : gmap Z Q) (transaction : journal_entry_line) : gmap Z Q :=
  let id := jel_account_id transaction in
  let current :=
    match byAccount !! id with
    | Some v => if Qeq_bool v 0 then 0%Q else v
    | None => 0%Q
    end in
  <[id := (current + amount transaction)%Q]> byAccount.

Definition revenue_amount (t : journal_entry_line) : Q :=
  (jel_credit_amount t - jel_debit_amount t)%Q.

Definition expense_amount (t : journal_entry_line) : Q :=
  (jel_debit_amount t - jel_credit_amount t)%Q.

(** [account.balance = byAccount[account.id] || 0] *)
Definition with_balance (byAccount : gmap Z Q)
    (row : account * option account_category) : is_account :=
  {| ia_id := acc_id (fst row);
     ia_code := acc_code (fst row);
     ia_name := acc_name (fst row);
     ia_categoryName := option_map cat_name (snd row);
     ia_balance := default 0%Q (byAccount !! acc_id (fst row)) |}.

(** One side of the statement: the accounts with their period balance,
    and the running total. *)
Definition statement_side (typeName : string) (amount : journal_entry_line -> Q)
    (organization_id startDate endDate : Z) (s : db) : list is_account * Q :=
  let selected := accounts_of_type typeName organization_id s in
  let ids := map (fun row => acc_id (fst row)) selected in
  let transactions := period_transactions ids organization_id startDate endDate s in
  let byAccount := fold_left (accumulate amount) transactions (∅ : gmap Z Q) in
  let accounts := map (with_balance byAccount) selected in
  (accounts, fold_left (fun total a => (total + ia_balance a)%Q) accounts 0%Q).

Definition add_to_is_category (a : is_account) (c : is_category) : is_category :=
  {| ic_name := ic_name c;
     ic_accounts := ic_accounts c ++ [a];
     ic_total := (ic_total c + ia_balance a)%Q |}.

(** The grouping of one account when its category name is not
    inherited. *)
Definition categorized_with (groups : list is_category) (a : is_account)
  : list is_category :=
  let categoryName := or_uncategorized (ia_categoryName a) in
  upsert ic_name categoryName
         {| ic_name := categoryName; ic_accounts := []; ic_total := 0 |}
         (add_to_is_category a) groups.

(** The grouping of one account.  When the category name is inherited,
    [byCategory[categoryName]] is truthy without having been set, its
    [accounts] is [undefined] and calling [push] on it throws. *)
Definition categorize (groups : list is_category) (a : is_account)
  : js_error + list is_category :=
  if inherited (or_uncategorized (ia_categoryName a))
  then inl (cannot_read "push")
  else inr (categorized_with groups a).

Definition by_category (accounts : list is_account) : js_error + list is_category :=
  for_each categorize accounts [].

(** GET /reports/income-statement/organization/:organizationId.  An
    error thrown while grouping is passed to [next]. *)
Definition incomeStatement (s : db) (organization_id : Z)
    (startDate endDate : option Z) : outcome income_statement :=
  match startDate, endDate with
  | Some startDate, Some endDate =>
      let '(revenueAccounts, totalRevenue) :=
        statement_side "Revenue" revenue_amount
                       organization_id startDate endDate s in
      let '(expenseAccounts, totalExpenses) :=
        statement_side "Expense" expense_amount
                       organization_id startDate endDate s in
      match by_category revenueAccounts with
      | inl error => Next error
      | inr revenueByCategory =>
      match by_category expenseAccounts with
      | inl error => Next error
      | inr expensesByCategory =>
          json 200
            (Data None
               {| revenue :=
                    {| sec_categories := object_values ic_name revenueByCategory;
                       sec_total := totalRevenue |};
                  expenses :=
                    {| sec_categories := object_values ic_name expensesByCategory;
                       sec_total := totalExpenses |};
                  netIncome := (totalRevenue - totalExpenses)%Q;
                  period := (startDate, endDate) |})
      end end
  | _, _ =>
      json 400 (Failure "MISSING_DATE_PARAMETERS"
                        "Both startDate and endDate are required" None)
  end.

(** ** Account registry: update *)

(** The JavaScript values the handler compares with [===]. *)
Inductive js_value :=
| JUndefined
| JNull
| JNumber (n : Z)
| JString (s : string).

(** [a === b]: values of different types are never equal. *)
Definition strict_equals (a b : js_value) : bool :=
  match a, b with
  | JUndefined, JUndefined => true
  | JNull, JNull => true
  | JNumber m, JNumber n => m =? n
  | JString s, JString t => String.eqb s t
  | _, _ => false
  end.

(** The request body as [updateAccountSchema] types it.  The outer
    [option] is presence of the key; a nullable key holds an inner
    [option].  Bank details are the JSON text of the object. *)
Record account_update := {
  u_code : option string;
  u_name : option string;
  u_description : option (option string);
  u_accountTypeId : option Z;
  u_accountCategoryId : option Z;
  u_parentAccountId : option (option Z);
  u_isActive : option bool;
  u_isBankAccount : option bool;
  u_bankAccountDetails : option (option string)
}.

(** A body key of schema [Joi.number().integer().allow(null)] as a
    JavaScript value. *)
Definition js_of_nullable_id (x : option (option Z)) : js_value :=
  match x with
  | None => JUndefined
  | Some None => JNull
  | Some (Some n) => JNumber n
  end.

(** White space and digits as the store's integer input reads them. *)
Definition is_space (c : ascii) : bool :=
  let n := nat_of_ascii c in
  (n =? 32)%nat || ((9 <=? n)%nat && (n <=? 13)%nat).

Definition is_digit (c : ascii) : bool :=
  let n := nat_of_ascii c in
  (48 <=? n)%nat && (n <=? 57)%nat.

Fixpoint skip_spaces (s : string) : string :=
  match s with
  | String c s' => if is_space c then skip_spaces s' else s
  | EmptyString => s
  end.

(** The value of the digits at the head of [s], continuing [n], and
    what follows them. *)
Fixpoint read_digits (s : string) (n : Z) : Z * string :=
  match s with
  | String c s' =>
      if is_digit c
      then read_digits s' (10 * n + Z.of_nat (nat_of_ascii c) - 48)
      else (n, s)
  | EmptyString => (n, s)
  end.

(** The store reads a URL parameter as the integer it spells and
    rejects the query otherwise: white space, an optional sign, at
    least one digit, white space.  The width of the column is not part
    of the source and no range is applied. *)
Definition store_int (param : string) : option Z :=
  let s := skip_spaces param in
  let '(negative, s) :=
    match s with
    | String "-"%char s' => (true, s')
    | String "+"%char s' => (false, s')
    | _ => (false, s)
    end in
  match s with
  | String c _ =>
      if is_digit c then
        let '(n, rest) := read_digits s 0 in
        match skip_spaces rest with
        | EmptyString => Some (if negative then - n else n)
        | String _ _ => None
        end
      else None
  | EmptyString => None
  end.

Definition invalid_integer (param : string) : js_error :=
  new_Error ("invalid input syntax for type integer: " +:+ param).

(** The updated account as read back. *)
Record account_view := {
  av_id : Z;
  av_code : string;
  av_name : string;
  av_description : option string;
  av_parentAccountId : option Z;
  av_isActive : bool;
  av_isBankAccount : bool;
  av_bankAccountDetails : option string;
  av_accountTypeId : Z;
  av_accountTypeName : string;
  av_normalBalance : string;
  av_accountCategoryId : option Z;
  av_accountCategoryName : option string;
  av_updatedAt : Z
}.

(** [updateData] applied to one row: only the supplied keys change,
    [updated_at] always does. *)
Definition merge_update (now : Z) (u : account_update) (a : account) : account :=
  {| acc_id := acc_id a;
     acc_organization_id := acc_organization_id a;
     acc_code := default (acc_code a) (u_code u);
     acc_name := default (acc_name a) (u_name u);
     acc_description := default (acc_description a) (u_description u);
     acc_account_type_id := default (acc_account_type_id a) (u_accountTypeId u);
     acc_account_category_id :=
       match u_accountCategoryId u with
       | Some c => Some c
       | None => acc_account_category_id a
       end;
     acc_parent_account_id := default (acc_parent_account_id a) (u_parentAccountId u);
     acc_is_active := default (acc_is_active a) (u_isActive u);
     acc_is_bank_account := default (acc_is_bank_account a) (u_isBankAccount u);
     acc_bank_account_details :=
       default (acc_bank_account_details a) (u_bankAccountDetails u);
     acc_updated_at := now |}.

(** [db('accounts').where({ id: accountId }).update(updateData)] *)
Definition update_account_rows (now : Z) (id : Z) (u : account_update) (s : db) : db :=
  {| account_types := account_types s;
     account_categories := account_categories s;
     accounts := map (fun a => if acc_id a =? id then merge_update now u a else a)
                     (accounts s);
     account_balances := account_balances s;
     journal_entries := journal_entries s;
     journal_entry_lines := journal_entry_lines s |}.

Definition view_account (id : Z) (s : db) : option account_view :=
  head (flat_map (fun row =>
          map (fun c =>
                 {| av_id := acc_id (fst row);
                    av_code := acc_code (fst row);
                    av_name := acc_name (fst row);
                    av_description := acc_description (fst row);
                    av_parentAccountId := acc_parent_account_id (fst row);
                    av_isActive := acc_is_active (fst row);
                    av_isBankAccount := acc_is_bank_account (fst row);
                    av_bankAccountDetails := acc_bank_account_details (fst row);
                    av_accountTypeId := at_id (snd row);
                    av_accountTypeName := at_name (snd row);
                    av_normalBalance := at_normal_balance (snd row);
                    av_accountCategoryId := option_map cat_id c;
                    av_accountCategoryName := option_map cat_name c;
                    av_updatedAt := acc_updated_at (fst row) |})
              (categories_of (fst row) s))
          (List.filter (fun row => acc_id (fst row) =? id) (accounts_with_types s))).

Definition truthy_string (x : option string) : bool :=
  match x with
  | Some s => negb (String.eqb s "")
  | None => false
  end.

Definition truthy_id (x : option Z) : bool :=
  match x with
  | Some n => negb (n =? 0)
  | None => false
  end.

Definition bad_request {A} (code message : string) : outcome A :=
  json 400 (Failure code message None).

(** The four reference checks of the PUT handler, in the order of the
    source.  [None] lets the update proceed. *)
Definition duplicate_code_check (s : db) (org id : Z) (existing : account)
    (u : account_update) : option (outcome account_view) :=
  if truthy_string (u_code u)
     && negb (bool_decide (u_code u = Some (acc_code existing)))
  then
    match List.filter (fun a => (acc_organization_id a =? org)
                                && bool_decide (Some (acc_code a) = u_code u)
                                && negb (acc_id a =? id))
                      (accounts s) with
    | _ :: _ =>
        Some (bad_request "DUPLICATE_ACCOUNT_CODE"
                "An account with this code already exists in this organization")
    | [] => None
    end
  else None.

Definition account_type_check (s : db) (u : account_update)
  : option (outcome account_view) :=
  if truthy_id (u_accountTypeId u) then
    match List.filter (fun t => bool_decide (Some (at_id t) = u_accountTypeId u))
                      (account_types s) with
    | _ :: _ => None
    | [] => Some (bad_request "INVALID_ACCOUNT_TYPE"
                    "The specified account type does not exist")
    end
  else None.

Definition account_category_check (s : db) (org : Z) (u : account_update)
  : option (outcome account_view) :=
  if truthy_id (u_accountCategoryId u) then
    match List.filter (fun c => bool_decide (Some (cat_id c) = u_accountCategoryId u)
                                && (cat_organization_id c =? org))
                      (account_categories s) with
    | _ :: _ => None
    | [] => Some (bad_request "INVALID_ACCOUNT_CATEGORY"
                    "The specified account category does not exist or does not belong to this organization")
    end
  else None.

(** [accountId] is the URL parameter, a string; [parentAccountId] is the
    body key. *)
Definition parent_account_check (s : db) (org : Z) (accountId : string)
    (u : account_update) : option (outcome account_view) :=
  let parentAccountId := js_of_nullable_id (u_parentAccountId u) in
  if negb (strict_equals parentAccountId JUndefined) then
    if strict_equals parentAccountId (JString accountId) then
      Some (bad_request "INVALID_PARENT_ACCOUNT"
              "An account cannot be its own parent")
    else if negb (strict_equals parentAccountId JNull) then
      match List.filter (fun a => bool_decide (u_parentAccountId u = Some (Some (acc_id a)))
                                  && (acc_organization_id a =? org))
                        (accounts s) with
      | _ :: _ => None
      | [] => Some (bad_request "INVALID_PARENT_ACCOUNT"
                      "The specified parent account does not exist or does not belong to this organization")
      end
    else None
  else None.

(** [account.bankAccountDetails] on a read-back that found no row. *)
Definition undefined_account_error : js_error :=
  {| e_name := "TypeError";
     e_code := None;
     e_message := "Cannot read properties of undefined (reading 'bankAccountDetails')" |}.

(** PUT /accounts/:accountId/organization/:organizationId, on a
    validated body.  Both identifiers are URL parameters. *)
Definition updateAccount (now : Z) (s : db) (accountId organizationId : string)
    (u : account_update) : db * outcome account_view :=
  match store_int accountId, store_int organizationId with
  | Some id, Some org =>
      match List.filter (fun a => (acc_id a =? id) && (acc_organization_id a =? org))
                        (accounts s) with
      | [] => (s, json 404 (Failure "ACCOUNT_NOT_FOUND" "Account not found" None))
      | existingAccount :: _ =>
          match duplicate_code_check s org id existingAccount u with
          | Some refusal => (s, refusal)
          | None =>
          match account_type_check s u with
          | Some refusal => (s, refusal)
          | None =>
          match account_category_check s org u with
          | Some refusal => (s, refusal)
          | None =>
          match parent_account_check s org accountId u with
          | Some refusal => (s, refusal)
          | None =>
              let s' := update_account_rows now id u s in
              match view_account id s' with
              | Some account =>
                  (s', json 200 (Data (Some "Account updated successfully") account))
              | None => (s', Next undefined_account_error)
              end
          end end end end
      end
  | None, _ => (s, Next (invalid_integer accountId))
  | _, None => (s, Next (invalid_integer organizationId))
  end.


(** ** Vocabulary of the statements *)

Definition Qsum (l : list Q) : Q := fold_right Qplus 0%Q l.

(** The error code a handler answered with, if it answered with one. *)
Definition error_code {A} (o : outcome A) : option string :=
  match o with
  | Responded {| payload := Failure code _ _ |} => Some code
  | _ => None
  end.

(** The first line of a request whose account lookup finds nothing. *)
Fixpoint first_missing (ls : list line_input) (s : db) : option Z :=
  match ls with
  | [] => None
  | line :: ls' =>
      match find_account (accountId line) s with
      | Some _ => first_missing ls' s
      | None => Some (accountId line)
      end
  end.

(** The balance change the posting loop computes for a line. *)
Definition line_change (s : db) (line : line_input) : Q :=
  match find_account (accountId line) s with
  | Some (_, ty) =>
      signed_delta (at_normal_balance ty) (debitAmount line) (creditAmount line)
  | None => 0%Q
  end.

(** The where clause of the increment. *)
Definition balance_row_of (account_id organization_id : Z) (b : account_balance) : bool :=
  (bal_account_id b =? account_id) && (bal_organization_id b =? organization_id).

(** What a whole posting adds to one balance row: the changes of the
    lines that reference the row's account, when the row belongs to the
    posting organization, and nothing otherwise. *)
Definition posted_change (s : db) (organization_id : Z) (ls : list line_input)
    (b : account_balance) : Q :=
  if bal_organization_id b =? organization_id
  then Qsum (map (line_change s)
                 (List.filter (fun line => accountId line =? bal_account_id b) ls))
  else 0%Q.

(** The entry row a posting writes. *)
Definition posted_entry (now : Z) (req : journal_entry_input) (s : db) : journal_entry :=
  {| je_id := next_id (map je_id (journal_entries s));
     je_organization_id := organizationId req;
     je_date := date req;
     je_reference := reference req;
     je_description := entryDescription req;
     je_status := "posted";
     je_created_at := now;
     je_updated_at := now |}.

(** The line rows a posting writes. *)
Definition posted_lines (req : journal_entry_input) (s : db) : list journal_entry_line :=
  number_lines (next_id (map je_id (journal_entries s)))
               (next_id (map jel_id (journal_entry_lines s)))
               (lines req).

(** The increment applied to one balance row. *)
Definition bump (account_id organization_id : Z) (change : Q) (b : account_balance)
  : account_balance :=
  if balance_row_of account_id organization_id b
  then {| bal_account_id := bal_account_id b;
          bal_organization_id := bal_organization_id b;
          bal_balance := (bal_balance b + change)%Q |}
  else b.

(** The balance table after the increments of the lines [ls]. *)
Definition balances_after (s : db) (organization_id : Z) (ls : list line_input)
    (bs : list account_balance) : list account_balance :=
  fold_left (fun bs line =>
               map (bump (accountId line) organization_id (line_change s line)) bs)
            ls bs.

(** A store with its balance table replaced. *)
Definition with_balances (s : db) (bs : list account_balance) : db :=
  {| account_types := account_types s;
     account_categories := account_categories s;
     accounts := accounts s;
     account_balances := bs;
     journal_entries := journal_entries s;
     journal_entry_lines := journal_entry_lines s |}.

(** The store a successful posting commits. *)
Definition committed_store (now : Z) (req : journal_entry_input) (s : db) : db :=
  {| account_types := account_types s;
     account_categories := account_categories s;
     accounts := accounts s;
     account_balances :=
       balances_after s (organizationId req) (lines req) (account_balances s);
     journal_entries := journal_entries s ++ [posted_entry now req s];
     journal_entry_lines := journal_entry_lines s ++ posted_lines req s |}.

(** How one balance row relates to itself after a posting. *)
Definition row_posted (s : db) (organization_id : Z) (ls : list line_input)
    (b b' : account_balance) : Prop :=
  bal_account_id b' = bal_account_id b
  /\ bal_organization_id b' = bal_organization_id b
  /\ (bal_balance b' == bal_balance b + posted_change s organization_id ls b)%Q.

(** The store seen by the loop: the entry and its lines are inserted,
    the accounts are as before. *)
Definition after_inserts (now : Z) (req : journal_entry_input) (s : db) : db :=
  {| account_types := account_types s;
     account_categories := account_categories s;
     accounts := accounts s;
     account_balances := account_balances s;
     journal_entries := journal_entries s ++ [posted_entry now req s];
     journal_entry_lines := journal_entry_lines s ++ posted_lines req s |}.

(** The character [c] occurs in [s]. *)
Fixpoint occurs (c : Ascii.ascii) (s : string) : bool :=
  match s with
  | EmptyString => false
  | String a s' => Ascii.eqb a c || occurs c s'
  end.

(** All the increments of a posting applied to one balance row. *)
Definition bump_all (s : db) (organization_id : Z) (ls : list line_input)
    (b : account_balance) : account_balance :=
  fold_left (fun b line => bump (accountId line) organization_id (line_change s line) b)
            ls b.


(** Following the specification's words, the running balance of a
    listing in chronological order: each row shows the seed plus the
    deltas of the rows up to and including it. *)
Fixpoint chronological_balances (normalBalance : string) (seed : Q)
    (chronological : list ledger_transaction) : list Q :=
  match chronological with
  | [] => []
  | t :: rest =>
      let balance := (seed + transaction_delta normalBalance t)%Q in
      balance :: chronological_balances normalBalance balance rest
  end.

(** Following the specification's words, the historical balance of an
    account at an entry: the deltas of all its posted lines up to and
    including that entry, in (date, id) order. *)
Definition historical_balance (account_id organization_id : Z)
    (normalBalance : string) (s : db) (day entry : Z) : Q :=
  Qsum (map (fun row => transaction_delta normalBalance (select_transaction row))
            (List.filter (fun row =>
                            posted_for account_id organization_id row
                            && ((je_date (snd row) <? day)
                                || ((je_date (snd row) =? day)
                                    && (je_id (snd row) <=? entry))))
                         (lines_with_entries s))).

(** What the ledger handler computes: every row shows the seed plus the
    deltas of that row and of the rows listed after it. *)
Fixpoint suffix_summed (normalBalance : string) (seed : Q)
    (rows : list ledger_row) : Prop :=
  match rows with
  | [] => True
  | r :: rest =>
      (lr_balance r ==
       seed + Qsum (map (fun x => transaction_delta normalBalance (lr_transaction x))
                        (r :: rest)))%Q
      /\ suffix_summed normalBalance seed rest
  end.

(** The accounts a trial balance answer lists, group by group. *)
Definition tb_listed (tb : trial_balance) : list tb_account :=
  flat_map (fun t => flat_map tc_accounts (tt_categories t)) (tb_trialBalance tb).

(** One step of the accumulation of the trial balance when nothing
    throws. *)
Definition tb_add (st : tb_state) (r : tb_row) : tb_state :=
  let a := classify r in
  {| acc_grouped := grouped_with (acc_grouped st) a;
     acc_totalDebits := (acc_totalDebits st + ta_debitBalance a)%Q;
     acc_totalCredits := (acc_totalCredits st + ta_creditBalance a)%Q |}.

(** What the client of a handler receives outside development when the
    handler throws an error the middleware does not recognise. *)
Definition server_error {A} : response A :=
  {| status := 500;
     payload := Failure "SERVER_ERROR" "An unexpected error occurred" None |}.

(** The posted lines of one account in the entries of the organization
    dated within [startDate, endDate], both ends included. *)
Definition period_lines_of (account_id organization_id startDate endDate : Z)
    (s : db) : list journal_entry_line :=
  map fst
      (List.filter (fun row => (jel_account_id (fst row) =? account_id)
                               && (je_organization_id (snd row) =? organization_id)
                               && String.eqb (je_status (snd row)) "posted"
                               && (startDate <=? je_date (snd row))
                               && (je_date (snd row) <=? endDate))
                   (lines_with_entries s)).


(** ** Example books

    Two organizations.  Organization 1 has Cash (1), Sales (2) and
    Rent (3); organization 2 has its own Cash (4).  Rent has no
    balance row. *)

Definition standard_types : list account_type :=
  [ {| at_id := 1; at_name := "Asset"; at_normal_balance := "debit" |};
    {| at_id := 2; at_name := "Liability"; at_normal_balance := "credit" |};
    {| at_id := 3; at_name := "Equity"; at_normal_balance := "credit" |};
    {| at_id := 4; at_name := "Revenue"; at_normal_balance := "credit" |};
    {| at_id := 5; at_name := "Expense"; at_normal_balance := "debit" |} ].

Definition plain_account (id org : Z) (code name : string) (type : Z) : account :=
  {| acc_id := id;
     acc_organization_id := org;
     acc_code := code;
     acc_name := name;
     acc_description := None;
     acc_account_type_id := type;
     acc_account_category_id := None;
     acc_parent_account_id := None;
     acc_is_active := true;
     acc_is_bank_account := false;
     acc_bank_account_details := None;
     acc_updated_at := 0 |}.

Definition books : db :=
  {| account_types := standard_types;
     account_categories := [];
     accounts :=
       [ plain_account 1 1 "1000" "Cash" 1;
         plain_account 2 1 "4000" "Sales" 4;
         plain_account 3 1 "5000" "Rent" 5;
         plain_account 4 2 "1000" "Cash" 1 ];
     account_balances :=
       [ {| bal_account_id := 1; bal_organization_id := 1; bal_balance := 0 |};
         {| bal_account_id := 2; bal_organization_id := 1; bal_balance := 0 |};
         {| bal_account_id := 4; bal_organization_id := 2; bal_balance := 500 |} ];
     journal_entries := [];
     journal_entry_lines := [] |}.

Definition debit_line (account : Z) (amount : Q) : line_input :=
  {| accountId := account; description := None;
     debitAmount := amount; creditAmount := 0;
     taxRate := None; taxAmount := None |}.

Definition credit_line (account : Z) (amount : Q) : line_input :=
  {| accountId := account; description := None;
     debitAmount := 0; creditAmount := amount;
     taxRate := None; taxAmount := None |}.

Definition entry_of (org : Z) (ls : list line_input) : journal_entry_input :=
  {| organizationId := org; date := 20240115; reference := "JE-1";
     entryDescription := None; lines := ls |}.

(** Debit Cash 100, credit Sales 100. *)
Definition cash_sale : journal_entry_input :=
  entry_of 1 [debit_line 1 100; credit_line 2 100].

(** Debit 100, credit 90. *)
Definition lopsided_sale : journal_entry_input :=
  entry_of 1 [debit_line 1 100; credit_line 2 90].

(** Balanced, the credit goes to an account id nobody has. *)
Definition sale_to_nowhere : journal_entry_input :=
  entry_of 1 [debit_line 1 100; credit_line 99 100].

(** Balanced, organization 1 credits the Cash account of organization 2. *)
Definition foreign_credit : journal_entry_input :=
  entry_of 1 [debit_line 1 100; credit_line 4 100].


(** Balanced, two debit lines on Cash. *)
Definition split_sale : journal_entry_input :=
  entry_of 1 [debit_line 1 60; debit_line 1 40; credit_line 2 100].

(** The books after three cash sales: 100 on 10 January, 50 on
    20 January and 25 on 25 January 2024. *)
Definition cash_sale_on (day : Z) (amount : Q) : journal_entry_input :=
  {| organizationId := 1; date := day; reference := "JE";
     entryDescription := None;
     lines := [debit_line 1 amount; credit_line 2 amount] |}.

Definition two_sales : db :=
  fst (postJournalEntry 7
         (fst (postJournalEntry 7 books (cash_sale_on 20240110 100)))
         (cash_sale_on 20240120 50)).

Definition three_sales : db :=
  fst (postJournalEntry 7 two_sales (cash_sale_on 20240125 25)).

(** The entry ids and balances of the rows of a ledger answer. *)
Definition shown_balances (o : outcome ledger) : list (Z * Q) :=
  match o with
  | Responded {| payload := Data _ l |} =>
      map (fun r => (lt_journalEntryId (lr_transaction r), lr_balance r))
          (lg_transactions l)
  | _ => []
  end.

(** A body that sets [parentAccountId] and nothing else. *)
Definition set_parent (parent : option Z) : account_update :=
  {| u_code := None;
     u_name := None;
     u_description := None;
     u_accountTypeId := None;
     u_accountCategoryId := None;
     u_parentAccountId := Some parent;
     u_isActive := None;
     u_isBankAccount := None;
     u_bankAccountDetails := None |}.

(** ** Proof steps shared by the examples *)


(** Closes a goal [q < r] between two closed amounts. *)
Ltac beyond_tolerance := vm_compute; reflexivity.

(** Closes [NoDup] of a closed list of integers. *)
Ltac distinct_ids :=
  vm_compute;
  repeat (constructor; [cbn; intuition discriminate|]); constructor.

(** Closes [Forall] of a closed list when each case computes. *)
Ltac each_row tac := vm_compute; repeat (constructor; [tac|]); constructor.

(** ** Further example requests and books *)



Definition in_category (category : Z) (a : account) : account :=
  {| acc_id := acc_id a;
     acc_organization_id := acc_organization_id a;
     acc_code := acc_code a;
     acc_name := acc_name a;
     acc_description := acc_description a;
     acc_account_type_id := acc_account_type_id a;
     acc_account_category_id := Some category;
     acc_parent_account_id := acc_parent_account_id a;
     acc_is_active := acc_is_active a;
     acc_is_bank_account := acc_is_bank_account a;
     acc_bank_account_details := acc_bank_account_details a;
     acc_updated_at := acc_updated_at a |}.

(** The example books with Rent, an expense account of organization 1,
    in a category named [name]. *)
Definition books_with_category (name : string) : db :=
  {| account_types := standard_types;
     account_categories :=
       [ {| cat_id := 1; cat_organization_id := 1; cat_account_type_id := 5;
            cat_name := name |} ];
     accounts :=
       [ plain_account 1 1 "1000" "Cash" 1;
         plain_account 2 1 "4000" "Sales" 4;
         in_category 1 (plain_account 3 1 "5000" "Rent" 5);
         plain_account 4 2 "1000" "Cash" 1 ];
     account_balances := account_balances books;
     journal_entries := [];
     journal_entry_lines := [] |}.

(** ** Account registry: reads and creation *)

(** The projection shared by the account reads: an account joined with
    its type and, when it has one, its category.  The accounts table of
    the model carries [updated_at] only, so [createdAt] is left out of
    the projection. *)
Definition project_account (row : account * account_type)
    (c : option account_category) : account_view :=
  {| av_id := acc_id (fst row);
     av_code := acc_code (fst row);
     av_name := acc_name (fst row);
     av_description := acc_description (fst row);
     av_parentAccountId := acc_parent_account_id (fst row);
     av_isActive := acc_is_active (fst row);
     av_isBankAccount := acc_is_bank_account (fst row);
     av_bankAccountDetails := acc_bank_account_details (fst row);
     av_accountTypeId := at_id (snd row);
     av_accountTypeName := at_name (snd row);
     av_normalBalance := at_normal_balance (snd row);
     av_accountCategoryId := option_map cat_id c;
     av_accountCategoryName := option_map cat_name c;
     av_updatedAt := acc_updated_at (fst row) |}.

(** [accounts JOIN account_types LEFT JOIN account_categories], the rows
    that satisfy [keep]. *)
Definition account_views (keep : account -> bool) (s : db) : list account_view :=
  flat_map (fun row => map (project_account row) (categories_of (fst row) s))
           (List.filter (fun row => keep (fst row)) (accounts_with_types s)).

(** [orderBy(['account_types.id', 'account_categories.name', 'accounts.code'])] *)
Definition account_order (x y : account_view) : bool :=
  (av_accountTypeId x <? av_accountTypeId y)
  || ((av_accountTypeId x =? av_accountTypeId y)
      && (negb (name_le (av_accountCategoryName y) (av_accountCategoryName x))
          || (name_eqb (av_accountCategoryName x) (av_accountCategoryName y)
              && String.leb (av_code x) (av_code y)))).

(** GET /accounts/organization/:organizationId *)
Definition listAccounts (s : db) (organization_id : Z) : outcome (list account_view) :=
  json 200
    (Data None
       (order_by account_order
          (account_views (fun a => acc_organization_id a =? organization_id) s))).

(** GET /accounts/:accountId/organization/:organizationId *)
Definition getAccount (s : db) (account_id organization_id : Z)
  : outcome account_view :=
  match head (account_views (fun a => (acc_id a =? account_id)
                                      && (acc_organization_id a =? organization_id))
                            s) with
  | None => json 404 (Failure "ACCOUNT_NOT_FOUND" "Account not found" None)
  | Some account => json 200 (Data None account)
  end.

(** The request body of POST /accounts as [createAccountSchema] types
    it, its defaults applied.  Bank details are the JSON text of the
    object. *)
Record account_create := {
  n_organizationId : Z;
  n_code : string;
  n_name : string;
  n_description : option string;
  n_accountTypeId : Z;
  n_accountCategoryId : Z;
  n_parentAccountId : option Z;
  n_isActive : bool;
  n_isBankAccount : bool;
  n_bankAccountDetails : option string
}.

(** The row [db('accounts').insert({...})] writes. *)
Definition new_account (now : Z) (id : Z) (req : account_create) : account :=
  {| acc_id := id;
     acc_organization_id := n_organizationId req;
     acc_code := n_code req;
     acc_name := n_name req;
     acc_description := n_description req;
     acc_account_type_id := n_accountTypeId req;
     acc_account_category_id := Some (n_accountCategoryId req);
     acc_parent_account_id := n_parentAccountId req;
     acc_is_active := n_isActive req;
     acc_is_bank_account := n_isBankAccount req;
     acc_bank_account_details := n_bankAccountDetails req;
     acc_updated_at := now |}.

Definition insert_account (row : account) (s : db) : db :=
  {| account_types := account_types s;
     account_categories := account_categories s;
     accounts := accounts s ++ [row];
     account_balances := account_balances s;
     journal_entries := journal_entries s;
     journal_entry_lines := journal_entry_lines s |}.

(** POST /accounts, on a validated body. *)
Definition createAccount (now : Z) (s : db) (req : account_create)
  : db * outcome account_view :=
  match List.filter (fun a => (acc_organization_id a =? n_organizationId req)
                              && String.eqb (acc_code a) (n_code req))
                    (accounts s) with
  | _ :: _ =>
      (s, bad_request "DUPLICATE_ACCOUNT_CODE"
            "An account with this code already exists in this organization")
  | [] =>
  match List.filter (fun t => at_id t =? n_accountTypeId req) (account_types s) with
  | [] =>
      (s, bad_request "INVALID_ACCOUNT_TYPE"
            "The specified account type does not exist")
  | _ :: _ =>
  match List.filter (fun c => (cat_id c =? n_accountCategoryId req)
                              && (cat_organization_id c =? n_organizationId req))
                    (account_categories s) with
  | [] =>
      (s, bad_request "INVALID_ACCOUNT_CATEGORY"
            "The specified account category does not exist or does not belong to this organization")
  | _ :: _ =>
      if truthy_id (n_parentAccountId req)
         && match List.filter
                    (fun a => bool_decide (n_parentAccountId req = Some (acc_id a))
                              && (acc_organization_id a =? n_organizationId req))
                    (accounts s) with
            | [] => true
            | _ :: _ => false
            end
      then
        (s, bad_request "INVALID_PARENT_ACCOUNT"
              "The specified parent account does not exist or does not belong to this organization")
      else
        let accountId := next_id (map acc_id (accounts s)) in
        let s' := insert_account (new_account now accountId req) s in
        match view_account accountId s' with
        | Some account =>
            (s', json 201 (Data (Some "Account created successfully") account))
        | None => (s', Next undefined_account_error)
        end
  end end end.

(** ** Journal entries: reads *)

(** An entry of the listing with its totals. *)
Record entry_summary := {
  es_entry : journal_entry;
  es_totalDebit : Q;
  es_totalCredit : Q
}.

Record entry_page := {
  ep_entries : list entry_summary;
  ep_pagination : pagination
}.

Definition entry_from_date (startDate : option Z) (e : journal_entry) : bool :=
  match startDate with
  | Some d => d <=? je_date e
  | None => true
  end.

Definition entry_to_date (endDate : option Z) (e : journal_entry) : bool :=
  match endDate with
  | Some d => je_date e <=? d
  | None => true
  end.

(** [orderBy('date', 'desc').orderBy('id', 'desc')] *)
Definition entry_newest_first (x y : journal_entry) : bool :=
  (je_date y <? je_date x)
  || ((je_date y =? je_date x) && (je_id y <=? je_id x)).

(** The entries of the organization within the dates, newest first. *)
Definition entries_window (organization_id : Z) (startDate endDate : option Z)
    (s : db) : list journal_entry :=
  order_by entry_newest_first
    (List.filter (fun e => (je_organization_id e =? organization_id)
                           && entry_from_date startDate e
                           && entry_to_date endDate e)
                 (journal_entries s)).

(** [whereIn('journal_entry_id', ids).sum(...).groupBy('journal_entry_id')]:
    one row for each entry id that has lines. *)
Definition entry_totals_query (ids : list Z) (s : db) : list (Z * (Q * Q)) :=
  let matching :=
    List.filter (fun l => bool_decide (jel_journal_entry_id l ∈ ids))
                (journal_entry_lines s) in
  map (fun id =>
         let group := List.filter (fun l => jel_journal_entry_id l =? id) matching in
         (id, (fold_left (fun sum l => (sum + jel_debit_amount l)%Q) group 0%Q,
               fold_left (fun sum l => (sum + jel_credit_amount l)%Q) group 0%Q)))
      (remove_dups (map jel_journal_entry_id matching)).

(** [totalsMap[total.journal_entry_id] = {totalDebit, totalCredit}] *)
Definition totals_map (rows : list (Z * (Q * Q))) : gmap Z (Q * Q) :=
  fold_left (fun totalsMap total => <[fst total := snd total]> totalsMap)
            rows (∅ : gmap Z (Q * Q)).

(** [totalsMap[entry.id] || { totalDebit: 0, totalCredit: 0 }] *)
Definition with_totals (totalsMap : gmap Z (Q * Q)) (e : journal_entry)
  : entry_summary :=
  let totals := default (0%Q, 0%Q) (totalsMap !! je_id e) in
  {| es_entry := e; es_totalDebit := fst totals; es_totalCredit := snd totals |}.

(** GET /journal-entries/organization/:organizationId; [page] and
    [limit] default to 1 and 20. *)
Definition listJournalEntries (s : db) (organization_id : Z)
    (startDate endDate : option Z) (page limit : Z) : outcome entry_page :=
  let window := entries_window organization_id startDate endDate s in
  let count := Z.of_nat (length window) in
  let offset := (page - 1) * limit in
  if (limit <? 0) || (offset <? 0) then Next paging_error
  else
    let journalEntries := limit_offset limit offset window in
    let totalsMap := totals_map (entry_totals_query (map je_id journalEntries) s) in
    json 200
      (Data None
         {| ep_entries := map (with_totals totalsMap) journalEntries;
            ep_pagination :=
              {| pg_total := count;
                 pg_page := page;
                 pg_limit := limit;
                 pg_pages := page_count count limit |} |}).

(** An entry with its lines and totals. *)
Record entry_detail := {
  ed_entry : journal_entry;
  ed_lines : list created_line;
  ed_totalDebit : Q;
  ed_totalCredit : Q;
  ed_totalTax : Q
}.

(** GET /journal-entries/:id/organization/:organizationId.  The lines
    query is the one of the posting handler's read-back. *)
Definition getJournalEntry (s : db) (entry_id organization_id : Z)
  : outcome entry_detail :=
  match List.filter (fun e => (je_id e =? entry_id)
                              && (je_organization_id e =? organization_id))
                    (journal_entries s) with
  | [] => json 404 (Failure "JOURNAL_ENTRY_NOT_FOUND" "Journal entry not found" None)
  | journalEntry :: _ =>
      let journalEntryLines := created_lines entry_id s in
      json 200
        (Data None
           {| ed_entry := journalEntry;
              ed_lines := journalEntryLines;
              ed_totalDebit :=
                fold_left (fun acc line => (acc + cl_debitAmount line)%Q)
                          journalEntryLines 0%Q;
              ed_totalCredit :=
                fold_left (fun acc line => (acc + cl_creditAmount line)%Q)
                          journalEntryLines 0%Q;
              ed_totalTax :=
                fold_left (fun acc line => (acc + default 0%Q (cl_taxAmount line))%Q)
                          journalEntryLines 0%Q |})
  end.

(** ** Vocabulary of the further properties *)

(** The status a handler answered with, if it answered. *)
Definition answered_status {A} (o : outcome A) : option Z :=
  match o with
  | Responded r => Some (status r)
  | Next _ => None
  end.



(** Every stored line belongs to a stored entry. *)
Definition lines_reference_entries (s : db) : Prop :=
  Forall (fun l => In (jel_journal_entry_id l) (map je_id (journal_entries s)))
         (journal_entry_lines s).

(** A line of a request as a response shows it. *)
Definition echoes (s : db) (line : line_input) (shown : created_line) : Prop :=
  cl_accountId shown = accountId line
  /\ cl_description shown = description line
  /\ cl_debitAmount shown = debitAmount line
  /\ cl_creditAmount shown = creditAmount line
  /\ cl_taxRate shown = taxRate line
  /\ cl_taxAmount shown = taxAmount line
  /\ exists a, In a (accounts s) /\ acc_id a = accountId line
               /\ cl_accountCode shown = acc_code a
               /\ cl_accountName shown = acc_name a.

(** The balance of a listed account counted on its debit side. *)
Definition debit_side (a : tb_account) : Q :=
  if String.eqb (tr_normalBalance (ta_row a)) "debit"
  then ta_balance a
  else (- ta_balance a)%Q.

(** A category group of the trial balance is consistent: its accounts
    carry its name and its totals add up their columns. *)
Definition category_consistent (c : tb_category) : Prop :=
  Forall (fun a => or_uncategorized (tr_accountCategoryName (ta_row a))
                   = tc_name c)
         (tc_accounts c)
  /\ (tc_totalDebit c == Qsum (map ta_debitBalance (tc_accounts c)))%Q
  /\ (tc_totalCredit c == Qsum (map ta_creditBalance (tc_accounts c)))%Q.

(** A type group is consistent: its categories are, they have distinct
    names, its accounts carry its name and its totals add up their
    columns. *)
Definition type_consistent (t : tb_type) : Prop :=
  Forall category_consistent (tt_categories t)
  /\ List.NoDup (map tc_name (tt_categories t))
  /\ Forall (fun a => tr_accountTypeName (ta_row a) = tt_name t)
            (flat_map tc_accounts (tt_categories t))
  /\ (tt_totalDebit t ==
      Qsum (map ta_debitBalance (flat_map tc_accounts (tt_categories t))))%Q
  /\ (tt_totalCredit t ==
      Qsum (map ta_creditBalance (flat_map tc_accounts (tt_categories t))))%Q.

(** Chronological order of ledger transactions: by date, then by entry
    id. *)
Definition not_after (x y : ledger_transaction) : Prop :=
  lt_date x < lt_date y
  \/ (lt_date x = lt_date y /\ lt_journalEntryId x <= lt_journalEntryId y).

(** A transaction is a posted line of the account within the dates. *)
Definition in_window (s : db) (account_id organization_id : Z)
    (startDate endDate : option Z) (t : ledger_transaction) : Prop :=
  exists row,
    In row (lines_with_entries s)
    /\ t = select_transaction row
    /\ jel_account_id (fst row) = account_id
    /\ je_organization_id (snd row) = organization_id
    /\ je_status (snd row) = "posted"
    /\ (forall d, startDate = Some d -> d <= je_date (snd row))
    /\ (forall d, endDate = Some d -> je_date (snd row) <= d).

(** Newest first: by date, then by id, both descending. *)
Definition not_before (x y : journal_entry) : Prop :=
  je_date y < je_date x \/ (je_date y = je_date x /\ je_id y <= je_id x).

(** An entry of the listing is a stored entry of the organization
    within the dates, shown with the sums of its stored lines. *)
Definition summarizes (s : db) (organization_id : Z) (startDate endDate : option Z)
    (e : entry_summary) : Prop :=
  In (es_entry e) (journal_entries s)
  /\ je_organization_id (es_entry e) = organization_id
  /\ (forall d, startDate = Some d -> d <= je_date (es_entry e))
  /\ (forall d, endDate = Some d -> je_date (es_entry e) <= d)
  /\ es_totalDebit e =
       fold_left (fun sum l => (sum + jel_debit_amount l)%Q)
                 (List.filter (fun l => jel_journal_entry_id l =? je_id (es_entry e))
                              (journal_entry_lines s))
                 0%Q
  /\ es_totalCredit e =
       fold_left (fun sum l => (sum + jel_credit_amount l)%Q)
                 (List.filter (fun l => jel_journal_entry_id l =? je_id (es_entry e))
                              (journal_entry_lines s))
                 0%Q.

(** A category of the income statement is consistent: its accounts
    carry its name and its total adds up their balances. *)
Definition is_category_consistent (c : is_category) : Prop :=
  Forall (fun a => or_uncategorized (ia_categoryName a) = ic_name c)
         (ic_accounts c)
  /\ (ic_total c == Qsum (map ia_balance (ic_accounts c)))%Q.

(** A side of the income statement is consistent: distinct category
    names, consistent categories, and a total that is the sum of the
    category totals. *)
Definition side_consistent (side : is_section) : Prop :=
  List.NoDup (map ic_name (sec_categories side))
  /\ Forall is_category_consistent (sec_categories side)
  /\ (sec_total side == Qsum (map ic_total (sec_categories side)))%Q.

(** Every account reported on a side shows a balance of 0. *)
Definition side_is_empty (side : is_section) : Prop :=
  Forall (fun c => Forall (fun a => ia_balance a = 0%Q) (ic_accounts c))
         (sec_categories side)
  /\ (sec_total side == 0)%Q.

(** The tables the account registry never writes. *)
Definition same_books (s s' : db) : Prop :=
  account_types s' = account_types s
  /\ account_categories s' = account_categories s
  /\ account_balances s' = account_balances s
  /\ journal_entries s' = journal_entries s
  /\ journal_entry_lines s' = journal_entry_lines s.

(** The error codes with which POST /accounts and PUT /accounts refuse a
    validated body. *)
Definition reference_refusals : list string :=
  ["DUPLICATE_ACCOUNT_CODE"; "INVALID_ACCOUNT_TYPE";
   "INVALID_ACCOUNT_CATEGORY"; "INVALID_PARENT_ACCOUNT"].

(** The answer shows the fields of the request. *)
Definition shows_request (now : Z) (req : account_create) (v : account_view) : Prop :=
  av_code v = n_code req
  /\ av_name v = n_name req
  /\ av_description v = n_description req
  /\ av_parentAccountId v = n_parentAccountId req
  /\ av_isActive v = n_isActive req
  /\ av_isBankAccount v = n_isBankAccount req
  /\ av_bankAccountDetails v = n_bankAccountDetails req
  /\ av_accountTypeId v = n_accountTypeId req
  /\ av_accountCategoryId v = Some (n_accountCategoryId req)
  /\ av_updatedAt v = now.

(** The key of the duplicate check: organization and code. *)
Definition code_key (a : account) : Z * string :=
  (acc_organization_id a, acc_code a).

(** Every balance row belongs to a stored account. *)
Definition balances_reference_accounts (s : db) : Prop :=
  forall b, In b (account_balances s) ->
            In (bal_account_id b) (map acc_id (accounts s)).

(** ** Further examples *)

(** The example books with two categories of organization 1 and one of
    organization 2. *)
Definition categorized_books : db :=
  {| account_types := account_types three_sales;
     account_categories :=
       [ {| cat_id := 1; cat_organization_id := 1; cat_account_type_id := 1;
            cat_name := "Current assets" |};
         {| cat_id := 2; cat_organization_id := 1; cat_account_type_id := 5;
            cat_name := "Operating expenses" |};
         {| cat_id := 3; cat_organization_id := 2; cat_account_type_id := 1;
            cat_name := "Current assets" |} ];
     accounts := accounts three_sales;
     account_balances := account_balances three_sales;
     journal_entries := journal_entries three_sales;
     journal_entry_lines := journal_entry_lines three_sales |}.

(** A savings account of organization 1 under Cash. *)
Definition savings_account : account_create :=
  {| n_organizationId := 1;
     n_code := "1010";
     n_name := "Savings";
     n_description := Some "Deposit account";
     n_accountTypeId := 1;
     n_accountCategoryId := 1;
     n_parentAccountId := Some 1;
     n_isActive := true;
     n_isBankAccount := true;
     n_bankAccountDetails := None |}.

(** What PUT /accounts leaves of a row: its id and organization, and
    the whole row unless the URL names its id. *)
Definition kept_by_update (accountId : string) (a a' : account) : Prop :=
  acc_id a' = acc_id a
  /\ acc_organization_id a' = acc_organization_id a
  /\ (store_int accountId <> Some (acc_id a) -> a' = a).

Definition account_not_found {A} : outcome A :=
  json 404 (Failure "ACCOUNT_NOT_FOUND" "Account not found" None).

(** Every stored line is on a stored account. *)
Definition lines_reference_accounts (s : db) : Prop :=
  Forall (fun l => In (jel_account_id l) (map acc_id (accounts s)))
         (journal_entry_lines s).

(** The accounts a side of the income statement reports. *)
Definition statement_accounts (side : is_section) : list is_account :=
  flat_map ic_accounts (sec_categories side).






(** A body that sets [code] and nothing else. *)
Definition set_code (code : string) : account_update :=
  {| u_code := Some code;
     u_name := None;
     u_description := None;
     u_accountTypeId := None;
     u_accountCategoryId := None;
     u_parentAccountId := None;
     u_isActive := None;
     u_isBankAccount := None;
     u_bankAccountDetails := None |}.

(** A body that sets [accountTypeId] and nothing else. *)
Definition set_type (accountTypeId : Z) : account_update :=
  {| u_code := None;
     u_name := None;
     u_description := None;
     u_accountTypeId := Some accountTypeId;
     u_accountCategoryId := None;
     u_parentAccountId := None;
     u_isActive := None;
     u_isBankAccount := None;
     u_bankAccountDetails := None |}.

(** A date passes the optional bounds of a query. *)
Definition within_dates (startDate endDate : option Z) (d : Z) : bool :=
  match startDate with Some a => a <=? d | None => true end
  && match endDate with Some b => d <=? b | None => true end.

(** The number of lines of a request on one account. *)
Definition lines_on (account_id : Z) (req : journal_entry_input) : Z :=
  Z.of_nat (length (List.filter (fun line => accountId line =? account_id)
                                (lines req))).


(** No stored category has a name that objects inherit. *)
Definition no_inherited_category_names (s : db) : Prop :=
  Forall (fun c => inherited (cat_name c) = false) (account_categories s).

(** ** The reports read from the tables

    The reports are stated on the tables themselves: what they say of
    an account is read from the account row, the type row of its
    [account_type_id], the balance row of its id and organization, and
    the lines and entries of the journal. *)

(** The account has a type row. *)
Definition has_type (a : account) (s : db) : bool :=
  existsb (fun t => at_id t =? acc_account_type_id a) (account_types s).

(** The normal balance of the type of an account. *)
Definition normal_balance_of (a : account) (s : db) : string :=
  match List.find (fun t => at_id t =? acc_account_type_id a) (account_types s) with
  | Some t => at_normal_balance t
  | None => ""
  end.

(** The stored balance of an account, 0 when it has no balance row. *)
Definition stored_balance (a : account) (s : db) : Q :=
  match List.find (fun b => (bal_account_id b =? acc_id a)
                            && (bal_organization_id b =? acc_organization_id a))
                  (account_balances s) with
  | Some b => bal_balance b
  | None => 0%Q
  end.

(** The accounts of an organization that have a type row, in the order
    of the accounts table. *)
Definition accounts_typed (organization_id : Z) (s : db) : list account :=
  List.filter (fun a => (acc_organization_id a =? organization_id) && has_type a s)
              (accounts s).

(** The two columns of the report: a balance on its normal side is
    shown there, a negative one on the other side as an absolute
    value. *)
Definition debit_column (normalBalance : string) (balance : Q) : Q :=
  if String.eqb normalBalance "debit"
  then (if Qle_bool 0 balance then balance else 0%Q)
  else (if Qle_bool 0 balance then 0%Q else Qabs balance).

Definition credit_column (normalBalance : string) (balance : Q) : Q :=
  if String.eqb normalBalance "debit"
  then (if Qle_bool 0 balance then 0%Q else Qabs balance)
  else (if Qle_bool 0 balance then balance else 0%Q).

(** An account of the trial balance shows the account row [a]. *)
Definition listed_as (s : db) (x : tb_account) (a : account) : Prop :=
  tr_id (ta_row x) = acc_id a
  /\ tr_code (ta_row x) = acc_code a
  /\ tr_name (ta_row x) = acc_name a
  /\ tr_accountTypeId (ta_row x) = acc_account_type_id a
  /\ tr_normalBalance (ta_row x) = normal_balance_of a s
  /\ ta_balance x = stored_balance a s
  /\ ta_debitBalance x = debit_column (normal_balance_of a s) (stored_balance a s)
  /\ ta_creditBalance x = credit_column (normal_balance_of a s) (stored_balance a s).

(** The accounts of an organization whose type row is named
    [typeName], in the order of the accounts table. *)
Definition accounts_named (typeName : string) (organization_id : Z) (s : db)
  : list account :=
  List.filter (fun a => (acc_organization_id a =? organization_id)
                        && existsb (fun t => (at_id t =? acc_account_type_id a)
                                             && String.eqb (at_name t) typeName)
                                   (account_types s))
              (accounts s).

(** The line belongs to a posted entry of the organization dated within
    [startDate, endDate], both ends included. *)
Definition posted_in_period (organization_id startDate endDate : Z) (s : db)
    (l : journal_entry_line) : bool :=
  existsb (fun e => (je_id e =? jel_journal_entry_id l)
                    && ((je_organization_id e =? organization_id)
                        && String.eqb (je_status e) "posted"
                        && (startDate <=? je_date e)
                        && (je_date e <=? endDate)))
          (journal_entries s).

(** What the lines of an account amount to over the period. *)
Definition period_total (amount : journal_entry_line -> Q)
    (organization_id startDate endDate : Z) (s : db) (a : account) : Q :=
  Qsum (map amount
            (List.filter (fun l => (jel_account_id l =? acc_id a)
                                   && posted_in_period organization_id startDate endDate s l)
                         (journal_entry_lines s))).

(** An account of the income statement shows the account row [a] with
    its total over the period. *)
Definition reports (amount : journal_entry_line -> Q)
    (organization_id startDate endDate : Z) (s : db)
    (x : is_account) (a : account) : Prop :=
  ia_id x = acc_id a
  /\ ia_code x = acc_code a
  /\ ia_name x = acc_name a
  /\ (ia_balance x == period_total amount organization_id startDate endDate s a)%Q.

(** * Properties *)

(** ** Sums of amounts *)

Lemma Qsum_nil : Qsum [] = 0%Q.
Proof. reflexivity. Qed.

Lemma Qsum_cons x l : Qsum (x :: l) = (x + Qsum l)%Q.
Proof. reflexivity. Qed.

Lemma fold_left_Qplus {A} (f : A -> Q) (l : list A) (a : Q) :
  (fold_left (fun sum x => sum + f x) l a == a + Qsum (map f l))%Q.
Proof.
  revert a. induction l as [|x l IH]; intros a; simpl.
  - ring.
  - rewrite IH. ring.
Qed.



Lemma unbalanced_true d c :
  unbalanced d c = true <-> ((1 # 1000) < Qabs (d - c))%Q.
Proof.
  unfold unbalanced. rewrite negb_true_iff.
  split.
  - intros H. apply Qnot_le_lt. intros Hle.
    apply Qle_bool_iff in Hle. congruence.
  - intros H. destruct (Qle_bool (Qabs (d - c)) (1 # 1000)) eqn:E; [|done].
    apply Qle_bool_iff in E. exfalso. eapply Qlt_not_le; eauto.
Qed.

Lemma unbalanced_false d c :
  unbalanced d c = false <-> (Qabs (d - c) <= 1 # 1000)%Q.
Proof.
  unfold unbalanced. rewrite negb_false_iff. apply Qle_bool_iff.
Qed.

(** ** The balance check of the posting handler *)


(** Where the check in double precision and the check in exact
    arithmetic give the same verdict, the two models of the handler
    leave the same store and answer with the same status. *)
Lemma postJournalEntry_ieee_agrees now st req :
  ieee_unbalanced (ieee_total debitAmount (lines req))
                  (ieee_total creditAmount (lines req))
  = unbalanced (totalDebit_of (lines req)) (totalCredit_of (lines req)) ->
  fst (postJournalEntry_ieee now st req) = fst (postJournalEntry now st req)
  /\ answered_status (snd (postJournalEntry_ieee now st req))
     = answered_status (snd (postJournalEntry now st req))
  /\ error_code (snd (postJournalEntry_ieee now st req))
     = error_code (snd (postJournalEntry now st req)).
Proof.
  intros H. unfold postJournalEntry_ieee, postJournalEntry. cbv zeta. rewrite H.
  destruct (unbalanced _ _); [done|].
  destruct (post_in_transaction now req st) as [e|[id committed]]; done.
Qed.




(** The totals of the refused request as the answer carries them. *)
Example lopsided_sale_details :
  (number_of (ieee_total debitAmount (lines lopsided_sale)) == 100)%Q
  /\ (number_of (ieee_total creditAmount (lines lopsided_sale)) == 90)%Q
  /\ (number_of (SFsub 53 1024 (ieee_total debitAmount (lines lopsided_sale))
                               (ieee_total creditAmount (lines lopsided_sale))) == 10)%Q.
Proof. vm_compute. repeat split; reflexivity. Qed.

(** ** The posting transaction *)

Lemma find_account_tables s s' id :
  accounts s' = accounts s ->
  account_types s' = account_types s ->
  find_account id s' = find_account id s.
Proof.
  intros Ha Ht. unfold find_account, accounts_with_types. now rewrite Ha, Ht.
Qed.

Lemma first_missing_tables s s' ls :
  accounts s' = accounts s ->
  account_types s' = account_types s ->
  first_missing ls s' = first_missing ls s.
Proof.
  intros Ha Ht. induction ls as [|line ls IH]; simpl; [done|].
  rewrite (find_account_tables s s') by done. now rewrite IH.
Qed.

Lemma line_change_tables s s' line :
  accounts s' = accounts s ->
  account_types s' = account_types s ->
  line_change s' line = line_change s line.
Proof.
  intros Ha Ht. unfold line_change. now rewrite (find_account_tables s s').
Qed.

(** One turn of the loop on a line whose account is found. *)
Lemma update_balance_for_found org line s :
  is_Some (find_account (accountId line) s) ->
  update_balance_for org line s =
    inr (tt, increment_balance (accountId line) org (line_change s line) s).
Proof.
  intros [[a ty] Hf]. unfold update_balance_for, line_change.
  unfold mbind, trx_bind, query. rewrite Hf. reflexivity.
Qed.

Lemma update_balance_for_missing org line s :
  find_account (accountId line) s = None ->
  update_balance_for org line s =
    inl (new_Error (account_not_found_message (accountId line))).
Proof.
  intros Hf. unfold update_balance_for, mbind, trx_bind, query.
  rewrite Hf. reflexivity.
Qed.

(** The loop stops at the first line whose account is missing. *)
Lemma for_of_missing org ls : forall s id,
  first_missing ls s = Some id ->
  for_of ls (update_balance_for org) s =
    inl (new_Error (account_not_found_message id)).
Proof.
  induction ls as [|line ls IH]; intros s id H; simpl in H; [done|].
  cbn [for_of]. unfold mbind at 1, trx_bind at 1.
  destruct (find_account (accountId line) s) as [p|] eqn:Hf.
  - rewrite update_balance_for_found by (rewrite Hf; eauto).
    apply IH. now rewrite (first_missing_tables s).
  - rewrite update_balance_for_missing by done. congruence.
Qed.


(** With every account found the loop runs to its end and leaves the
    increments of all lines behind.  The changes are those computed
    against any store [s0] with the same accounts and types. *)
Lemma for_of_found_from org s0 ls : forall s,
  accounts s = accounts s0 ->
  account_types s = account_types s0 ->
  first_missing ls s0 = None ->
  for_of ls (update_balance_for org) s =
    inr (tt, with_balances s (balances_after s0 org ls (account_balances s))).
Proof.
  induction ls as [|line ls IH]; intros s Ha Ht H; simpl in H.
  - destruct s; reflexivity.
  - destruct (find_account (accountId line) s0) as [p|] eqn:Hf; [|done].
    cbn [for_of]. unfold mbind at 1, trx_bind at 1.
    rewrite update_balance_for_found
      by (rewrite (find_account_tables s0 s), Hf; eauto).
    rewrite IH; [ | done | done | done ].
    rewrite (line_change_tables s0 s) by done.
    reflexivity.
Qed.

Lemma for_of_found org ls s :
  first_missing ls s = None ->
  for_of ls (update_balance_for org) s =
    inr (tt, with_balances s (balances_after s org ls (account_balances s))).
Proof. now apply for_of_found_from. Qed.

Lemma post_in_transaction_unfold now req s :
  post_in_transaction now req s =
    match for_of (lines req) (update_balance_for (organizationId req))
                 (after_inserts now req s) with
    | inl e => inl e
    | inr (_, s') => inr (next_id (map je_id (journal_entries s)), s')
    end.
Proof. reflexivity. Qed.

(** A missing account aborts the transaction with the error naming the
    first missing id. *)
Lemma post_in_transaction_missing now req s id :
  first_missing (lines req) s = Some id ->
  post_in_transaction now req s =
    inl (new_Error (account_not_found_message id)).
Proof.
  intros H. rewrite post_in_transaction_unfold.
  rewrite (for_of_missing _ _ _ id); [done|].
  now rewrite (first_missing_tables s).
Qed.

(** With every account found the transaction reaches its commit. *)
Lemma post_in_transaction_found now req s :
  first_missing (lines req) s = None ->
  post_in_transaction now req s =
    inr (next_id (map je_id (journal_entries s)), committed_store now req s).
Proof.
  intros H. rewrite post_in_transaction_unfold.
  rewrite (for_of_found_from _ s); done.
Qed.

Lemma postJournalEntry_missing now st req id :
  unbalanced (totalDebit_of (lines req)) (totalCredit_of (lines req)) = false ->
  first_missing (lines req) st = Some id ->
  postJournalEntry now st req =
    (st, Next (new_Error (account_not_found_message id))).
Proof.
  intros Hb Hm. unfold postJournalEntry.
  rewrite Hb, (post_in_transaction_missing _ _ _ id) by done. reflexivity.
Qed.

Lemma postJournalEntry_found now st req :
  unbalanced (totalDebit_of (lines req)) (totalCredit_of (lines req)) = false ->
  first_missing (lines req) st = None ->
  postJournalEntry now st req =
    (committed_store now req st,
     json 201 (Data (Some "Journal entry created successfully")
                    (read_created (next_id (map je_id (journal_entries st)))
                                  (totalDebit_of (lines req))
                                  (totalCredit_of (lines req))
                                  (committed_store now req st)))).
Proof.
  intros Hb Hm. unfold postJournalEntry.
  rewrite Hb, post_in_transaction_found by done. reflexivity.
Qed.

(** A posting is answered 201 exactly when it passes the balance check
    and every line finds its account. *)
Lemma postJournalEntry_created_inv now st req st' m data :
  postJournalEntry now st req = (st', json 201 (Data m data)) ->
  unbalanced (totalDebit_of (lines req)) (totalCredit_of (lines req)) = false
  /\ first_missing (lines req) st = None
  /\ st' = committed_store now req st.
Proof.
  intros H.
  destruct (unbalanced (totalDebit_of (lines req)) (totalCredit_of (lines req))) eqn:Hb.
  - unfold postJournalEntry in H. rewrite Hb in H. discriminate.
  - destruct (first_missing (lines req) st) as [id|] eqn:Hm.
    + rewrite (postJournalEntry_missing _ _ _ id) in H by done. discriminate.
    + rewrite postJournalEntry_found in H by done.
      injection H as <- _. done.
Qed.

Lemma first_missing_None ls s :
  first_missing ls s = None <->
  (forall line, In line ls -> is_Some (find_account (accountId line) s)).
Proof.
  induction ls as [|l ls IH]; simpl.
  - split; [intros _ ? []|done].
  - destruct (find_account (accountId l) s) as [p|] eqn:Hf.
    + rewrite IH. split.
      * intros H line [<-|Hin]; [rewrite Hf; eauto|auto].
      * intros H line Hin. auto.
    + split; [done|]. intros H.
      destruct (H l (or_introl eq_refl)) as [x Hx]. congruence.
Qed.

Lemma first_missing_Some ls s id :
  first_missing ls s = Some id ->
  exists line, In line ls /\ accountId line = id
               /\ find_account id s = None.
Proof.
  induction ls as [|l ls IH]; simpl; [done|].
  destruct (find_account (accountId l) s) as [p|] eqn:Hf.
  - intros H. destruct (IH H) as (line & Hin & Hid & Hn). eauto.
  - intros [= <-]. eauto.
Qed.

Lemma missing_line_first_missing ls s line :
  In line ls -> find_account (accountId line) s = None ->
  exists id, first_missing ls s = Some id.
Proof.
  intros Hin Hn. destruct (first_missing ls s) as [id|] eqn:E; [eauto|].
  rewrite first_missing_None in E. destruct (E line Hin) as [x Hx]. congruence.
Qed.

(** An account id that no account row carries is not found. *)
Lemma find_account_absent id s :
  Forall (fun a => acc_id a <> id) (accounts s) ->
  find_account id s = None.
Proof.
  unfold find_account, accounts_with_types.
  induction (accounts s) as [|a l IH]; intros H; [done|].
  inversion H as [|? ? Ha Hl]; subst. simpl.
  rewrite List.filter_app.
  assert (E : List.filter (λ row : account * account_type, acc_id row.1 =? id)
         (map (λ t : account_type, (a, t))
            (List.filter (λ t : account_type, at_id t =? acc_account_type_id a)
               (account_types s))) = []).
  { induction (List.filter _ (account_types s)) as [|t ts IHt]; [done|].
    simpl. destruct (Z.eqb_spec (acc_id a) id); [done|]. apply IHt. }
  rewrite E. simpl. now apply IH.
Qed.

(** ** The error middleware on a missing-account error *)

Lemma occurs_append c s1 s2 :
  occurs c (s1 +:+ s2) = occurs c s1 || occurs c s2.
Proof.
  induction s1 as [|a s1 IH]; [done|].
  change (occurs c (String a (s1 +:+ s2)) =
          occurs c (String a s1) || occurs c s2).
  cbn [occurs]. rewrite IH. apply orb_assoc.
Qed.

Lemma prefix_occurs c sub : forall s,
  String.prefix sub s = true -> occurs c sub = true -> occurs c s = true.
Proof.
  induction sub as [|a sub IH]; intros s Hp Ho; cbn [occurs] in Ho; [done|].
  destruct s as [|b s]; cbn [String.prefix] in Hp; [done|].
  destruct (Ascii.ascii_dec a b) as [->|]; [|done].
  cbn [occurs]. apply orb_true_iff in Ho as [Ho|Ho].
  - now rewrite Ho.
  - rewrite (IH s Hp Ho). apply orb_true_r.
Qed.

(** A string that lacks a character of [sub] does not include [sub]. *)
Lemma includes_occurs c sub s :
  occurs c sub = true -> occurs c s = false -> includes s sub = false.
Proof.
  intros Hsub. induction s as [|b s IH]; intros Hs.
  - cbn [includes]. destruct (String.prefix sub "") eqn:Hp; [|done].
    now rewrite (prefix_occurs c sub "" Hp Hsub) in Hs.
  - cbn [includes].
    destruct (String.prefix sub (String b s)) eqn:Hp.
    + now rewrite (prefix_occurs c sub _ Hp Hsub) in Hs.
    + cbn [occurs] in Hs. apply orb_false_iff in Hs as [_ Hs].
      cbn [orb]. now apply IH.
Qed.

Lemma occurs_string_of_uint c d :
  occurs c (NilEmpty.string_of_uint d) = true ->
  occurs c "0123456789" = true.
Proof.
  induction d; cbn [NilEmpty.string_of_uint occurs]; try done;
    intros [H|H]%orb_true_iff; auto;
    apply Ascii.eqb_eq in H; subst c; reflexivity.
Qed.

(** The rendering of an integer holds digits and a sign only. *)
Lemma occurs_show_int c n :
  occurs c (show_int n) = true -> occurs c "-0123456789" = true.
Proof.
  assert (Hu : forall d, occurs c (NilZero.string_of_uint d) = true ->
                         occurs c "0123456789" = true).
  { intros d. destruct d; try apply occurs_string_of_uint.
    cbn [NilZero.string_of_uint occurs].
    intros [H|H]%orb_true_iff; [|done].
    apply Ascii.eqb_eq in H. subst c. reflexivity. }
  assert (Hs : occurs c "0123456789" = true -> occurs c "-0123456789" = true).
  { intros H. change "-0123456789" with ("-" +:+ "0123456789").
    rewrite occurs_append, H. apply orb_true_r. }
  unfold show_int. destruct (Z.to_int n) as [d|d].
  - intros H. apply Hs, (Hu d H).
  - change (NilZero.string_of_int (Decimal.Neg d))
      with ("-" +:+ NilZero.string_of_uint d).
    rewrite occurs_append. intros [H|H]%orb_true_iff.
    + change "-0123456789" with ("-" +:+ "0123456789").
      rewrite occurs_append, H. reflexivity.
    + apply Hs, (Hu d H).
Qed.

Lemma message_lacks c id :
  occurs c "Account with ID -0123456789 not found" = false ->
  occurs c (account_not_found_message id) = false.
Proof.
  intros H. unfold account_not_found_message.
  rewrite !occurs_append.
  destruct (occurs c (show_int id)) eqn:Hd.
  - apply occurs_show_int in Hd.
    change "Account with ID -0123456789 not found"
      with ("Account with ID " +:+ "-0123456789" +:+ " not found") in H.
    rewrite !occurs_append, Hd in H. simpl in H.
    now rewrite orb_true_r in H.
  - change "Account with ID -0123456789 not found"
      with ("Account with ID " +:+ "-0123456789" +:+ " not found") in H.
    rewrite !occurs_append in H.
    apply orb_false_iff in H as [H1 H2]. apply orb_false_iff in H2 as [_ H2].
    now rewrite H1, H2.
Qed.

(** The error middleware classifies the missing-account error of the
    posting loop as an unexpected server error. *)
Lemma errorMiddleware_account_not_found {A} development id :
  @errorMiddleware A development (new_Error (account_not_found_message id)) =
    {| status := 500;
       payload := Failure "SERVER_ERROR" "An unexpected error occurred"
         (if development
          then Some (MessageDetails (account_not_found_message id))
          else None) |}.
Proof.
  unfold errorMiddleware. cbn [new_Error e_code e_message e_name].
  rewrite (includes_occurs "m"%char "timeout"), (includes_occurs "p"%char "pool"),
          (includes_occurs "e"%char "connection");
    try reflexivity; apply message_lacks; reflexivity.
Qed.

(** ** Balances after a posting *)

Lemma balances_after_map s org ls : forall bs,
  balances_after s org ls bs = map (bump_all s org ls) bs.
Proof.
  unfold balances_after, bump_all.
  induction ls as [|line ls IH]; intros bs; cbn [fold_left].
  - now rewrite map_id.
  - rewrite IH, map_map. reflexivity.
Qed.

Lemma bump_ids a org c b :
  bal_account_id (bump a org c b) = bal_account_id b
  /\ bal_organization_id (bump a org c b) = bal_organization_id b.
Proof. unfold bump. destruct (balance_row_of a org b); done. Qed.

Lemma posted_change_ids s org ls b b' :
  bal_account_id b' = bal_account_id b ->
  bal_organization_id b' = bal_organization_id b ->
  posted_change s org ls b' = posted_change s org ls b.
Proof. intros Ha Ho. unfold posted_change. now rewrite Ha, Ho. Qed.

(** A row is raised by the changes of the lines that name its account,
    if it belongs to the posting organization. *)
Lemma bump_all_row s org ls : forall b,
  row_posted s org ls b (bump_all s org ls b).
Proof.
  unfold bump_all.
  induction ls as [|line ls IH]; intros b; cbn [fold_left].
  - unfold row_posted, posted_change. repeat split.
    destruct (bal_organization_id b =? org); simpl; ring.
  - destruct (IH (bump (accountId line) org (line_change s line) b))
      as (Ha & Ho & Hb).
    destruct (bump_ids (accountId line) org (line_change s line) b) as [Ha1 Ho1].
    unfold row_posted. repeat split; [congruence | congruence |].
    rewrite Hb, (posted_change_ids s org ls b) by done.
    unfold posted_change, bump, balance_row_of. cbn [List.filter].
    rewrite (Z.eqb_sym (accountId line) (bal_account_id b)).
    destruct (bal_account_id b =? accountId line);
      destruct (bal_organization_id b =? org); cbn [andb bal_balance map Qsum fold_right];
      try ring.
    fold (Qsum (map (line_change s)
                    (List.filter (fun l => accountId l =? bal_account_id b) ls))).
    ring.
Qed.

(** Rows of another organization are not touched. *)
Lemma bump_all_other_org s org ls : forall b,
  bal_organization_id b <> org -> bump_all s org ls b = b.
Proof.
  unfold bump_all.
  induction ls as [|line ls IH]; intros b Hne; cbn [fold_left]; [done|].
  assert (E : bump (accountId line) org (line_change s line) b = b).
  { unfold bump, balance_row_of.
    destruct (Z.eqb_spec (bal_organization_id b) org); [done|].
    now rewrite andb_false_r. }
  rewrite E. now apply IH.
Qed.

(** Rows of an account no line names are not touched. *)
Lemma bump_all_unreferenced s org ls : forall b,
  Forall (fun line => accountId line <> bal_account_id b) ls ->
  bump_all s org ls b = b.
Proof.
  unfold bump_all.
  induction ls as [|line ls IH]; intros b H; cbn [fold_left]; [done|].
  inversion H as [|? ? Hl Hls]; subst.
  assert (E : bump (accountId line) org (line_change s line) b = b).
  { unfold bump, balance_row_of.
    destruct (Z.eqb_spec (bal_account_id b) (accountId line)); [congruence|done]. }
  rewrite E. now apply IH.
Qed.

Lemma Forall2_map_self {A} (R : A -> A -> Prop) (f : A -> A) (l : list A) :
  (forall x, R x (f x)) -> Forall2 R l (map f l).
Proof. intros H. induction l; simpl; constructor; auto. Qed.

Lemma Forall2_map_self_In {A} (R : A -> A -> Prop) (f : A -> A) (l : list A) :
  (forall x, In x l -> R x (f x)) -> Forall2 R l (map f l).
Proof.
  induction l as [|x l IH]; intros H; simpl; constructor.
  - apply H. now left.
  - apply IH. intros y Hy. apply H. now right.
Qed.

Lemma posted_change_single s org ls b line :
  bal_organization_id b = org ->
  List.filter (fun l => accountId l =? bal_account_id b) ls = [line] ->
  (posted_change s org ls b == line_change s line)%Q.
Proof.
  intros Ho Hf. unfold posted_change. rewrite Hf.
  destruct (Z.eqb_spec (bal_organization_id b) org); [|done].
  simpl. ring.
Qed.




(** The inserted line rows reference the accounts of the request lines,
    in order. *)
Lemma number_lines_accounts id ls : forall first,
  map jel_account_id (number_lines id first ls) = map accountId ls.
Proof.
  induction ls as [|l ls IH]; intros first; [done|].
  cbn [number_lines map line_row jel_account_id]. now rewrite IH.
Qed.

(** ** Claims about the posting handler *)

(** What the client of a balanced posting with a missing account
    receives from the error middleware. *)
Lemma postJournalEntry_missing_account_answer now st req id development :
  postJournalEntry now st req =
    (st, Next (new_Error (account_not_found_message id))) ->
  respond development (snd (postJournalEntry now st req)) =
    {| status := 500;
       payload := Failure "SERVER_ERROR" "An unexpected error occurred"
         (if development
          then Some (MessageDetails (account_not_found_message id))
          else None) |}.
Proof.
  intros ->. cbn [snd respond]. apply errorMiddleware_account_not_found.
Qed.

(** When a request passes the balance check and one of its lines names
    an account id no account row carries, the handler rolls the
    transaction back and passes on a plain Error whose message,
    'Account with ID <id> not found', names the id of the first line
    whose lookup finds nothing; the store is the one it received. *)
Lemma postJournalEntry_missing_account_rolls_back
    (now : Z) (st : db) (req : journal_entry_input) :
  (Qabs (totalDebit_of (lines req) - totalCredit_of (lines req)) <= 1 # 1000)%Q ->
  (exists line, In line (lines req)
                /\ Forall (fun a => acc_id a <> accountId line) (accounts st)) ->
  exists id,
    first_missing (lines req) st = Some id
    /\ (exists line, In line (lines req) /\ accountId line = id
                     /\ find_account id st = None)
    /\ postJournalEntry now st req =
         (st, Next {| e_name := "Error";
                      e_code := None;
                      e_message := "Account with ID " +:+ show_int id +:+ " not found" |}).
Proof.
  intros Hb (line & Hin & Habs).
  apply unbalanced_false in Hb.
  destruct (missing_line_first_missing (lines req) st line Hin
              (find_account_absent _ _ Habs)) as [id Hid].
  exists id. split; [exact Hid|]. split; [now apply first_missing_Some|].
  apply (postJournalEntry_missing now st req id Hb Hid).
Qed.

(** C2, the code at a failing input.  Organization 1 posts a balanced
    sale whose credit line names account 99, which nobody has.  The
    posting loop throws a plain Error, 'Account with ID 99 not found',
    that carries no code; the transaction is rolled back and the store
    is as it was.  The error middleware answers 500 SERVER_ERROR, in
    development with the message as details: the client is never
    answered ACCOUNT_NOT_FOUND.  The ledger of the same missing account
    is answered 404 ACCOUNT_NOT_FOUND. *)
Theorem postJournalEntry_missing_account_is_a_server_error :
  postJournalEntry 7 books sale_to_nowhere
    = (books, Next (new_Error "Account with ID 99 not found"))
  /\ postJournalEntry_ieee 7 books sale_to_nowhere
     = (books, Next (new_Error "Account with ID 99 not found"))
  /\ respond false (snd (postJournalEntry 7 books sale_to_nowhere)) = server_error
  /\ respond true (snd (postJournalEntry 7 books sale_to_nowhere))
     = {| status := 500;
          payload := Failure "SERVER_ERROR" "An unexpected error occurred"
                       (Some (MessageDetails "Account with ID 99 not found")) |}
  /\ getLedger books 99 1 None None 1 50
     = json 404 (Failure "ACCOUNT_NOT_FOUND" "Account not found" None).
Proof. vm_compute. repeat split; reflexivity. Qed.

(** C3, as stated, fails: organization 1 credits 100 to the Cash
    account of organization 2; the posting succeeds and that account's
    stored balance stays at 500. *)
Lemma foreign_account_balance_does_not_move :
  ~ (forall st' m data,
       postJournalEntry 7 books foreign_credit = (st', json 201 (Data m data)) ->
       Forall2 (fun b b' =>
                  forall line, In line (lines foreign_credit) ->
                               accountId line = bal_account_id b ->
                               (bal_balance b' == bal_balance b + line_change books line)%Q)
               (account_balances books) (account_balances st')).
Proof.
  intros H.
  assert (Hb : unbalanced (totalDebit_of (lines foreign_credit))
                          (totalCredit_of (lines foreign_credit)) = false)
    by (vm_compute; reflexivity).
  assert (Hm : first_missing (lines foreign_credit) books = None)
    by (vm_compute; reflexivity).
  specialize (H _ _ _ (postJournalEntry_found 7 books foreign_credit Hb Hm)).
  apply Forall2_cons_1 in H as [_ H].
  apply Forall2_cons_1 in H as [_ H].
  apply Forall2_cons_1 in H as [H _].
  specialize (H (credit_line 4 100) (or_intror (or_introl eq_refl)) eq_refl).
  vm_compute in H. discriminate H.
Qed.

(** C3, amended.  After a successful posting every balance row keeps
    its key; a row of the posting organization is raised by the sum of
    the signed deltas of the entry's lines that name its account
    (debit - credit under a 'debit' normal balance, credit - debit
    otherwise); a row of another organization, or of an account no
    line names, is the row it was. *)
Theorem postJournalEntry_updates_balances
    (now : Z) (st st' : db) (req : journal_entry_input)
    (m : option string) (data : created_entry) :
  postJournalEntry now st req = (st', json 201 (Data m data)) ->
  Forall2 (row_posted st (organizationId req) (lines req))
          (account_balances st) (account_balances st')
  /\ Forall2 (fun b b' =>
                bal_organization_id b <> organizationId req
                \/ Forall (fun line => accountId line <> bal_account_id b) (lines req) ->
                b' = b)
             (account_balances st) (account_balances st').
Proof.
  intros H. apply postJournalEntry_created_inv in H as (_ & _ & ->).
  cbn [committed_store account_balances]. rewrite balances_after_map.
  split; apply Forall2_map_self.
  - apply bump_all_row.
  - intros b [Ho | Hl].
    + now apply bump_all_other_org.
    + now apply bump_all_unreferenced.
Qed.

(** Two debit lines on Cash and one credit line on Sales. *)
Lemma postJournalEntry_updates_balances_witness :
  Forall2 (row_posted books 1 (lines split_sale))
          (account_balances books)
          (account_balances (fst (postJournalEntry 7 books split_sale)))
  /\ Forall2 (fun b b' =>
                bal_organization_id b <> 1
                \/ Forall (fun line => accountId line <> bal_account_id b)
                          (lines split_sale) ->
                b' = b)
             (account_balances books)
             (account_balances (fst (postJournalEntry 7 books split_sale))).
Proof.
  eapply (postJournalEntry_updates_balances 7 books _ split_sale).
  vm_compute. reflexivity.
Defined.









(** ** Ledger view *)

Lemma suffix_summed_snoc nb d : forall rows seed x,
  suffix_summed nb (seed + d) rows ->
  (d == transaction_delta nb (lr_transaction x))%Q ->
  (lr_balance x == seed + d)%Q ->
  suffix_summed nb seed (rows ++ [x]).
Proof.
  induction rows as [|r rows IH]; intros seed x Hs Hd Hx.
  - cbn. split; [|done]. rewrite Hx, Hd. ring.
  - destruct Hs as [Hr Hs]. cbn [app suffix_summed]. split.
    + rewrite Hr. cbn [map Qsum fold_right]. rewrite !map_app.
      cbn [map].
      assert (E : forall l y, (Qsum (l ++ [y]) == Qsum l + y)%Q).
      { intros l y. induction l as [|z l IHl]; cbn; [ring|].
        fold (Qsum (l ++ [y])). fold (Qsum l). rewrite IHl. ring. }
      fold (Qsum (map (fun x0 => transaction_delta nb (lr_transaction x0)) rows)).
      fold (Qsum (map (fun x0 => transaction_delta nb (lr_transaction x0)) rows
                  ++ [transaction_delta nb (lr_transaction x)])).
      rewrite E, Hd. ring.
    + now apply IH.
Qed.

(** The running balance is accumulated in query order, newest first,
    and the array is reversed afterwards: in the answer a row's balance
    is the seed plus its own delta plus the deltas of all newer rows
    of the page. *)
Lemma reversed_running_balance nb : forall transactions seed,
  suffix_summed nb seed (rev (add_running_balance nb seed transactions)).
Proof.
  induction transactions as [|t rest IH]; intros seed; [done|].
  cbn [add_running_balance rev].
  apply (suffix_summed_snoc nb (transaction_delta nb t)).
  - apply IH.
  - reflexivity.
  - reflexivity.
Qed.

Lemma filter_ext_bool {A} (p q : A -> bool) (l : list A) :
  (forall x, p x = q x) -> List.filter p l = List.filter q l.
Proof.
  intros H. induction l as [|x l IH]; simpl; [done|].
  now rewrite H, IH.
Qed.

(** Without a start date the seed of page [page] is summed over the
    rows of that very page and over the older ones. *)
Lemma previous_transactions_include_page account_id organization_id page limit s :
  previous_transactions account_id organization_id None page limit s =
    map select_transaction
        (limit_offset limit ((page - 1) * limit)
                      (window_rows account_id organization_id None None s))
    ++ map select_transaction
         (skipn (Z.to_nat limit)
                (skipn (Z.to_nat ((page - 1) * limit))
                       (window_rows account_id organization_id None None s))).
Proof.
  unfold previous_transactions, limit_offset, window_rows.
  rewrite <- map_app, firstn_skipn.
  do 3 f_equal. apply filter_ext_bool. intros row.
  cbn [from_date to_date]. now rewrite !andb_true_r.
Qed.

(** C5, the code at a failing input.  Cash has two posted debits, 100
    on 10 January (entry 1) and 50 on 20 January (entry 2).  Page 2 of
    size 1 returns entry 1 alone.  Its seed is summed over entry 1
    itself, so the row shows 200, where the historical balance of Cash
    at entry 1 is 100. *)
Theorem getLedger_second_page_counts_its_rows_twice :
  shown_balances (getLedger two_sales 1 1 None None 2 1) = [(1, 200%Q)]
  /\ map lt_journalEntryId (previous_transactions 1 1 None 2 1 two_sales) = [1]
  /\ seed_balance "debit" (previous_transactions 1 1 None 2 1 two_sales) = 100%Q
  /\ historical_balance 1 1 "debit" two_sales 20240110 1 = 100%Q.
Proof. vm_compute. repeat split. Qed.

(** C6, the code at a failing input.  On the same books page 1 with no
    filter returns entries 1 and 2 in chronological order; the oldest
    row shows 150 and the newest 50, where the running balance of the
    listing is 100 and then 150. *)
Theorem getLedger_first_page_balances_run_backwards :
  shown_balances (getLedger two_sales 1 1 None None 1 50) = [(1, 150%Q); (2, 50%Q)]
  /\ match getLedger two_sales 1 1 None None 1 50 with
     | Responded {| payload := Data _ l |} =>
         map lt_date (map lr_transaction (lg_transactions l)) = [20240110; 20240120]
         /\ chronological_balances "debit" 0
              (map lr_transaction (lg_transactions l)) = [100%Q; 150%Q]
     | _ => False
     end.
Proof. vm_compute. repeat split. Qed.

(** With a start date the seed is the sum over the entries before that
    date, and the rows of the page are again accumulated newest first:
    from 15 January on, entry 2 shows 175 and entry 3 shows 125, where
    the historical balances are 150 and 175. *)
Lemma getLedger_from_start_date_runs_backwards :
  shown_balances (getLedger three_sales 1 1 (Some 20240115) None 1 50)
    = [(2, 175%Q); (3, 125%Q)]
  /\ historical_balance 1 1 "debit" three_sales 20240120 2 = 150%Q
  /\ historical_balance 1 1 "debit" three_sales 20240125 3 = 175%Q.
Proof. vm_compute. repeat split. Qed.

(** The ledger handler on an account it finds: the rows of the answer
    are suffix sums over the page. *)
Lemma getLedger_balances_are_suffix_sums s account_id organization_id
    startDate endDate page limit account l m :
  ledger_account_of account_id organization_id s = Some account ->
  getLedger s account_id organization_id startDate endDate page limit
    = json 200 (Data m l) ->
  exists seed,
    seed = (if (1 <? page) || provided startDate
            then seed_balance (la_normalBalance account)
                   (previous_transactions account_id organization_id
                                          startDate page limit s)
            else 0%Q)
    /\ suffix_summed (la_normalBalance account) seed (lg_transactions l).
Proof.
  intros Ha H. unfold getLedger in H. rewrite Ha in H.
  destruct ((limit <? 0) || ((page - 1) * limit <? 0)); [discriminate|].
  injection H as _ <-. cbn [lg_transactions].
  eexists. split; [reflexivity|]. apply reversed_running_balance.
Qed.

(** ** Trial balance *)

Lemma insert_by_perm {A} (le : A -> A -> bool) x l :
  Permutation (insert_by le x l) (x :: l).
Proof.
  induction l as [|y l IH]; simpl; [done|].
  destruct (le x y); [done|].
  rewrite IH. apply perm_swap.
Qed.

(** Ordering a result keeps its rows. *)
Lemma order_by_perm {A} (le : A -> A -> bool) l :
  Permutation (order_by le l) l.
Proof.
  induction l as [|x l IH]; simpl; [done|].
  rewrite insert_by_perm. now constructor.
Qed.

Lemma order_by_In {A} (le : A -> A -> bool) l x :
  In x (order_by le l) <-> In x l.
Proof.
  split; apply Permutation_in; [|symmetry]; apply order_by_perm.
Qed.

Lemma Qsum_app l1 l2 : (Qsum (l1 ++ l2) == Qsum l1 + Qsum l2)%Q.
Proof.
  induction l1 as [|x l1 IH]; cbn [app].
  - rewrite Qsum_nil. ring.
  - rewrite !Qsum_cons, IH. ring.
Qed.

Lemma Qsum_perm l l' : Permutation l l' -> (Qsum l == Qsum l')%Q.
Proof.
  induction 1 as [|x l l' _ IH|x y l|l l' l'' _ IH1 _ IH2].
  - reflexivity.
  - rewrite !Qsum_cons, IH. reflexivity.
  - rewrite !Qsum_cons. ring.
  - now rewrite IH1.
Qed.

(** Adding a member to a keyed group, created on first use, adds that
    member to the members of all groups and nothing else. *)
Lemma upsert_members {A X} (key : A -> string) (members : A -> list X)
    (k : string) (init : A) (f : A -> A) (x : X) :
  members init = [] ->
  (forall g, Permutation (members (f g)) (x :: members g)) ->
  forall groups,
    Permutation (flat_map members (upsert key k init f groups))
                (x :: flat_map members groups).
Proof.
  intros Hinit Hf groups.
  induction groups as [|g groups IH]; cbn [upsert flat_map].
  - rewrite Hf, Hinit. reflexivity.
  - destruct (String.eqb (key g) k); cbn [flat_map].
    + rewrite Hf. reflexivity.
    + rewrite IH. symmetry. apply Permutation_middle.
Qed.

(** The accounts reported under a type group. *)
Lemma add_to_type_members a t :
  Permutation (flat_map tc_accounts (tt_categories (add_to_type a t)))
              (a :: flat_map tc_accounts (tt_categories t)).
Proof.
  unfold add_to_type. cbn [tt_categories].
  apply upsert_members; [reflexivity|].
  intros g. cbn [add_to_category tc_accounts].
  symmetry. apply Permutation_cons_append.
Qed.

Lemma grouped_with_members groups a :
  Permutation
    (flat_map (fun t => flat_map tc_accounts (tt_categories t))
              (grouped_with groups a))
    (a :: flat_map (fun t => flat_map tc_accounts (tt_categories t)) groups).
Proof.
  unfold grouped_with.
  apply (upsert_members tt_name
           (fun t => flat_map tc_accounts (tt_categories t))); [reflexivity|].
  apply add_to_type_members.
Qed.

(** A loop that did not throw is the fold of its steps. *)
Lemma for_each_inr {S X} (step : S -> X -> js_error + S) (pure : S -> X -> S) :
  (forall s x s', step s x = inr s' -> s' = pure s x) ->
  forall l s s', for_each step l s = inr s' -> s' = fold_left pure l s.
Proof.
  intros Hstep. induction l as [|x l IH]; intros s s' H; cbn [for_each fold_left] in *.
  - now injection H as <-.
  - destruct (step s x) as [e|s1] eqn:E; [discriminate|].
    rewrite <- (Hstep s x s1 E). now apply IH.
Qed.

(** A loop none of whose steps throws does not throw. *)
Lemma for_each_ok {S X} (step : S -> X -> js_error + S) (pure : S -> X -> S)
    (ok : X -> Prop) :
  (forall s x, ok x -> step s x = inr (pure s x)) ->
  forall l s, Forall ok l -> for_each step l s = inr (fold_left pure l s).
Proof.
  intros Hstep. induction l as [|x l IH]; intros s Hall; cbn [for_each fold_left].
  - reflexivity.
  - apply List.Forall_cons_iff in Hall as [Hx Hall].
    rewrite (Hstep s x Hx). now apply IH.
Qed.

Lemma for_each_app {S X} (step : S -> X -> js_error + S) l1 l2 s :
  for_each step (l1 ++ l2) s
  = match for_each step l1 s with
    | inl e => inl e
    | inr s' => for_each step l2 s'
    end.
Proof.
  revert s. induction l1 as [|x l1 IH]; intros s; cbn [app for_each]; [reflexivity|].
  destruct (step s x); [reflexivity|apply IH].
Qed.

Lemma group_account_inr groups a groups' :
  group_account groups a = inr groups' ->
  groups' = grouped_with groups a
  /\ inherited (tr_accountTypeName (ta_row a)) = false
  /\ inherited (or_uncategorized (tr_accountCategoryName (ta_row a))) = false.
Proof.
  unfold group_account.
  destruct (inherited (tr_accountTypeName (ta_row a))); [discriminate|].
  destruct (inherited (or_uncategorized _)); [discriminate|].
  intros [= <-]. done.
Qed.

Lemma tb_step_inr st r st' : tb_step st r = inr st' -> st' = tb_add st r.
Proof.
  unfold tb_step, tb_add. cbv zeta.
  destruct (group_account (acc_grouped st) (classify r)) as [e|g] eqn:E; [discriminate|].
  apply group_account_inr in E as (-> & _). now intros [= <-].
Qed.

(** The grouped structure reports the classified accounts, all of them
    and no other. *)
Lemma tb_add_grouped rows : forall st,
  Permutation
    (flat_map (fun t => flat_map tc_accounts (tt_categories t))
              (acc_grouped (fold_left tb_add rows st)))
    (flat_map (fun t => flat_map tc_accounts (tt_categories t)) (acc_grouped st)
     ++ map classify rows).
Proof.
  induction rows as [|r rows IH]; intros st; cbn [fold_left map].
  - now rewrite app_nil_r.
  - rewrite IH. cbn [tb_add acc_grouped].
    rewrite grouped_with_members. cbn [app]. apply Permutation_middle.
Qed.

(** The totals add up the two columns. *)
Lemma tb_add_totals rows : forall st,
  (acc_totalDebits (fold_left tb_add rows st) ==
   acc_totalDebits st + Qsum (map ta_debitBalance (map classify rows)))%Q
  /\ (acc_totalCredits (fold_left tb_add rows st) ==
      acc_totalCredits st + Qsum (map ta_creditBalance (map classify rows)))%Q.
Proof.
  induction rows as [|r rows IH]; intros st; cbn [fold_left map].
  - split; rewrite Qsum_nil; ring.
  - destruct (IH (tb_add st r)) as (Hd & Hc).
    rewrite Hd, Hc. cbn [tb_add acc_totalDebits acc_totalCredits].
    split; rewrite Qsum_cons; ring.
Qed.

Lemma filter_split_perm {A} (p : A -> bool) (l : list A) :
  Permutation (List.filter p l ++ List.filter (fun x => negb (p x)) l) l.
Proof.
  induction l as [|x l IH]; cbn [List.filter]; [reflexivity|].
  destruct (p x); cbn [negb app].
  - now constructor.
  - symmetry. etransitivity; [|apply Permutation_middle]. constructor. now symmetry.
Qed.

(** [Object.values] lists the own properties, all of them and no other. *)
Lemma object_values_perm {A} (key : A -> string) (own : list A) :
  Permutation (object_values key own) own.
Proof.
  unfold object_values. rewrite order_by_perm. apply filter_split_perm.
Qed.

Lemma flat_map_perm_pointwise {A B} (f g : A -> list B) (l : list A) :
  (forall x, Permutation (f x) (g x)) ->
  Permutation (flat_map f l) (flat_map g l).
Proof.
  intros H. induction l as [|x l IH]; cbn [flat_map]; [reflexivity|].
  now apply Permutation_app.
Qed.

Lemma flat_map_map {A B C} (f : B -> list C) (g : A -> B) (l : list A) :
  flat_map f (map g l) = flat_map (fun x => f (g x)) l.
Proof. induction l as [|x l IH]; cbn [map flat_map]; [done|]. now rewrite IH. Qed.

(** The accounts of the answer are those of the groups the loop built. *)
Lemma answered_groups_accounts (groups : list tb_type) :
  Permutation
    (flat_map (fun t => flat_map tc_accounts (tt_categories t))
              (map with_category_values (object_values tt_name groups)))
    (flat_map (fun t => flat_map tc_accounts (tt_categories t)) groups).
Proof.
  rewrite flat_map_map.
  etransitivity.
  - apply flat_map_perm_pointwise. intros t. cbn [with_category_values tt_categories].
    apply Permutation_flat_map, object_values_perm.
  - apply Permutation_flat_map, object_values_perm.
Qed.

(** What a trial balance that is answered 200 was computed from. *)
Lemma trialBalance_answered s organization_id asOfDate today m tb :
  trialBalance s organization_id asOfDate today = json 200 (Data m tb) ->
  let final := fold_left tb_add (tb_query organization_id s)
                         {| acc_grouped := [];
                            acc_totalDebits := 0; acc_totalCredits := 0 |} in
  for_each tb_step (tb_query organization_id s)
           {| acc_grouped := []; acc_totalDebits := 0; acc_totalCredits := 0 |}
  = inr final
  /\ tb_trialBalance tb
     = map with_category_values (object_values tt_name (acc_grouped final))
  /\ totalDebits (tb_totals_of tb) = acc_totalDebits final
  /\ totalCredits (tb_totals_of tb) = acc_totalCredits final
  /\ difference (tb_totals_of tb)
     = Qabs (totalDebits (tb_totals_of tb) - totalCredits (tb_totals_of tb)).
Proof.
  unfold trialBalance. intros H. cbv zeta.
  destruct (for_each tb_step (tb_query organization_id s) _) as [e|final] eqn:E;
    [discriminate|].
  pose proof (for_each_inr tb_step tb_add tb_step_inr _ _ _ E) as Hfinal.
  rewrite <- Hfinal. injection H as _ <-.
  cbn [tb_trialBalance tb_totals_of totalDebits totalCredits difference]. done.
Qed.

(** The accounts a 200 answer lists are the rows of the query, each
    with its columns set, all of them and no other. *)
Lemma trialBalance_lists_the_query s organization_id asOfDate today m tb :
  trialBalance s organization_id asOfDate today = json 200 (Data m tb) ->
  Permutation (tb_listed tb) (map classify (tb_query organization_id s)).
Proof.
  intros H. apply trialBalance_answered in H as (_ & Hg & _).
  unfold tb_listed. rewrite Hg, answered_groups_accounts.
  apply (tb_add_grouped (tb_query organization_id s)
           {| acc_grouped := []; acc_totalDebits := 0; acc_totalCredits := 0 |}).
Qed.

(** The grand totals of a 200 answer add up the columns of the listed
    accounts. *)
Lemma trialBalance_totals_sum s organization_id asOfDate today m tb :
  trialBalance s organization_id asOfDate today = json 200 (Data m tb) ->
  (totalDebits (tb_totals_of tb) == Qsum (map ta_debitBalance (tb_listed tb)))%Q
  /\ (totalCredits (tb_totals_of tb) == Qsum (map ta_creditBalance (tb_listed tb)))%Q.
Proof.
  intros H. pose proof (trialBalance_lists_the_query _ _ _ _ _ _ H) as Hp.
  apply trialBalance_answered in H as (_ & _ & -> & -> & _).
  destruct (tb_add_totals (tb_query organization_id s)
              {| acc_grouped := []; acc_totalDebits := 0; acc_totalCredits := 0 |})
    as [Hd Hc].
  cbn [acc_totalDebits acc_totalCredits] in Hd, Hc.
  rewrite Hd, Hc.
  rewrite (Qsum_perm _ _ (Permutation_map ta_debitBalance Hp)).
  rewrite (Qsum_perm _ _ (Permutation_map ta_creditBalance Hp)).
  split; ring.
Qed.

Lemma left_join_Some {B} (l : list B) x : In (Some x) (left_join l) <-> In x l.
Proof.
  destruct l as [|y l]; cbn [left_join].
  - split; [intros [H|[]]; discriminate | intros []].
  - rewrite List.in_map_iff. split.
    + intros (z & [= ->] & Hz). exact Hz.
    + intros H. eauto.
Qed.

Lemma left_join_None {B} (l : list B) : l = [] -> In None (left_join l).
Proof. intros ->. now left. Qed.

Lemma left_join_inhabited {B} (l : list B) : exists c, In c (left_join l).
Proof.
  destruct l as [|y l]; cbn [left_join]; [exists None|exists (Some y)]; now left.
Qed.

Lemma accounts_with_types_In s a t :
  In (a, t) (accounts_with_types s) <->
  In a (accounts s) /\ In t (account_types s) /\ at_id t = acc_account_type_id a.
Proof.
  unfold accounts_with_types. rewrite List.in_flat_map. split.
  - intros (a' & Ha & Hin). apply List.in_map_iff in Hin as (t' & [= -> ->] & Ht).
    apply List.filter_In in Ht as [Ht Heq]. apply Z.eqb_eq in Heq. done.
  - intros (Ha & Ht & Heq). exists a. split; [done|].
    apply List.in_map_iff. exists t. split; [done|].
    apply List.filter_In. split; [done|]. now apply Z.eqb_eq.
Qed.

(** The query lists an account of the organization once for each of
    its balance rows, and once with a NULL balance when it has none. *)
Lemma tb_query_lists s org a t (q : option Q) :
  In (a, t) (accounts_with_types s) ->
  acc_organization_id a = org ->
  In q (map (option_map bal_balance) (balances_of a s)) ->
  exists r, In r (tb_query org s)
            /\ tr_id r = acc_id a
            /\ tr_normalBalance r = at_normal_balance t
            /\ tr_balance r = q.
Proof.
  intros Hat Ho Hq. apply List.in_map_iff in Hq as (b & <- & Hb).
  destruct (left_join_inhabited
              (List.filter (fun c => bool_decide (acc_account_category_id a = Some (cat_id c)))
                           (account_categories s))) as [c Hc].
  eexists. split.
  - unfold tb_query. apply order_by_In. apply List.in_flat_map.
    exists (a, t). split.
    + apply List.filter_In. split; [done|]. now apply Z.eqb_eq.
    + cbn [fst snd]. apply List.in_flat_map. exists c. split; [exact Hc|].
      apply List.in_map_iff. exists b. split; [reflexivity|exact Hb].
  - done.
Qed.

(** C7, the code at a failing input.  Rent, an expense account of
    organization 1, is in a category named 'constructor'.  The lookup
    [typeGroup.categories['constructor']] finds the member every object
    inherits, no category group is created, [categoryGroup.accounts] is
    undefined and [push] throws: the trial balance of organization 1
    lists no account and passes a TypeError on, which the client
    receives as 500 SERVER_ERROR.  With the category named 'Premises'
    the same books are answered 200. *)
Theorem trialBalance_throws_on_inherited_category_name :
  trialBalance (books_with_category "constructor") 1 None "2024-02-01"
    = Next (cannot_read "push")
  /\ respond false (trialBalance (books_with_category "constructor") 1 None "2024-02-01")
     = server_error
  /\ answered_status (trialBalance (books_with_category "Premises") 1 None "2024-02-01")
     = Some 200.
Proof. vm_compute. repeat split; reflexivity. Qed.

(** ** Income statement *)

(** The per-account accumulator holds, for every account id, the sum of
    the amounts of the transactions of that account. *)
Lemma accumulate_fold amount transactions : forall (byAccount : gmap Z Q) k,
  (default 0 (fold_left (accumulate amount) transactions byAccount !! k) ==
   default 0 (byAccount !! k)
   + Qsum (map amount (List.filter (fun t => jel_account_id t =? k) transactions)))%Q.
Proof.
  induction transactions as [|t rest IH]; intros byAccount k; cbn [fold_left List.filter].
  - cbn [map]. rewrite Qsum_nil. ring.
  - rewrite IH. unfold accumulate.
    destruct (Z.eqb_spec (jel_account_id t) k) as [->|Hne].
    + rewrite lookup_insert_eq. cbn [map]. rewrite Qsum_cons.
      destruct (byAccount !! k) as [v|] eqn:Hv;
        cbn [default from_option Datatypes.id]; [|ring].
      destruct (Qeq_bool v 0) eqn:Hz; [|ring].
      apply Qeq_bool_iff in Hz. rewrite Hz. ring.
    + rewrite lookup_insert_ne by done. ring.
Qed.

Lemma filter_map_fst {A B} (p : A -> bool) (l : list (A * B)) :
  List.filter p (map fst l) = map fst (List.filter (fun row => p (fst row)) l).
Proof.
  induction l as [|x l IH]; simpl; [done|].
  destruct (p (fst x)); simpl; now rewrite IH.
Qed.

Lemma filter_filter {A} (p q : A -> bool) (l : list A) :
  List.filter p (List.filter q l) = List.filter (fun x => q x && p x) l.
Proof.
  induction l as [|x l IH]; simpl; [done|].
  destruct (q x); simpl; [destruct (p x)|]; now rewrite IH.
Qed.

(** Among the transactions selected for a set of accounts, those of one
    account of the set are its posted lines of the period. *)
Lemma period_transactions_of_account ids id org startDate endDate s :
  id ∈ ids ->
  List.filter (fun t => jel_account_id t =? id)
              (period_transactions ids org startDate endDate s)
  = period_lines_of id org startDate endDate s.
Proof.
  intros Hin. unfold period_transactions, period_lines_of.
  rewrite filter_map_fst, filter_filter. f_equal.
  apply filter_ext_bool. intros [l e]. cbn [fst snd].
  destruct (Z.eqb_spec (jel_account_id l) id) as [->|Hne].
  - rewrite bool_decide_eq_true_2 by done. now rewrite andb_true_r.
  - rewrite andb_false_r. reflexivity.
Qed.

(** One side of the statement: each account carries the sum of the
    amounts of its period lines and the total adds the accounts up. *)
Lemma statement_side_balances typeName amount org startDate endDate s :
  let side := statement_side typeName amount org startDate endDate s in
  Forall (fun x => (ia_balance x ==
                    Qsum (map amount (period_lines_of (ia_id x) org startDate endDate s)))%Q)
         (fst side)
  /\ (snd side == Qsum (map ia_balance (fst side)))%Q.
Proof.
  unfold statement_side. cbn [fst snd]. split.
  - apply List.Forall_forall. intros x Hx.
    apply List.in_map_iff in Hx as (row & <- & Hrow).
    cbn [with_balance ia_balance ia_id].
    rewrite accumulate_fold, lookup_empty. cbn [default from_option Datatypes.id].
    rewrite period_transactions_of_account.
    + ring.
    + apply list_elem_of_In. apply List.in_map_iff. eauto.
  - rewrite fold_left_Qplus. ring.
Qed.

Lemma accounts_of_type_In typeName org s a c :
  In (a, c) (accounts_of_type typeName org s) <->
  exists t, In (a, t) (accounts_with_types s)
            /\ acc_organization_id a = org
            /\ at_name t = typeName
            /\ In c (categories_of a s).
Proof.
  unfold accounts_of_type. rewrite List.in_flat_map. split.
  - intros ([a' t] & Hf & Hin). cbn [fst] in Hin.
    apply List.in_map_iff in Hin as (c' & [= -> ->] & Hc).
    apply List.filter_In in Hf as [Hat Hp]. cbn [fst snd] in Hp.
    apply andb_true_iff in Hp as [Ho Hn].
    apply Z.eqb_eq in Ho. apply String.eqb_eq in Hn. eauto 6.
  - intros (t & Hat & Ho & Hn & Hc). exists (a, t). split.
    + apply List.filter_In. split; [done|]. cbn [fst snd].
      apply andb_true_iff. split; [now apply Z.eqb_eq | now apply String.eqb_eq].
    + apply List.in_map_iff. eauto.
Qed.

(** Grouping by category loses no account and invents none. *)
Lemma categorized_accounts accounts : forall groups,
  Permutation (flat_map ic_accounts (fold_left categorized_with accounts groups))
              (flat_map ic_accounts groups ++ accounts).
Proof.
  induction accounts as [|a rest IH]; intros groups; cbn [fold_left].
  - now rewrite app_nil_r.
  - rewrite IH. unfold categorized_with. cbv zeta.
    rewrite (upsert_members ic_name ic_accounts _ _ _ a).
    + cbn [app]. apply Permutation_middle.
    + reflexivity.
    + intros g. cbn [add_to_is_category ic_accounts].
      symmetry. apply Permutation_cons_append.
Qed.

Lemma categorize_inr groups a groups' :
  categorize groups a = inr groups' -> groups' = categorized_with groups a.
Proof.
  unfold categorize. destruct (inherited _); [discriminate|]. now intros [= <-].
Qed.

(** A grouping that did not throw is the fold of its steps. *)
Lemma by_category_inr accounts groups :
  by_category accounts = inr groups ->
  groups = fold_left categorized_with accounts [].
Proof. apply (for_each_inr categorize categorized_with categorize_inr). Qed.

(** No category name is inherited from [Object.prototype]. *)
Lemma by_category_ok accounts :
  Forall (fun a => inherited (or_uncategorized (ia_categoryName a)) = false) accounts ->
  by_category accounts = inr (fold_left categorized_with accounts []).
Proof.
  apply (for_each_ok categorize categorized_with
           (fun a => inherited (or_uncategorized (ia_categoryName a)) = false)).
  intros groups a Ha. unfold categorize. now rewrite Ha.
Qed.


(** What an income statement that is answered 200 was computed from. *)
Lemma incomeStatement_answered s organization_id startDate endDate m statement :
  incomeStatement s organization_id (Some startDate) (Some endDate)
    = json 200 (Data m statement) ->
  let revenueSide := statement_side "Revenue" revenue_amount
                                    organization_id startDate endDate s in
  let expenseSide := statement_side "Expense" expense_amount
                                    organization_id startDate endDate s in
  by_category (fst revenueSide) = inr (fold_left categorized_with (fst revenueSide) [])
  /\ by_category (fst expenseSide) = inr (fold_left categorized_with (fst expenseSide) [])
  /\ statement =
       {| revenue :=
            {| sec_categories :=
                 object_values ic_name (fold_left categorized_with (fst revenueSide) []);
               sec_total := snd revenueSide |};
          expenses :=
            {| sec_categories :=
                 object_values ic_name (fold_left categorized_with (fst expenseSide) []);
               sec_total := snd expenseSide |};
          netIncome := (snd revenueSide - snd expenseSide)%Q;
          period := (startDate, endDate) |}.
Proof.
  unfold incomeStatement. cbv zeta.
  destruct (statement_side "Revenue" revenue_amount organization_id startDate endDate s)
    as [revenueAccounts totalRevenue].
  destruct (statement_side "Expense" expense_amount organization_id startDate endDate s)
    as [expenseAccounts totalExpenses].
  cbn [fst snd].
  destruct (by_category revenueAccounts) as [e|r] eqn:Er; [discriminate|].
  destruct (by_category expenseAccounts) as [e|x] eqn:Ex; [discriminate|].
  apply by_category_inr in Er as ->. apply by_category_inr in Ex as ->.
  intros [= <-]. done.
Qed.

(** The income statement is answered 200 when the grouping of neither
    side throws. *)
Lemma incomeStatement_answers s organization_id startDate endDate :
  let revenueSide := statement_side "Revenue" revenue_amount
                                    organization_id startDate endDate s in
  let expenseSide := statement_side "Expense" expense_amount
                                    organization_id startDate endDate s in
  Forall (fun a => inherited (or_uncategorized (ia_categoryName a)) = false)
         (fst revenueSide) ->
  Forall (fun a => inherited (or_uncategorized (ia_categoryName a)) = false)
         (fst expenseSide) ->
  incomeStatement s organization_id (Some startDate) (Some endDate)
  = json 200
      (Data None
         {| revenue :=
              {| sec_categories :=
                   object_values ic_name (fold_left categorized_with (fst revenueSide) []);
                 sec_total := snd revenueSide |};
            expenses :=
              {| sec_categories :=
                   object_values ic_name (fold_left categorized_with (fst expenseSide) []);
                 sec_total := snd expenseSide |};
            netIncome := (snd revenueSide - snd expenseSide)%Q;
            period := (startDate, endDate) |}).
Proof.
  cbv zeta. intros Hr He. unfold incomeStatement.
  destruct (statement_side "Revenue" revenue_amount organization_id startDate endDate s)
    as [revenueAccounts totalRevenue].
  destruct (statement_side "Expense" expense_amount organization_id startDate endDate s)
    as [expenseAccounts totalExpenses].
  cbn [fst snd] in *.
  now rewrite (by_category_ok _ Hr), (by_category_ok _ He).
Qed.

(** The accounts the categories of an answered side report are the
    accounts of the side, all of them and no other. *)
Lemma answered_categories_accounts accounts :
  Permutation
    (flat_map ic_accounts (object_values ic_name (fold_left categorized_with accounts [])))
    accounts.
Proof.
  rewrite (Permutation_flat_map ic_accounts (object_values_perm ic_name _)).
  apply (categorized_accounts accounts []).
Qed.

(** C8, the code at a failing input.  Rent, an expense account of
    organization 1, is in a category named 'constructor'.  The lookup
    [expensesByCategory['constructor']] finds the member every object
    inherits, no category group is created, its [accounts] is undefined
    and [push] throws: the income statement of organization 1 for
    January reports no total and passes a TypeError on, which the
    client receives as 500 SERVER_ERROR.  With the category named
    'Premises' the same books are answered 200. *)
Theorem incomeStatement_throws_on_inherited_category_name :
  incomeStatement (books_with_category "constructor") 1 (Some 20240101) (Some 20240131)
    = Next (cannot_read "push")
  /\ respond false (incomeStatement (books_with_category "constructor") 1
                                    (Some 20240101) (Some 20240131))
     = server_error
  /\ answered_status (incomeStatement (books_with_category "Premises") 1
                                      (Some 20240101) (Some 20240131))
     = Some 200.
Proof. vm_compute. repeat split; reflexivity. Qed.

(** ** Account update *)

(** A body key typed by the schema is a number, null or absent; the URL
    parameter is a string; [===] never holds between them. *)
Lemma body_id_never_equals_url_parameter (x : option (option Z)) (accountId : string) :
  strict_equals (js_of_nullable_id x) (JString accountId) = false.
Proof. destruct x as [[n|]|]; reflexivity. Qed.

(** The self-parent refusal is never given. *)
Lemma self_parent_refusal_unreachable s org accountId u :
  parent_account_check s org accountId u <>
    Some (bad_request "INVALID_PARENT_ACCOUNT" "An account cannot be its own parent").
Proof.
  unfold parent_account_check.
  rewrite body_id_never_equals_url_parameter.
  destruct (negb (strict_equals (js_of_nullable_id (u_parentAccountId u)) JUndefined));
    [|discriminate].
  destruct (negb (strict_equals (js_of_nullable_id (u_parentAccountId u)) JNull));
    [|discriminate].
  destruct (List.filter _ (accounts s)); discriminate.
Qed.

(** C9, the code at a failing input.  PUT /accounts/1/organization/1
    with body {parentAccountId: 1} on the example books is answered
    200, and Cash is stored as its own parent. *)
Theorem updateAccount_accepts_own_id_as_parent :
  exists s' view,
    updateAccount 9 books "1" "1" (set_parent (Some 1)) =
      (s', json 200 (Data (Some "Account updated successfully") view))
    /\ av_id view = 1
    /\ av_parentAccountId view = Some 1
    /\ map (fun a => (acc_id a, acc_parent_account_id a)) (accounts s') =
         [(1, Some 1); (2, None); (3, None); (4, None)]
    /\ error_code (snd (updateAccount 9 books "1" "1" (set_parent (Some 1))))
         <> Some "INVALID_PARENT_ACCOUNT".
Proof.
  eexists _, _. split; [vm_compute; reflexivity|].
  repeat split. vm_compute. discriminate.
Qed.

(** A parent that does not exist in the organization is refused, and
    the store is left as it was. *)
Lemma updateAccount_unknown_parent_refused :
  updateAccount 9 books "1" "1" (set_parent (Some 4)) =
    (books, bad_request "INVALID_PARENT_ACCOUNT"
              "The specified parent account does not exist or does not belong to this organization").
Proof. vm_compute. reflexivity. Qed.

(** Whatever the store and the body, the handler never answers that an
    account cannot be its own parent. *)
Lemma updateAccount_never_refuses_self_parent now s accountId organizationId u :
  snd (updateAccount now s accountId organizationId u) <>
    bad_request "INVALID_PARENT_ACCOUNT" "An account cannot be its own parent".
Proof.
  unfold updateAccount.
  destruct (store_int accountId) as [id|]; [|discriminate].
  destruct (store_int organizationId) as [org|]; [|discriminate].
  destruct (List.filter _ (accounts s)) as [|existing rest]; [discriminate|].
  destruct (duplicate_code_check s org id existing u) as [r|] eqn:Hd.
  { unfold duplicate_code_check in Hd.
    destruct (_ && _) in Hd; [|discriminate].
    destruct (List.filter _ _) in Hd; [discriminate|].
    injection Hd as <-. discriminate. }
  destruct (account_type_check s u) as [r|] eqn:Ht.
  { unfold account_type_check in Ht.
    destruct (truthy_id _) in Ht; [|discriminate].
    destruct (List.filter _ _) in Ht; [|discriminate].
    injection Ht as <-. discriminate. }
  destruct (account_category_check s org u) as [r|] eqn:Hc.
  { unfold account_category_check in Hc.
    destruct (truthy_id _) in Hc; [|discriminate].
    destruct (List.filter _ _) in Hc; [|discriminate].
    injection Hc as <-. discriminate. }
  destruct (parent_account_check s org accountId u) as [r|] eqn:Hp.
  { cbn [snd]. intros ->. now apply self_parent_refusal_unreachable in Hp. }
  destruct (view_account id _); discriminate.
Qed.

(** ** End-to-end checks on the example books *)

(** Debit Cash 100 and credit Sales 100 on 15 January 2024: the ledger
    of Cash shows 100, the income statement of January shows revenue
    100 and net income 100. *)
Example cash_sale_end_to_end :
  let posted := fst (postJournalEntry 7 books cash_sale) in
  shown_balances (getLedger posted 1 1 None None 1 50) = [(1, 100%Q)]
  /\ match incomeStatement posted 1 (Some 20240101) (Some 20240131) with
     | Responded {| payload := Data _ statement |} =>
         sec_total (revenue statement) = 100%Q /\ netIncome statement = 100%Q
     | _ => False
     end.
Proof. vm_compute. repeat split. Qed.

(** Debit 100 against credit 90 is refused with difference 10 and no
    row is created. *)
Example lopsided_sale_end_to_end :
  postJournalEntry 7 books lopsided_sale =
    (books, json 400
              (Failure "UNBALANCED_ENTRY"
                 "Journal entry must be balanced (total debits must equal total credits)"
                 (Some (UnbalancedDetails 100 90 10)))).
Proof. vm_compute. reflexivity. Qed.

(** Two debit lines on Cash raise its balance by their sum. *)
Example split_sale_balances :
  map bal_balance (account_balances (fst (postJournalEntry 7 books split_sale)))
    = [100%Q; 100%Q; 500%Q].
Proof. vm_compute. reflexivity. Qed.

(** * Further properties of the handlers *)

(** ** Posting: atomicity, keys, response *)

Lemma next_id_above ids x : In x ids -> x < next_id ids.
Proof.
  unfold next_id. induction ids as [|y ids IH]; intros H; [destruct H|].
  cbn [fold_right]. destruct H as [->|H]; [lia|]. specialize (IH H). lia.
Qed.

Lemma next_id_fresh ids : ~ In (next_id ids) ids.
Proof. intros H. apply next_id_above in H. lia. Qed.

Lemma number_lines_length e ls : forall first,
  length (number_lines e first ls) = length ls.
Proof. induction ls as [|l ls IH]; intros first; simpl; [done|]. now rewrite IH. Qed.

Lemma number_lines_from e ls : forall first l,
  In l (number_lines e first ls) ->
  first <= jel_id l /\ jel_journal_entry_id l = e.
Proof.
  induction ls as [|x ls IH]; intros first l H; [destruct H|].
  cbn [number_lines] in H. destruct H as [<-|H].
  - cbn. split; [lia|done].
  - apply IH in H as [H1 H2]. split; [lia|done].
Qed.

Lemma number_lines_NoDup e ls : forall first,
  List.NoDup (map jel_id (number_lines e first ls)).
Proof.
  induction ls as [|x ls IH]; intros first; cbn [number_lines map].
  - constructor.
  - constructor; [|apply IH].
    intros H. apply List.in_map_iff in H as (l & Hid & Hl).
    apply number_lines_from in Hl as [Hl _]. cbn in Hid. lia.
Qed.

Lemma NoDup_app_fresh {A} (l1 l2 : list A) :
  List.NoDup l1 -> List.NoDup l2 -> (forall x, In x l2 -> ~ In x l1) ->
  List.NoDup (l1 ++ l2).
Proof.
  intros H1 H2 Hd. induction H1 as [|x l1 Hx H1 IH]; [done|].
  cbn [app]. constructor.
  - rewrite List.in_app_iff. intros [H|H]; [done|].
    apply (Hd x H). now left.
  - apply IH. intros y Hy Hin. apply (Hd y Hy). now right.
Qed.


(** X2.  A successful posting only appends.  The entries and lines that
    were stored are kept in place; one entry is added, with status
    'posted', the organization of the request and an id no stored entry
    has; one line is added for each line of the request, each on the
    new entry, with ids that are pairwise distinct and that no stored
    line has.  Unique entry ids and unique line ids stay unique. *)
Theorem postJournalEntry_appends_with_fresh_ids
    (now : Z) (st st' : db) (req : journal_entry_input)
    (m : option string) (data : created_entry) :
  postJournalEntry now st req = (st', json 201 (Data m data)) ->
  exists entry new_lines,
    journal_entries st' = journal_entries st ++ [entry]
    /\ journal_entry_lines st' = journal_entry_lines st ++ new_lines
    /\ je_status entry = "posted"
    /\ je_organization_id entry = organizationId req
    /\ ~ In (je_id entry) (map je_id (journal_entries st))
    /\ length new_lines = length (lines req)
    /\ Forall (fun l => jel_journal_entry_id l = je_id entry
                        /\ ~ In (jel_id l) (map jel_id (journal_entry_lines st)))
              new_lines
    /\ List.NoDup (map jel_id new_lines)
    /\ (List.NoDup (map je_id (journal_entries st)) ->
        List.NoDup (map je_id (journal_entries st')))
    /\ (List.NoDup (map jel_id (journal_entry_lines st)) ->
        List.NoDup (map jel_id (journal_entry_lines st'))).
Proof.
  intros H. apply postJournalEntry_created_inv in H as (_ & _ & ->).
  exists (posted_entry now req st), (posted_lines req st).
  cbn [committed_store journal_entries journal_entry_lines].
  assert (Hfresh : Forall (fun l => jel_journal_entry_id l = je_id (posted_entry now req st)
                        /\ ~ In (jel_id l) (map jel_id (journal_entry_lines st)))
                          (posted_lines req st)).
  { apply List.Forall_forall. intros l Hl. unfold posted_lines in Hl.
    apply number_lines_from in Hl as [Hge He]. split; [exact He|].
    intros Hin. apply next_id_above in Hin. lia. }
  split; [reflexivity|]. split; [reflexivity|]. split; [reflexivity|].
  split; [reflexivity|]. split; [apply next_id_fresh|].
  split; [apply number_lines_length|]. split; [exact Hfresh|].
  split; [apply number_lines_NoDup|]. split.
  - intros Hnd. rewrite map_app. apply NoDup_app_fresh; [done| |].
    + cbn. constructor; [intros []|constructor].
    + intros x [<-|[]]. apply next_id_fresh.
  - intros Hnd. rewrite map_app. apply NoDup_app_fresh; [done| |].
    + apply number_lines_NoDup.
    + intros x Hx. apply List.in_map_iff in Hx as (l & <- & Hl).
      rewrite List.Forall_forall in Hfresh. now apply Hfresh.
Qed.

(** A cash sale posted on the example books. *)
Lemma postJournalEntry_appends_with_fresh_ids_witness :
  exists entry new_lines,
    journal_entries (fst (postJournalEntry 7 books cash_sale))
      = journal_entries books ++ [entry]
    /\ journal_entry_lines (fst (postJournalEntry 7 books cash_sale))
       = journal_entry_lines books ++ new_lines
    /\ je_status entry = "posted"
    /\ je_organization_id entry = organizationId cash_sale
    /\ ~ In (je_id entry) (map je_id (journal_entries books))
    /\ length new_lines = length (lines cash_sale)
    /\ Forall (fun l => jel_journal_entry_id l = je_id entry
                        /\ ~ In (jel_id l) (map jel_id (journal_entry_lines books)))
              new_lines
    /\ List.NoDup (map jel_id new_lines)
    /\ (List.NoDup (map je_id (journal_entries books)) ->
        List.NoDup (map je_id (journal_entries (fst (postJournalEntry 7 books cash_sale)))))
    /\ (List.NoDup (map jel_id (journal_entry_lines books)) ->
        List.NoDup (map jel_id
                      (journal_entry_lines (fst (postJournalEntry 7 books cash_sale))))).
Proof.
  eapply (postJournalEntry_appends_with_fresh_ids 7 books _ cash_sale).
  vm_compute. reflexivity.
Defined.

Lemma insert_by_front {A} (le : A -> A -> bool) x l :
  Forall (fun y => le x y = true) l -> insert_by le x l = x :: l.
Proof.
  intros H. destruct l as [|y l]; [done|].
  inversion H as [|? ? Hy _]; subst. cbn [insert_by]. now rewrite Hy.
Qed.

(** Ordering an ordered result changes nothing. *)
Lemma order_by_sorted {A} (le : A -> A -> bool) l :
  StronglySorted (fun x y => le x y = true) l -> order_by le l = l.
Proof.
  induction 1 as [|x l Hs IH Hx]; [done|].
  cbn [order_by fold_right]. fold (order_by le l). rewrite IH.
  now apply insert_by_front.
Qed.

Lemma filter_none {A} (p : A -> bool) (l : list A) :
  (forall x, In x l -> p x = false) -> List.filter p l = [].
Proof.
  induction l as [|x l IH]; intros H; [done|]. cbn [List.filter].
  rewrite (H x) by now left. apply IH. intros y Hy. apply H. now right.
Qed.

Lemma filter_all {A} (p : A -> bool) (l : list A) :
  (forall x, In x l -> p x = true) -> List.filter p l = l.
Proof.
  induction l as [|x l IH]; intros H; [done|]. cbn [List.filter].
  rewrite (H x) by now left. f_equal. apply IH. intros y Hy. apply H. now right.
Qed.

Lemma filter_unique_id (accs : list account) a :
  List.NoDup (map acc_id accs) -> In a accs ->
  List.filter (fun x => acc_id x =? acc_id a) accs = [a].
Proof.
  induction accs as [|x accs IH]; intros Hnd Hin; [destruct Hin|].
  cbn [map] in Hnd. inversion Hnd as [|? ? Hx Hnd']; subst.
  cbn [List.filter]. destruct Hin as [->|Hin].
  - rewrite Z.eqb_refl. f_equal.
    apply filter_none. intros y Hy.
    destruct (Z.eqb_spec (acc_id y) (acc_id a)) as [E|]; [|done].
    exfalso. apply Hx. rewrite <- E. now apply List.in_map.
  - destruct (Z.eqb_spec (acc_id x) (acc_id a)) as [E|_].
    + exfalso. apply Hx. rewrite E. now apply List.in_map.
    + now apply IH.
Qed.

Lemma head_Some_In {A} (l : list A) x : head l = Some x -> In x l.
Proof. destruct l; [done|]. intros [= ->]. now left. Qed.

(** What the lookup of the posting loop returns is a stored account
    with that id, joined with its type. *)
Lemma find_account_Some id s a ty :
  find_account id s = Some (a, ty) ->
  In a (accounts s) /\ acc_id a = id
  /\ In ty (account_types s) /\ at_id ty = acc_account_type_id a.
Proof.
  intros H. apply head_Some_In in H. apply List.filter_In in H as [Hin Hid].
  apply accounts_with_types_In in Hin as (Ha & Ht & Hty).
  cbn [fst] in Hid. apply Z.eqb_eq in Hid. done.
Qed.

(** The lines a posting writes, joined with accounts whose ids are
    unique: one shown line for each request line, in order, with
    ascending ids. *)
Lemma joined_lines_echo s e ls : forall first,
  List.NoDup (map acc_id (accounts s)) ->
  first_missing ls s = None ->
  exists shown,
    flat_map (fun l =>
                map (fun a =>
                       {| cl_id := jel_id l;
                          cl_accountId := jel_account_id l;
                          cl_accountCode := acc_code a;
                          cl_accountName := acc_name a;
                          cl_description := jel_description l;
                          cl_debitAmount := jel_debit_amount l;
                          cl_creditAmount := jel_credit_amount l;
                          cl_taxRate := jel_tax_rate l;
                          cl_taxAmount := jel_tax_amount l |})
                    (List.filter (fun a => acc_id a =? jel_account_id l) (accounts s)))
             (number_lines e first ls) = shown
    /\ Forall2 (echoes s) ls shown
    /\ Forall (fun x => first <= cl_id x) shown
    /\ StronglySorted (fun x y => (cl_id x <=? cl_id y) = true) shown.
Proof.
  induction ls as [|line ls IH]; intros first Hnd Hm.
  - exists []. repeat split; constructor.
  - cbn [first_missing] in Hm.
    destruct (find_account (accountId line) s) as [[a ty]|] eqn:Hf; [|done].
    apply find_account_Some in Hf as (Ha & Hid & _).
    destruct (IH (first + 1) Hnd Hm) as (shown & Hs & He & Hge & Hsorted).
    eexists. split; [reflexivity|].
    cbn [number_lines flat_map line_row jel_account_id].
    pose proof (filter_unique_id _ a Hnd Ha) as Hu. rewrite Hid in Hu.
    rewrite Hu. cbn [map app]. rewrite Hs.
    split; [|split].
    + constructor; [|exact He]. cbn. repeat split. exists a. done.
    + constructor; [cbn; lia|].
      eapply Forall_impl; [exact Hge|]. cbn. intros x Hx. lia.
    + constructor; [exact Hsorted|].
      eapply Forall_impl; [exact Hge|]. cbn. intros x Hx.
      apply Z.leb_le. lia.
Qed.

(** The read-back of a committed posting. *)
Lemma created_lines_committed now req st :
  List.NoDup (map acc_id (accounts st)) ->
  lines_reference_entries st ->
  first_missing (lines req) st = None ->
  Forall2 (echoes st) (lines req)
    (created_lines (next_id (map je_id (journal_entries st)))
                   (committed_store now req st)).
Proof.
  intros Hnd Hfk Hm. unfold created_lines.
  cbn [committed_store journal_entry_lines accounts].
  rewrite List.filter_app.
  rewrite (filter_none _ (journal_entry_lines st)).
  2:{ intros l Hl. unfold lines_reference_entries in Hfk.
      rewrite List.Forall_forall in Hfk. specialize (Hfk l Hl).
      destruct (Z.eqb_spec (jel_journal_entry_id l)
                           (next_id (map je_id (journal_entries st)))) as [E|]; [|done].
      rewrite E in Hfk. now apply next_id_fresh in Hfk. }
  cbn [app]. rewrite filter_all.
  2:{ intros l Hl. unfold posted_lines in Hl.
      apply number_lines_from in Hl as [_ ->]. apply Z.eqb_refl. }
  unfold posted_lines.
  destruct (joined_lines_echo st (next_id (map je_id (journal_entries st)))
              (lines req) (next_id (map jel_id (journal_entry_lines st))) Hnd Hm)
    as (shown & -> & He & _ & Hsorted).
  now rewrite order_by_sorted.
Qed.


Lemma postJournalEntry_created_data now st req st' m data :
  postJournalEntry now st req = (st', json 201 (Data m data)) ->
  first_missing (lines req) st = None
  /\ st' = committed_store now req st
  /\ data = read_created (next_id (map je_id (journal_entries st)))
                         (totalDebit_of (lines req)) (totalCredit_of (lines req))
                         (committed_store now req st).
Proof.
  intros H. pose proof H as H0.
  apply postJournalEntry_created_inv in H0 as (Hb & Hm & ->).
  rewrite (postJournalEntry_found now st req Hb Hm) in H.
  injection H as _ <-. done.
Qed.



Lemma fold_left_echo {B} (f : line_input -> B) (g : created_line -> B)
    (op : Q -> B -> Q) s ls shown :
  Forall2 (echoes s) ls shown ->
  (forall line x, echoes s line x -> g x = f line) ->
  forall a, fold_left (fun acc x => op acc (g x)) shown a
            = fold_left (fun acc line => op acc (f line)) ls a.
Proof.
  intros H Hfg. induction H as [|line x ls shown Hx _ IH]; intros a; [done|].
  cbn [fold_left]. rewrite (Hfg line x Hx). apply IH.
Qed.

(** X4.  What is posted can be read back.  With unique account ids and
    every stored line on a stored entry, after a 201 answer the entry
    is read under its id and the posting organization with the lines
    of the 201 answer and the totals of the request (tax counted as 0
    where a line has none); under the same id and any other
    organization it is answered 404 JOURNAL_ENTRY_NOT_FOUND. *)
Theorem getJournalEntry_reads_what_was_posted
    (now : Z) (st st' : db) (req : journal_entry_input)
    (m : option string) (data : created_entry) :
  postJournalEntry now st req = (st', json 201 (Data m data)) ->
  List.NoDup (map acc_id (accounts st)) ->
  lines_reference_entries st ->
  getJournalEntry st' (je_id (posted_entry now req st)) (organizationId req) =
    json 200
      (Data None
         {| ed_entry := posted_entry now req st;
            ed_lines := ce_lines data;
            ed_totalDebit := totalDebit_of (lines req);
            ed_totalCredit := totalCredit_of (lines req);
            ed_totalTax :=
              fold_left (fun acc line => (acc + default 0%Q (taxAmount line))%Q)
                        (lines req) 0%Q |})
  /\ (forall organization_id,
        organization_id <> organizationId req ->
        getJournalEntry st' (je_id (posted_entry now req st)) organization_id =
          json 404 (Failure "JOURNAL_ENTRY_NOT_FOUND" "Journal entry not found" None)).
Proof.
  intros H Hnd Hfk. apply postJournalEntry_created_data in H as (Hm & -> & ->).
  pose proof (created_lines_committed now req st Hnd Hfk Hm) as He.
  assert (Hold : forall org,
    List.filter (fun e => (je_id e =? next_id (map je_id (journal_entries st)))
                          && (je_organization_id e =? org))
                (journal_entries st) = []).
  { intros org. apply filter_none. intros e Hin.
    destruct (Z.eqb_spec (je_id e) (next_id (map je_id (journal_entries st))))
      as [E|]; [|done].
    exfalso. apply (next_id_fresh (map je_id (journal_entries st))).
    rewrite <- E. now apply List.in_map. }
  unfold getJournalEntry.
  cbn [posted_entry je_id committed_store journal_entries read_created ce_lines].
  split.
  - rewrite List.filter_app, Hold. cbn [app List.filter je_id je_organization_id].
    rewrite !Z.eqb_refl. cbn [andb].
    unfold totalDebit_of, totalCredit_of.
    rewrite <- (fold_left_echo debitAmount cl_debitAmount Qplus st _ _ He),
            <- (fold_left_echo creditAmount cl_creditAmount Qplus st _ _ He),
            <- (fold_left_echo (fun l => default 0%Q (taxAmount l))
                               (fun x => default 0%Q (cl_taxAmount x)) Qplus st _ _ He).
    + reflexivity.
    + intros line x (_ & _ & _ & _ & _ & -> & _). reflexivity.
    + intros line x (_ & _ & _ & -> & _). reflexivity.
    + intros line x (_ & _ & -> & _). reflexivity.
  - intros org Hne. rewrite List.filter_app, Hold.
    cbn [app List.filter je_id je_organization_id].
    rewrite Z.eqb_refl.
    change (je_organization_id (posted_entry now req st)) with (organizationId req).
    destruct (Z.eqb_spec (organizationId req) org) as [E|_]; [congruence|].
    reflexivity.
Qed.

(** A third cash sale posted on books that hold two, then read. *)
Lemma getJournalEntry_reads_what_was_posted_witness :
  let posted := fst (postJournalEntry 7 two_sales (cash_sale_on 20240125 25)) in
  getJournalEntry posted 3 1 =
    json 200
      (Data None
         {| ed_entry := posted_entry 7 (cash_sale_on 20240125 25) two_sales;
            ed_lines := ce_lines (read_created 3 25 25 posted);
            ed_totalDebit := totalDebit_of (lines (cash_sale_on 20240125 25));
            ed_totalCredit := totalCredit_of (lines (cash_sale_on 20240125 25));
            ed_totalTax := 0%Q |})
  /\ getJournalEntry posted 3 2 =
       json 404 (Failure "JOURNAL_ENTRY_NOT_FOUND" "Journal entry not found" None).
Proof.
  intros posted.
  destruct (getJournalEntry_reads_what_was_posted 7 two_sales posted
              (cash_sale_on 20240125 25)
              (Some "Journal entry created successfully")
              (read_created 3 25 25 posted)) as [Hread Hother].
  - vm_compute. reflexivity.
  - distinct_ids.
  - unfold lines_reference_entries. each_row ltac:(cbn; intuition reflexivity).
  - split; [exact Hread|]. apply (Hother 2). discriminate.
Defined.

(** ** Posting and the net debit position *)










(** ** Trial balance: net position, columns, groups *)

Lemma classify_debit_side r :
  (ta_debitBalance (classify r) - ta_creditBalance (classify r)
   == debit_side (classify r))%Q.
Proof.
  unfold debit_side, classify.
  destruct (String.eqb (tr_normalBalance r) "debit") eqn:Hn;
    destruct (Qle_bool 0 (default 0%Q (tr_balance r))) eqn:Hs;
    cbn [ta_row ta_balance ta_debitBalance ta_creditBalance]; rewrite Hn;
    try ring.
  - rewrite Qabs_neg; [ring|].
    apply Qlt_le_weak, Qnot_le_lt. intros H. apply Qle_bool_iff in H. congruence.
  - rewrite Qabs_neg; [ring|].
    apply Qlt_le_weak, Qnot_le_lt. intros H. apply Qle_bool_iff in H. congruence.
Qed.

Lemma classify_columns_sign r :
  (0 <= ta_debitBalance (classify r))%Q
  /\ (0 <= ta_creditBalance (classify r))%Q
  /\ (ta_debitBalance (classify r) = 0%Q \/ ta_creditBalance (classify r) = 0%Q).
Proof.
  unfold classify.
  destruct (String.eqb (tr_normalBalance r) "debit");
    destruct (Qle_bool 0 (default 0%Q (tr_balance r))) eqn:Hs;
    cbn [ta_debitBalance ta_creditBalance];
    repeat split; auto using Qle_refl, Qabs_nonneg;
    now apply Qle_bool_iff.
Qed.

Lemma Qsum_nonneg l : Forall (fun x => (0 <= x)%Q) l -> (0 <= Qsum l)%Q.
Proof.
  induction 1 as [|x l Hx _ IH]; [apply Qle_refl|].
  rewrite Qsum_cons. change 0%Q with (0 + 0)%Q. now apply Qplus_le_compat.
Qed.

(** Every listed account of a 200 answer is a row of the query with its
    columns set. *)
Lemma tb_listed_classified s organization_id asOfDate today m tb a :
  trialBalance s organization_id asOfDate today = json 200 (Data m tb) ->
  In a (tb_listed tb) ->
  exists r, In r (tb_query organization_id s) /\ a = classify r.
Proof.
  intros H Ha. apply trialBalance_lists_the_query in H.
  apply (Permutation_in _ H) in Ha. apply List.in_map_iff in Ha as (r & <- & Hr).
  eauto.
Qed.

Lemma Qsum_difference {A} (f g h : A -> Q) (l : list A) :
  Forall (fun x => (f x - g x == h x)%Q) l ->
  (Qsum (map f l) - Qsum (map g l) == Qsum (map h l))%Q.
Proof.
  induction 1 as [|x l Hx _ IH]; cbn [map].
  - rewrite !Qsum_nil. ring.
  - rewrite !Qsum_cons, <- Hx, <- IH. ring.
Qed.

(** X6.  The trial balance nets out.  In a trial balance that is
    answered 200, totalDebits - totalCredits is the sum, over the
    accounts the answer lists in its groups, of the balance counted on
    its debit side (the balance itself under a 'debit' normal balance,
    its negation otherwise), and the reported difference is the
    absolute value of that sum: a negative balance moved to the other
    column changes neither. *)
Theorem trialBalance_difference_is_net_position
    (s : db) (organization_id : Z) (asOfDate : option string) (today : string)
    (m : option string) (tb : trial_balance) :
  trialBalance s organization_id asOfDate today = json 200 (Data m tb) ->
  (totalDebits (tb_totals_of tb) - totalCredits (tb_totals_of tb)
   == Qsum (map debit_side (tb_listed tb)))%Q
  /\ (difference (tb_totals_of tb)
      == Qabs (Qsum (map debit_side (tb_listed tb))))%Q.
Proof.
  intros H.
  destruct (trialBalance_totals_sum _ _ _ _ _ _ H) as [Hd Hc].
  assert (E : (totalDebits (tb_totals_of tb) - totalCredits (tb_totals_of tb)
               == Qsum (map debit_side (tb_listed tb)))%Q).
  { rewrite Hd, Hc. apply Qsum_difference.
    apply List.Forall_forall. intros a Ha.
    destruct (tb_listed_classified _ _ _ _ _ _ a H Ha) as (r & _ & ->).
    apply classify_debit_side. }
  split; [exact E|].
  apply trialBalance_answered in H as (_ & _ & _ & _ & ->). now rewrite E.
Qed.

(** The example books after three sales: Cash 175 in the debit column,
    Sales 175 in the credit column. *)
Lemma trialBalance_difference_is_net_position_witness :
  exists m tb,
    trialBalance three_sales 1 None "2024-02-01" = json 200 (Data m tb)
    /\ (totalDebits (tb_totals_of tb) - totalCredits (tb_totals_of tb)
        == Qsum (map debit_side (tb_listed tb)))%Q
    /\ (difference (tb_totals_of tb)
        == Qabs (Qsum (map debit_side (tb_listed tb))))%Q.
Proof.
  eexists _, _. split; [vm_compute; reflexivity|].
  eapply (trialBalance_difference_is_net_position three_sales 1 None "2024-02-01").
  vm_compute. reflexivity.
Defined.

(** X7.  The columns of the trial balance.  In a trial balance that is
    answered 200, for every account the answer lists both columns are
    non-negative and one of them is 0; the grand totals are
    non-negative. *)
Theorem trialBalance_columns_are_non_negative
    (s : db) (organization_id : Z) (asOfDate : option string) (today : string)
    (m : option string) (tb : trial_balance) :
  trialBalance s organization_id asOfDate today = json 200 (Data m tb) ->
  Forall (fun a => (0 <= ta_debitBalance a)%Q
                   /\ (0 <= ta_creditBalance a)%Q
                   /\ (ta_debitBalance a = 0%Q \/ ta_creditBalance a = 0%Q))
         (tb_listed tb)
  /\ (0 <= totalDebits (tb_totals_of tb))%Q
  /\ (0 <= totalCredits (tb_totals_of tb))%Q.
Proof.
  intros H.
  assert (Hall : Forall (fun a => (0 <= ta_debitBalance a)%Q
                        /\ (0 <= ta_creditBalance a)%Q
                        /\ (ta_debitBalance a = 0%Q \/ ta_creditBalance a = 0%Q))
                        (tb_listed tb)).
  { apply List.Forall_forall. intros a Ha.
    destruct (tb_listed_classified _ _ _ _ _ _ a H Ha) as (r & _ & ->).
    apply classify_columns_sign. }
  destruct (trialBalance_totals_sum _ _ _ _ _ _ H) as [Hd Hc].
  split; [exact Hall|].
  rewrite List.Forall_forall in Hall.
  split.
  - rewrite Hd. apply Qsum_nonneg.
    apply List.Forall_forall. intros x Hx.
    apply List.in_map_iff in Hx as (a & <- & Ha). now apply Hall.
  - rewrite Hc. apply Qsum_nonneg.
    apply List.Forall_forall. intros x Hx.
    apply List.in_map_iff in Hx as (a & <- & Ha). now apply Hall.
Qed.

Lemma trialBalance_columns_are_non_negative_witness :
  exists m tb,
    trialBalance three_sales 1 None "2024-02-01" = json 200 (Data m tb)
    /\ Forall (fun a => (0 <= ta_debitBalance a)%Q
                        /\ (0 <= ta_creditBalance a)%Q
                        /\ (ta_debitBalance a = 0%Q \/ ta_creditBalance a = 0%Q))
              (tb_listed tb)
    /\ (0 <= totalDebits (tb_totals_of tb))%Q
    /\ (0 <= totalCredits (tb_totals_of tb))%Q.
Proof.
  eexists _, _. split; [vm_compute; reflexivity|].
  eapply (trialBalance_columns_are_non_negative three_sales 1 None "2024-02-01").
  vm_compute. reflexivity.
Defined.

Lemma upsert_keys {A} (key : A -> string) k init (f : A -> A) groups y :
  key (f init) = k -> (forall g, key (f g) = key g) ->
  In y (map key (upsert key k init f groups)) ->
  y = k \/ In y (map key groups).
Proof.
  intros Hinit Hf. induction groups as [|g groups IH]; cbn [upsert map].
  - intros [<-|[]]. now left.
  - destruct (String.eqb (key g) k); cbn [map].
    + rewrite Hf. auto.
    + intros [<-|H]; [right; now left|].
      destruct (IH H) as [->|Hin]; [now left|right; now right].
Qed.

(** Groups keyed by name keep distinct names. *)
Lemma upsert_NoDup {A} (key : A -> string) k init (f : A -> A) groups :
  key (f init) = k -> (forall g, key (f g) = key g) ->
  List.NoDup (map key groups) ->
  List.NoDup (map key (upsert key k init f groups)).
Proof.
  intros Hinit Hf. induction groups as [|g groups IH]; cbn [upsert map]; intros Hnd.
  - rewrite Hinit. constructor; [intros []|constructor].
  - apply List.NoDup_cons_iff in Hnd as [Hg Hnd'].
    destruct (String.eqb_spec (key g) k) as [E|E]; cbn [map].
    + rewrite Hf. now constructor.
    + constructor; [|now apply IH].
      intros H. apply upsert_keys in H as [H|H]; auto.
Qed.

Lemma upsert_Forall {A} (key : A -> string) k init (f : A -> A)
    (P : A -> Prop) groups :
  P (f init) -> (forall g, P g -> key g = k -> P (f g)) ->
  Forall P groups -> Forall P (upsert key k init f groups).
Proof.
  intros Hinit Hf. induction 1 as [|g groups Hg Hall IH]; cbn [upsert].
  - now constructor.
  - destruct (String.eqb_spec (key g) k) as [E|E]; constructor; auto.
Qed.

Lemma Qsum_snoc l x : (Qsum (l ++ [x]) == Qsum l + x)%Q.
Proof. rewrite Qsum_app, Qsum_cons, Qsum_nil. ring. Qed.

Lemma add_to_category_consistent a c :
  category_consistent c ->
  tc_name c = or_uncategorized (tr_accountCategoryName (ta_row a)) ->
  category_consistent (add_to_category a c).
Proof.
  intros (Hn & Hd & Hc) Hk. unfold category_consistent, add_to_category.
  cbn [tc_accounts tc_name tc_totalDebit tc_totalCredit].
  split; [|split].
  - apply Forall_app. split; [exact Hn|]. constructor; [now symmetry|constructor].
  - rewrite map_app. cbn [map]. rewrite Qsum_snoc, Hd. reflexivity.
  - rewrite map_app. cbn [map]. rewrite Qsum_snoc, Hc. reflexivity.
Qed.

Lemma add_to_type_consistent a t :
  type_consistent t ->
  tt_name t = tr_accountTypeName (ta_row a) ->
  type_consistent (add_to_type a t).
Proof.
  intros (Hcs & Hnd & Hn & Hd & Hc) Hk.
  pose proof (add_to_type_members a t) as Hperm.
  unfold type_consistent. split; [|split; [|split; [|split]]].
  - unfold add_to_type. cbn [tt_categories]. apply upsert_Forall; [| |exact Hcs].
    + apply add_to_category_consistent; [|reflexivity].
      unfold category_consistent. cbn [tc_accounts tc_totalDebit tc_totalCredit map].
      rewrite Qsum_nil. split; [constructor|]. split; reflexivity.
    + intros g Hg Hkey. now apply add_to_category_consistent.
  - unfold add_to_type. cbn [tt_categories]. now apply upsert_NoDup.
  - eapply Permutation_Forall; [symmetry; exact Hperm|].
    constructor; [now symmetry|exact Hn].
  - rewrite (Qsum_perm _ _ (Permutation_map ta_debitBalance Hperm)).
    cbn [map add_to_type tt_totalDebit]. rewrite Qsum_cons, Hd. ring.
  - rewrite (Qsum_perm _ _ (Permutation_map ta_creditBalance Hperm)).
    cbn [map add_to_type tt_totalCredit]. rewrite Qsum_cons, Hc. ring.
Qed.

Lemma grouped_with_consistent groups a :
  Forall type_consistent groups -> List.NoDup (map tt_name groups) ->
  Forall type_consistent (grouped_with groups a)
  /\ List.NoDup (map tt_name (grouped_with groups a)).
Proof.
  intros Hall Hnd. unfold grouped_with. split.
  - apply upsert_Forall; [| |exact Hall].
    + apply add_to_type_consistent; [|reflexivity].
      unfold type_consistent.
      cbn [tt_categories tt_totalDebit tt_totalCredit flat_map map].
      rewrite Qsum_nil.
      split; [constructor|]. split; [constructor|]. split; [constructor|].
      split; reflexivity.
    + intros g Hg Hkey. now apply add_to_type_consistent.
  - now apply upsert_NoDup.
Qed.

Lemma tb_add_consistent rows : forall st,
  Forall type_consistent (acc_grouped st) ->
  List.NoDup (map tt_name (acc_grouped st)) ->
  Forall type_consistent (acc_grouped (fold_left tb_add rows st))
  /\ List.NoDup (map tt_name (acc_grouped (fold_left tb_add rows st))).
Proof.
  induction rows as [|r rows IH]; intros st Hall Hnd; cbn [fold_left]; [done|].
  destruct (grouped_with_consistent (acc_grouped st) (classify r) Hall Hnd).
  now apply IH.
Qed.

(** Listing the categories of a type group with [Object.values] keeps
    the group consistent. *)
Lemma with_category_values_consistent t :
  type_consistent t -> type_consistent (with_category_values t).
Proof.
  intros (Hcs & Hnd & Hn & Hd & Hc).
  pose proof (object_values_perm tc_name (tt_categories t)) as Hp.
  pose proof (Permutation_flat_map tc_accounts Hp) as Hpa.
  unfold type_consistent.
  cbn [with_category_values tt_categories tt_name tt_totalDebit tt_totalCredit].
  split; [|split; [|split; [|split]]].
  - eapply Permutation_Forall; [symmetry; exact Hp|exact Hcs].
  - eapply Permutation_NoDup; [|exact Hnd]. symmetry. now apply Permutation_map.
  - eapply Permutation_Forall; [symmetry; exact Hpa|exact Hn].
  - rewrite (Qsum_perm _ _ (Permutation_map ta_debitBalance Hpa)). exact Hd.
  - rewrite (Qsum_perm _ _ (Permutation_map ta_creditBalance Hpa)). exact Hc.
Qed.

(** X8.  The groups of the trial balance.  In a trial balance that is
    answered 200, type groups have distinct names and, within a type
    group, category groups have distinct names; every account is
    reported under the name of its type and the name of its category
    ('Uncategorized' when it has none or one with an empty name); the
    totals of every category group and of every type group are the
    sums of the debit and credit columns of the accounts reported
    under it. *)
Theorem trialBalance_groups_are_consistent
    (s : db) (organization_id : Z) (asOfDate : option string) (today : string)
    (m : option string) (tb : trial_balance) :
  trialBalance s organization_id asOfDate today = json 200 (Data m tb) ->
  List.NoDup (map tt_name (tb_trialBalance tb))
  /\ Forall type_consistent (tb_trialBalance tb).
Proof.
  intros H. apply trialBalance_answered in H as (_ & -> & _).
  destruct (tb_add_consistent (tb_query organization_id s)
              {| acc_grouped := []; acc_totalDebits := 0; acc_totalCredits := 0 |})
    as [Hall Hnd]; [constructor|constructor|].
  set (groups := acc_grouped _) in *.
  pose proof (object_values_perm tt_name groups) as Hp.
  split.
  - rewrite map_map.
    rewrite (map_ext (fun t => tt_name (with_category_values t)) tt_name)
      by reflexivity.
    eapply Permutation_NoDup; [|exact Hnd]. symmetry. now apply Permutation_map.
  - apply List.Forall_forall. intros t Ht.
    apply List.in_map_iff in Ht as (t0 & <- & Ht0).
    apply with_category_values_consistent.
    rewrite List.Forall_forall in Hall. apply Hall.
    now apply (Permutation_in _ Hp).
Qed.

Lemma trialBalance_groups_are_consistent_witness :
  exists m tb,
    trialBalance three_sales 1 None "2024-02-01" = json 200 (Data m tb)
    /\ List.NoDup (map tt_name (tb_trialBalance tb))
    /\ Forall type_consistent (tb_trialBalance tb).
Proof.
  eexists _, _. split; [vm_compute; reflexivity|].
  eapply (trialBalance_groups_are_consistent three_sales 1 None "2024-02-01").
  vm_compute. reflexivity.
Defined.

(** ** Ordered and paged results *)

Lemma insert_by_In {A} (le : A -> A -> bool) x l y :
  In y (insert_by le x l) <-> y = x \/ In y l.
Proof.
  split.
  - intros H. apply (Permutation_in _ (insert_by_perm le x l)) in H.
    destruct H as [<-|H]; auto.
  - intros H. apply (Permutation_in _ (Permutation_sym (insert_by_perm le x l))).
    destruct H as [->|H]; [now left|now right].
Qed.

Section Sorting.
Context {A : Type} (le : A -> A -> bool).
Hypothesis le_total : forall x y, le x y = true \/ le y x = true.
Hypothesis le_trans : forall x y z, le x y = true -> le y z = true -> le x z = true.

Lemma insert_by_sorted x l :
  StronglySorted (fun a b => le a b = true) l ->
  StronglySorted (fun a b => le a b = true) (insert_by le x l).
Proof.
  induction 1 as [|y l Hs IH Hy]; cbn [insert_by].
  - repeat constructor.
  - destruct (le x y) eqn:Hxy.
    + constructor; [now constructor|].
      constructor; [exact Hxy|].
      eapply Forall_impl; [exact Hy|]. cbn. intros z Hz. now apply (le_trans x y z).
    + constructor; [exact IH|].
      apply List.Forall_forall. intros z Hz. apply insert_by_In in Hz as [->|Hz].
      * destruct (le_total x y) as [H|H]; [congruence|exact H].
      * rewrite List.Forall_forall in Hy. now apply Hy.
Qed.

(** [orderBy] on a total and transitive order returns an ordered list. *)
Lemma order_by_StronglySorted l :
  StronglySorted (fun a b => le a b = true) (order_by le l).
Proof.
  induction l as [|x l IH]; [constructor|].
  cbn [order_by fold_right]. now apply insert_by_sorted.
Qed.

End Sorting.

Lemma StronglySorted_impl {A} (R R' : A -> A -> Prop) l :
  (forall x y, R x y -> R' x y) -> StronglySorted R l -> StronglySorted R' l.
Proof.
  intros H. induction 1 as [|x l Hs IH Hx]; constructor; [exact IH|].
  eapply Forall_impl; [exact Hx|]. cbn. auto.
Qed.

Lemma StronglySorted_skipn {A} (R : A -> A -> Prop) l : forall n,
  StronglySorted R l -> StronglySorted R (skipn n l).
Proof.
  induction l as [|x l IH]; intros [|n] H; cbn [skipn]; try done.
  apply IH. now apply StronglySorted_inv in H.
Qed.

Lemma StronglySorted_firstn {A} (R : A -> A -> Prop) l : forall n,
  StronglySorted R l -> StronglySorted R (firstn n l).
Proof.
  induction l as [|x l IH]; intros [|n] H; cbn [firstn]; try constructor.
  - apply IH. now apply StronglySorted_inv in H.
  - apply StronglySorted_inv in H as [_ H].
    apply List.Forall_forall. intros y Hy.
    rewrite List.Forall_forall in H. apply H.
    clear -Hy. revert n Hy. induction l as [|z l IHl]; intros [|n] Hy; cbn in Hy;
      try done.
    destruct Hy as [->|Hy]; [now left|right; eauto].
Qed.

Lemma StronglySorted_snoc {A} (R : A -> A -> Prop) l x :
  StronglySorted R l -> Forall (fun y => R y x) l -> StronglySorted R (l ++ [x]).
Proof.
  induction 1 as [|y l Hs IH Hy]; intros Hx; cbn [app].
  - repeat constructor.
  - inversion Hx as [|? ? Hyx Hlx]; subst. constructor; [now apply IH|].
    apply Forall_app. split; [exact Hy|]. now constructor.
Qed.

Lemma StronglySorted_rev {A} (R : A -> A -> Prop) l :
  StronglySorted R l -> StronglySorted (fun x y => R y x) (rev l).
Proof.
  induction 1 as [|x l Hs IH Hx]; cbn [rev]; [constructor|].
  apply StronglySorted_snoc; [exact IH|]. now apply Forall_rev.
Qed.

Lemma StronglySorted_map {A B} (f : A -> B) (R : B -> B -> Prop) l :
  StronglySorted (fun x y => R (f x) (f y)) l -> StronglySorted R (map f l).
Proof.
  induction 1 as [|x l Hs IH Hx]; cbn [map]; constructor; [exact IH|].
  apply List.Forall_forall. intros y Hy. apply List.in_map_iff in Hy as (z & <- & Hz).
  rewrite List.Forall_forall in Hx. now apply Hx.
Qed.

Lemma In_firstn {A} (l : list A) : forall n x, In x (firstn n l) -> In x l.
Proof.
  induction l as [|y l IH]; intros [|n] x H; cbn in H; try done.
  destruct H as [->|H]; [now left|right; eauto].
Qed.

Lemma In_skipn {A} (l : list A) : forall n x, In x (skipn n l) -> In x l.
Proof.
  induction l as [|y l IH]; intros [|n] x H; cbn in H; try done.
  right. eauto.
Qed.

Lemma newest_first_total x y : newest_first x y = true \/ newest_first y x = true.
Proof.
  unfold newest_first.
  destruct (Z.ltb_spec (je_date y.2) (je_date x.2));
    destruct (Z.ltb_spec (je_date x.2) (je_date y.2));
    destruct (Z.eqb_spec (je_date y.2) (je_date x.2));
    destruct (Z.eqb_spec (je_date x.2) (je_date y.2));
    destruct (Z.leb_spec (je_id y.2) (je_id x.2));
    destruct (Z.leb_spec (je_id x.2) (je_id y.2));
    cbn; auto; lia.
Qed.

Lemma newest_first_spec x y :
  newest_first x y = true <->
  je_date y.2 < je_date x.2
  \/ (je_date y.2 = je_date x.2 /\ je_id y.2 <= je_id x.2).
Proof.
  unfold newest_first.
  rewrite orb_true_iff, andb_true_iff, Z.ltb_lt, Z.eqb_eq, Z.leb_le. reflexivity.
Qed.

Lemma newest_first_trans x y z :
  newest_first x y = true -> newest_first y z = true -> newest_first x z = true.
Proof. rewrite !newest_first_spec. lia. Qed.

Lemma add_running_balance_length nb : forall transactions seed,
  length (add_running_balance nb seed transactions) = length transactions.
Proof.
  induction transactions as [|t rest IH]; intros seed; [done|].
  cbn [add_running_balance length]. now rewrite IH.
Qed.

Lemma add_running_balance_transactions nb : forall transactions seed,
  map lr_transaction (add_running_balance nb seed transactions) = transactions.
Proof.
  induction transactions as [|t rest IH]; intros seed; [done|].
  cbn [add_running_balance map lr_transaction]. now rewrite IH.
Qed.

(** X9.  The page of a ledger.  When the ledger is answered 200, its
    rows are in chronological order (by date, then by entry id), there
    are at most [limit] of them and no more than the reported total,
    and each is a line of the account in a posted entry of the
    organization within the requested dates. *)
Theorem getLedger_page_is_chronological
    (s : db) (account_id organization_id : Z) (startDate endDate : option Z)
    (page limit : Z) (m : option string) (l : ledger) :
  getLedger s account_id organization_id startDate endDate page limit
    = json 200 (Data m l) ->
  StronglySorted not_after (map lr_transaction (lg_transactions l))
  /\ (length (lg_transactions l) <= Z.to_nat limit)%nat
  /\ Z.of_nat (length (lg_transactions l)) <= pg_total (lg_pagination l)
  /\ Forall (in_window s account_id organization_id startDate endDate)
            (map lr_transaction (lg_transactions l)).
Proof.
  unfold getLedger. intros H.
  destruct (ledger_account_of account_id organization_id s) as [account|];
    [|discriminate].
  destruct ((limit <? 0) || ((page - 1) * limit <? 0)); [discriminate|].
  injection H as _ <-. cbn [lg_transactions lg_pagination pg_total].
  rewrite map_rev, add_running_balance_transactions.
  set (window := window_rows account_id organization_id startDate endDate s).
  assert (Hsorted : StronglySorted (fun a b => newest_first a b = true) window).
  { apply order_by_StronglySorted;
      [apply newest_first_total | apply newest_first_trans]. }
  split; [|split; [|split]].
  - apply StronglySorted_rev, StronglySorted_map.
    unfold limit_offset.
    apply StronglySorted_firstn, StronglySorted_skipn.
    eapply StronglySorted_ind with (l := window); [constructor| |exact Hsorted].
    intros a rows Hs IH Ha. constructor; [exact IH|].
    eapply Forall_impl; [exact Ha|]. cbn. intros b Hb.
    apply newest_first_spec in Hb. unfold not_after. cbn. lia.
  - rewrite length_rev, add_running_balance_length.
    unfold limit_offset. rewrite length_map. apply firstn_le_length.
  - rewrite length_rev, add_running_balance_length, length_map.
    unfold limit_offset. rewrite length_firstn, length_skipn. lia.
  - apply Forall_rev. apply List.Forall_forall. intros t Ht.
    apply List.in_map_iff in Ht as (row & <- & Hrow).
    unfold limit_offset in Hrow. apply In_firstn, In_skipn in Hrow.
    unfold window, window_rows in Hrow. apply order_by_In in Hrow.
    apply List.filter_In in Hrow as [Hin Hp].
    apply andb_true_iff in Hp as [Hp Hto]. apply andb_true_iff in Hp as [Hp Hfrom].
    unfold posted_for in Hp.
    apply andb_true_iff in Hp as [Hp Hst]. apply andb_true_iff in Hp as [Hacc Horg].
    exists row. split; [exact Hin|]. split; [reflexivity|].
    split; [now apply Z.eqb_eq|]. split; [now apply Z.eqb_eq|].
    split; [now apply String.eqb_eq|]. split.
    + intros d ->. cbn in Hfrom. now apply Z.leb_le.
    + intros d ->. cbn in Hto. now apply Z.leb_le.
Qed.

(** Three sales, asked from 15 January on. *)
Lemma getLedger_page_is_chronological_witness :
  exists m l,
    getLedger three_sales 1 1 (Some 20240115) None 1 50 = json 200 (Data m l)
    /\ StronglySorted not_after (map lr_transaction (lg_transactions l))
    /\ (length (lg_transactions l) <= Z.to_nat 50)%nat
    /\ Z.of_nat (length (lg_transactions l)) <= pg_total (lg_pagination l)
    /\ Forall (in_window three_sales 1 1 (Some 20240115) None)
              (map lr_transaction (lg_transactions l)).
Proof.
  eexists _, _. split; [vm_compute; reflexivity|].
  eapply (getLedger_page_is_chronological three_sales 1 1 (Some 20240115) None 1 50).
  vm_compute. reflexivity.
Defined.

(** ** The listing of journal entries *)

Lemma totals_map_outside (rows : list (Z * (Q * Q))) k : forall (m : gmap Z (Q * Q)),
  ~ In k (map fst rows) ->
  fold_left (fun totalsMap total => <[fst total := snd total]> totalsMap) rows m !! k
  = m !! k.
Proof.
  induction rows as [|[k' v'] rows IH]; intros m Hk; [done|].
  cbn [fold_left fst snd]. rewrite IH.
  - apply lookup_insert_ne. intros ->. apply Hk. now left.
  - intros H. apply Hk. now right.
Qed.

(** With one row for each key the map holds the row of each key. *)
Lemma totals_map_inside (rows : list (Z * (Q * Q))) k v : forall (m : gmap Z (Q * Q)),
  List.NoDup (map fst rows) -> In (k, v) rows ->
  fold_left (fun totalsMap total => <[fst total := snd total]> totalsMap) rows m !! k
  = Some v.
Proof.
  induction rows as [|[k' v'] rows IH]; intros m Hnd Hin; [destruct Hin|].
  cbn [map fst] in Hnd. apply List.NoDup_cons_iff in Hnd as [Hk' Hnd].
  cbn [fold_left fst snd]. destruct Hin as [[= -> ->]|Hin].
  - rewrite totals_map_outside by done. apply lookup_insert_eq.
  - now apply IH.
Qed.

(** The totals shown for an entry of the page are the sums of its
    lines; an entry without lines shows 0 and 0. *)
Lemma with_totals_sums ids s e :
  In (je_id e) ids ->
  with_totals (totals_map (entry_totals_query ids s)) e =
    {| es_entry := e;
       es_totalDebit :=
         fold_left (fun sum l => (sum + jel_debit_amount l)%Q)
                   (List.filter (fun l => jel_journal_entry_id l =? je_id e)
                                (journal_entry_lines s)) 0%Q;
       es_totalCredit :=
         fold_left (fun sum l => (sum + jel_credit_amount l)%Q)
                   (List.filter (fun l => jel_journal_entry_id l =? je_id e)
                                (journal_entry_lines s)) 0%Q |}.
Proof.
  intros Hid. unfold with_totals, totals_map, entry_totals_query.
  set (matching := List.filter (fun l => bool_decide (jel_journal_entry_id l ∈ ids))
                               (journal_entry_lines s)).
  assert (Hgroup : List.filter (fun l => jel_journal_entry_id l =? je_id e) matching
                   = List.filter (fun l => jel_journal_entry_id l =? je_id e)
                                 (journal_entry_lines s)).
  { unfold matching. rewrite filter_filter. apply filter_ext_bool. intros l.
    destruct (Z.eqb_spec (jel_journal_entry_id l) (je_id e)) as [->|_].
    - rewrite bool_decide_eq_true_2; [done|]. now apply list_elem_of_In.
    - apply andb_false_r. }
  set (keys := remove_dups (map jel_journal_entry_id matching)).
  set (row := fun id : Z =>
         (id, (fold_left (fun sum l => (sum + jel_debit_amount l)%Q)
                 (List.filter (fun l => jel_journal_entry_id l =? id) matching) 0%Q,
               fold_left (fun sum l => (sum + jel_credit_amount l)%Q)
                 (List.filter (fun l => jel_journal_entry_id l =? id) matching) 0%Q))).
  assert (Hkeys : map fst (map row keys) = keys).
  { rewrite map_map. cbn. apply map_id. }
  destruct (decide (je_id e ∈ keys)) as [Hin|Hout].
  - rewrite (totals_map_inside _ (je_id e) (snd (row (je_id e)))).
    + cbn [default from_option Datatypes.id row snd fst]. now rewrite Hgroup.
    + rewrite Hkeys. apply NoDup_ListNoDup, NoDup_remove_dups.
    + apply List.in_map_iff. exists (je_id e). split; [reflexivity|].
      now apply list_elem_of_In.
  - rewrite totals_map_outside, lookup_empty.
    + cbn [default from_option Datatypes.id fst snd]. rewrite <- Hgroup.
      rewrite (filter_none _ matching); [reflexivity|].
      intros l Hl. destruct (Z.eqb_spec (jel_journal_entry_id l) (je_id e)) as [E|]; [|done].
      exfalso. apply Hout. unfold keys. apply elem_of_remove_dups.
      apply list_elem_of_In. rewrite <- E. now apply List.in_map.
    + rewrite Hkeys. intros H. apply Hout. now apply list_elem_of_In.
Qed.

Lemma entry_newest_first_spec x y :
  entry_newest_first x y = true <-> not_before x y.
Proof.
  unfold entry_newest_first, not_before.
  rewrite orb_true_iff, andb_true_iff, Z.ltb_lt, Z.eqb_eq, Z.leb_le. reflexivity.
Qed.

Lemma entry_newest_first_total x y :
  entry_newest_first x y = true \/ entry_newest_first y x = true.
Proof. rewrite !entry_newest_first_spec. unfold not_before. lia. Qed.

Lemma entry_newest_first_trans x y z :
  entry_newest_first x y = true -> entry_newest_first y z = true ->
  entry_newest_first x z = true.
Proof. rewrite !entry_newest_first_spec. unfold not_before. lia. Qed.

(** X10.  The listing of journal entries.  When it is answered 200, the
    entries come newest first (by date, then by id), there are at most
    [limit] of them, each is a stored entry of the organization within
    the requested dates, and each shows as totals the sums of the
    debit and credit amounts of its stored lines, 0 and 0 when it has
    no line. *)
Theorem listJournalEntries_page_and_totals
    (s : db) (organization_id : Z) (startDate endDate : option Z)
    (page limit : Z) (m : option string) (p : entry_page) :
  listJournalEntries s organization_id startDate endDate page limit
    = json 200 (Data m p) ->
  StronglySorted not_before (map es_entry (ep_entries p))
  /\ (length (ep_entries p) <= Z.to_nat limit)%nat
  /\ Forall (summarizes s organization_id startDate endDate) (ep_entries p).
Proof.
  unfold listJournalEntries. intros H.
  destruct ((limit <? 0) || ((page - 1) * limit <? 0)); [discriminate|].
  injection H as _ <-. cbn [ep_entries].
  set (window := entries_window organization_id startDate endDate s).
  set (journalEntries := limit_offset limit ((page - 1) * limit) window).
  assert (Hentries : map es_entry
            (map (with_totals (totals_map (entry_totals_query (map je_id journalEntries) s)))
                 journalEntries) = journalEntries).
  { rewrite map_map. cbn. apply map_id. }
  split; [|split].
  - rewrite Hentries. unfold journalEntries, limit_offset.
    apply StronglySorted_firstn, StronglySorted_skipn.
    apply (StronglySorted_impl (fun a b => entry_newest_first a b = true)).
    + intros a b. apply entry_newest_first_spec.
    + apply order_by_StronglySorted;
        [apply entry_newest_first_total | apply entry_newest_first_trans].
  - rewrite length_map. unfold journalEntries, limit_offset. apply firstn_le_length.
  - apply List.Forall_forall. intros x Hx.
    apply List.in_map_iff in Hx as (e & <- & He).
    rewrite with_totals_sums by now apply List.in_map.
    unfold summarizes. cbn [es_entry es_totalDebit es_totalCredit].
    unfold journalEntries, limit_offset in He. apply In_firstn, In_skipn in He.
    unfold window, entries_window in He. apply order_by_In in He.
    apply List.filter_In in He as [Hin Hp].
    apply andb_true_iff in Hp as [Hp Hto]. apply andb_true_iff in Hp as [Horg Hfrom].
    split; [exact Hin|]. split; [now apply Z.eqb_eq|]. split; [|split].
    + intros d ->. cbn in Hfrom. now apply Z.leb_le.
    + intros d ->. cbn in Hto. now apply Z.leb_le.
    + split; reflexivity.
Qed.

(** The first page of size 2 of three sales. *)
Lemma listJournalEntries_page_and_totals_witness :
  exists m p,
    listJournalEntries three_sales 1 None None 1 2 = json 200 (Data m p)
    /\ StronglySorted not_before (map es_entry (ep_entries p))
    /\ (length (ep_entries p) <= Z.to_nat 2)%nat
    /\ Forall (summarizes three_sales 1 None None) (ep_entries p).
Proof.
  eexists _, _. split; [vm_compute; reflexivity|].
  eapply (listJournalEntries_page_and_totals three_sales 1 None None 1 2).
  vm_compute. reflexivity.
Defined.

(** ** The running balance of the ledger, in general *)

Lemma seed_balance_sum nb previous :
  (seed_balance nb previous == Qsum (map (transaction_delta nb) previous))%Q.
Proof. unfold seed_balance. rewrite fold_left_Qplus. ring. Qed.

Lemma page_deltas nb seed transactions :
  (Qsum (map (fun r => transaction_delta nb (lr_transaction r))
             (rev (add_running_balance nb seed transactions)))
   == Qsum (map (transaction_delta nb) transactions))%Q.
Proof.
  rewrite <- (add_running_balance_transactions nb transactions seed) at 2.
  rewrite map_map, map_rev.
  symmetry. apply Qsum_perm, Permutation_rev.
Qed.

(** X11.  What the rows of a ledger show.  When the ledger is answered
    200, every row shows a seed plus its own delta plus the deltas of
    the rows listed after it.  The seed is 0 on page 1 without a start
    date; with a start date it is the sum of the deltas of the posted
    lines of the account dated before it; on a later page without any
    date filter it is the sum of the deltas of the rows of that page
    and of all older rows. *)
Theorem getLedger_rows_are_suffix_sums
    (s : db) (account_id organization_id : Z) (startDate endDate : option Z)
    (page limit : Z) (m : option string) (l : ledger) :
  getLedger s account_id organization_id startDate endDate page limit
    = json 200 (Data m l) ->
  let nb := la_normalBalance (lg_account l) in
  exists seed,
    suffix_summed nb seed (lg_transactions l)
    /\ (page <= 1 -> startDate = None -> seed = 0%Q)
    /\ (forall d, startDate = Some d ->
          (seed ==
           Qsum (map (fun row => transaction_delta nb (select_transaction row))
                     (List.filter (fun row => posted_for account_id organization_id row
                                              && (je_date (snd row) <? d))
                                  (lines_with_entries s))))%Q)
    /\ (1 < page -> startDate = None -> endDate = None ->
          (seed ==
           Qsum (map (fun r => transaction_delta nb (lr_transaction r))
                     (lg_transactions l))
           + Qsum (map (fun row => transaction_delta nb (select_transaction row))
                       (skipn (Z.to_nat limit)
                              (skipn (Z.to_nat ((page - 1) * limit))
                                     (window_rows account_id organization_id
                                                  None None s)))))%Q).
Proof.
  unfold getLedger. intros H.
  destruct (ledger_account_of account_id organization_id s) as [account|];
    [|discriminate].
  destruct ((limit <? 0) || ((page - 1) * limit <? 0)); [discriminate|].
  injection H as _ <-. cbn [lg_transactions lg_account]. cbv zeta.
  exists (if (1 <? page) || provided startDate
          then seed_balance (la_normalBalance account)
                 (previous_transactions account_id organization_id
                                        startDate page limit s)
          else 0%Q).
  split; [apply reversed_running_balance|].
  split; [|split].
  - intros Hp ->. destruct (Z.ltb_spec 1 page); [lia|]. reflexivity.
  - intros d ->. cbn [provided]. rewrite orb_true_r.
    etransitivity; [apply seed_balance_sum|].
    cbn [previous_transactions]. now rewrite map_map.
  - intros Hp -> ->. destruct (Z.ltb_spec 1 page); [|lia]. cbn [orb].
    etransitivity; [apply seed_balance_sum|].
    rewrite previous_transactions_include_page.
    rewrite map_app, Qsum_app, !map_map.
    apply Qplus_comp; [|reflexivity].
    etransitivity; [|symmetry; apply page_deltas].
    now rewrite map_map.
Qed.

(** Page 2 of size 1 of the ledger of Cash after two sales. *)
Lemma getLedger_rows_are_suffix_sums_witness :
  exists m l,
    getLedger two_sales 1 1 None None 2 1 = json 200 (Data m l)
    /\ exists seed,
         suffix_summed (la_normalBalance (lg_account l)) seed (lg_transactions l)
         /\ (2 <= 1 -> @None Z = None -> seed = 0%Q)
         /\ (forall d, @None Z = Some d ->
               (seed ==
                Qsum (map (fun row => transaction_delta (la_normalBalance (lg_account l)) (select_transaction row))
                          (List.filter (fun row => posted_for 1 1 row
                                                   && (je_date (snd row) <? d))
                                       (lines_with_entries two_sales))))%Q)
         /\ (1 < 2 -> @None Z = None -> @None Z = None ->
               (seed ==
                Qsum (map (fun r => transaction_delta (la_normalBalance (lg_account l)) (lr_transaction r))
                          (lg_transactions l))
                + Qsum (map (fun row => transaction_delta (la_normalBalance (lg_account l)) (select_transaction row))
                            (skipn (Z.to_nat 1)
                                   (skipn (Z.to_nat ((2 - 1) * 1))
                                          (window_rows 1 1 None None two_sales)))))%Q).
Proof.
  eexists _, _. split; [vm_compute; reflexivity|].
  eapply (getLedger_rows_are_suffix_sums two_sales 1 1 None None 2 1).
  vm_compute. reflexivity.
Defined.
(** ** Income statement: categories and empty periods *)

Lemma add_to_is_category_consistent a c :
  is_category_consistent c ->
  ic_name c = or_uncategorized (ia_categoryName a) ->
  is_category_consistent (add_to_is_category a c).
Proof.
  intros [Hn Ht] Hk. unfold is_category_consistent, add_to_is_category.
  cbn [ic_accounts ic_name ic_total]. split.
  - apply Forall_app. split; [exact Hn|]. constructor; [now symmetry|constructor].
  - rewrite map_app. cbn [map]. rewrite Qsum_snoc, Ht. reflexivity.
Qed.

Lemma categorized_consistent accounts : forall groups,
  List.NoDup (map ic_name groups) -> Forall is_category_consistent groups ->
  List.NoDup (map ic_name (fold_left categorized_with accounts groups))
  /\ Forall is_category_consistent (fold_left categorized_with accounts groups).
Proof.
  induction accounts as [|a rest IH]; intros groups Hnd Hall; cbn [fold_left]; [done|].
  apply IH; unfold categorized_with; cbv zeta.
  - now apply upsert_NoDup.
  - apply upsert_Forall; [| |exact Hall].
    + apply add_to_is_category_consistent; [|reflexivity].
      unfold is_category_consistent. cbn [ic_accounts ic_total map].
      rewrite Qsum_nil. split; [constructor|reflexivity].
    + intros g Hg Hkey. now apply add_to_is_category_consistent.
Qed.

Lemma category_totals_sum cats :
  Forall is_category_consistent cats ->
  (Qsum (map ic_total cats) == Qsum (map ia_balance (flat_map ic_accounts cats)))%Q.
Proof.
  induction 1 as [|c cats [_ Hc] _ IH]; cbn [map flat_map]; [reflexivity|].
  rewrite Qsum_cons, map_app, Qsum_app, Hc, IH. reflexivity.
Qed.

(** A side of an answered statement is consistent. *)
Lemma answered_side_consistent typeName amount org startDate endDate s :
  let side := statement_side typeName amount org startDate endDate s in
  side_consistent
    {| sec_categories := object_values ic_name (fold_left categorized_with (fst side) []);
       sec_total := snd side |}.
Proof.
  cbv zeta. unfold side_consistent. cbn [sec_categories sec_total].
  set (accounts := fst (statement_side typeName amount org startDate endDate s)).
  destruct (categorized_consistent accounts []) as [Hnd Hall]; [constructor|constructor|].
  pose proof (object_values_perm ic_name (fold_left categorized_with accounts [])) as Hp.
  assert (Hall' : Forall is_category_consistent
                    (object_values ic_name (fold_left categorized_with accounts []))).
  { eapply Permutation_Forall; [symmetry; exact Hp|exact Hall]. }
  split; [|split; [exact Hall'|]].
  - eapply Permutation_NoDup; [|exact Hnd]. symmetry. now apply Permutation_map.
  - rewrite category_totals_sum by exact Hall'.
    rewrite (Qsum_perm _ _ (Permutation_map ia_balance
                              (answered_categories_accounts accounts))).
    apply (statement_side_balances typeName amount org startDate endDate s).
Qed.

(** X12.  The categories of the income statement.  In an income
    statement that is answered 200, on the revenue side and on the
    expense side the categories have distinct names, every account is
    reported under the name of its category ('Uncategorized' when it
    has none or one with an empty name), the total of a category is the
    sum of the balances of its accounts, and the total of the side is
    the sum of the totals of its categories. *)
Theorem incomeStatement_categories_are_consistent
    (s : db) (organization_id startDate endDate : Z)
    (m : option string) (statement : income_statement) :
  incomeStatement s organization_id (Some startDate) (Some endDate)
    = json 200 (Data m statement) ->
  side_consistent (revenue statement)
  /\ side_consistent (expenses statement).
Proof.
  intros H. apply incomeStatement_answered in H as (_ & _ & ->).
  cbn [revenue expenses]. split; apply answered_side_consistent.
Qed.

(** The statement of January on the books after three sales. *)
Lemma incomeStatement_categories_are_consistent_witness :
  exists m statement,
    incomeStatement three_sales 1 (Some 20240101) (Some 20240131)
      = json 200 (Data m statement)
    /\ side_consistent (revenue statement)
    /\ side_consistent (expenses statement).
Proof.
  eexists _, _. split; [vm_compute; reflexivity|].
  eapply (incomeStatement_categories_are_consistent three_sales 1 20240101 20240131).
  vm_compute. reflexivity.
Defined.

Lemma period_transactions_empty ids org startDate endDate s :
  endDate < startDate -> period_transactions ids org startDate endDate s = [].
Proof.
  intros H. unfold period_transactions. rewrite filter_none; [reflexivity|].
  intros row _.
  destruct (Z.leb_spec startDate (je_date row.2));
    destruct (Z.leb_spec (je_date row.2) endDate); try lia;
    rewrite ?andb_false_r; reflexivity.
Qed.

Lemma Qsum_zero l : Forall (fun x => x = 0%Q) l -> (Qsum l == 0)%Q.
Proof.
  induction 1 as [|x l -> _ IH]; [reflexivity|]. rewrite Qsum_cons, IH. ring.
Qed.

(** Where no stored category has an inherited name, no account of a
    side has. *)
Lemma statement_side_clean typeName amount org startDate endDate s :
  no_inherited_category_names s ->
  Forall (fun a => inherited (or_uncategorized (ia_categoryName a)) = false)
         (fst (statement_side typeName amount org startDate endDate s)).
Proof.
  intros Hclean. unfold statement_side. cbn [fst].
  apply List.Forall_forall. intros x Hx.
  apply List.in_map_iff in Hx as ([a c] & <- & Hrow).
  cbn [with_balance ia_categoryName snd].
  apply accounts_of_type_In in Hrow as (t & _ & _ & _ & Hc).
  destruct c as [c|]; [|reflexivity].
  unfold categories_of in Hc. apply (proj1 (left_join_Some _ _)) in Hc.
  apply List.filter_In in Hc as [Hc _].
  unfold no_inherited_category_names in Hclean. rewrite List.Forall_forall in Hclean.
  specialize (Hclean c Hc). cbn [option_map or_uncategorized].
  destruct (String.eqb (cat_name c) ""); [reflexivity|exact Hclean].
Qed.

Lemma statement_side_zero typeName amount org startDate endDate s :
  endDate < startDate ->
  Forall (fun a => ia_balance a = 0%Q)
         (fst (statement_side typeName amount org startDate endDate s))
  /\ (snd (statement_side typeName amount org startDate endDate s) == 0)%Q.
Proof.
  intros H.
  assert (Hzero : Forall (fun a => ia_balance a = 0%Q)
                         (fst (statement_side typeName amount org startDate endDate s))).
  { unfold statement_side. cbn [fst]. rewrite period_transactions_empty by done.
    cbn [fold_left]. apply List.Forall_forall. intros a Ha.
    apply List.in_map_iff in Ha as (row & <- & _).
    cbn [with_balance ia_balance]. now rewrite lookup_empty. }
  split; [exact Hzero|].
  destruct (statement_side_balances typeName amount org startDate endDate s)
    as [_ Ht].
  cbv zeta in Ht. rewrite Ht. apply Qsum_zero.
  apply List.Forall_forall. intros x Hx.
  apply List.in_map_iff in Hx as (a & <- & Ha).
  rewrite List.Forall_forall in Hzero. now apply Hzero.
Qed.

Lemma answered_side_empty typeName amount org startDate endDate s :
  endDate < startDate ->
  let side := statement_side typeName amount org startDate endDate s in
  side_is_empty
    {| sec_categories := object_values ic_name (fold_left categorized_with (fst side) []);
       sec_total := snd side |}.
Proof.
  intros H. cbv zeta.
  destruct (statement_side_zero typeName amount org startDate endDate s H)
    as [Hzero Ht].
  unfold side_is_empty. cbn [sec_categories sec_total]. split; [|exact Ht].
  apply List.Forall_forall. intros c Hc. apply List.Forall_forall. intros a Ha.
  rewrite List.Forall_forall in Hzero. apply Hzero.
  apply (Permutation_in _ (answered_categories_accounts _)).
  apply List.in_flat_map. eauto.
Qed.

(** X13.  An empty period.  Where no stored category has a name that
    objects inherit from [Object.prototype], an income statement asked
    with the end date before the start date is answered 200: every
    revenue and expense account is reported with balance 0, both
    totals are 0 and so is the net income. *)
Theorem incomeStatement_of_empty_period
    (s : db) (organization_id startDate endDate : Z) :
  no_inherited_category_names s ->
  endDate < startDate ->
  exists statement,
    incomeStatement s organization_id (Some startDate) (Some endDate)
      = json 200 (Data None statement)
    /\ side_is_empty (revenue statement)
    /\ side_is_empty (expenses statement)
    /\ (netIncome statement == 0)%Q.
Proof.
  intros Hclean H.
  eexists. split.
  - apply incomeStatement_answers; now apply statement_side_clean.
  - cbn [revenue expenses netIncome].
    split; [now apply answered_side_empty|].
    split; [now apply answered_side_empty|].
    destruct (statement_side_zero "Revenue" revenue_amount
                organization_id startDate endDate s H) as [_ Hr].
    destruct (statement_side_zero "Expense" expense_amount
                organization_id startDate endDate s H) as [_ He].
    rewrite Hr, He. ring.
Qed.

(** Three sales in January, asked from February back to January. *)
Lemma incomeStatement_of_empty_period_witness :
  exists statement,
    incomeStatement three_sales 1 (Some 20240201) (Some 20240101)
      = json 200 (Data None statement)
    /\ side_is_empty (revenue statement)
    /\ side_is_empty (expenses statement)
    /\ (netIncome statement == 0)%Q.
Proof.
  apply (incomeStatement_of_empty_period three_sales 1 20240201 20240101).
  - constructor.
  - reflexivity.
Defined.

(** ** Account registry: creation *)

Lemma accounts_with_types_insert row s :
  accounts_with_types (insert_account row s)
  = accounts_with_types s
    ++ map (fun t => (row, t))
           (List.filter (fun t => at_id t =? acc_account_type_id row)
                        (account_types s)).
Proof.
  unfold accounts_with_types, insert_account. cbn [accounts account_types].
  rewrite flat_map_app. cbn [flat_map]. now rewrite app_nil_r.
Qed.

(** The views of the store after an insert: those of before, then the
    views of the new row when it is kept. *)
Lemma account_views_insert keep row s :
  account_views keep (insert_account row s)
  = account_views keep s
    ++ (if keep row
        then flat_map (fun t => map (project_account (row, t)) (categories_of row s))
                      (List.filter (fun t => at_id t =? acc_account_type_id row)
                                   (account_types s))
        else []).
Proof.
  unfold account_views. rewrite accounts_with_types_insert, List.filter_app, flat_map_app.
  f_equal. destruct (keep row) eqn:Hk.
  - rewrite filter_all.
    + apply flat_map_map.
    + intros x Hx. apply List.in_map_iff in Hx as (t & <- & _). exact Hk.
  - rewrite filter_none; [reflexivity|].
    intros x Hx. apply List.in_map_iff in Hx as (t & <- & _). exact Hk.
Qed.

Lemma account_views_none keep s :
  (forall a, In a (accounts s) -> keep a = false) -> account_views keep s = [].
Proof.
  intros H. unfold account_views. rewrite filter_none; [reflexivity|].
  intros [a t] Hin. apply accounts_with_types_In in Hin as (Ha & _). now apply H.
Qed.

Lemma view_account_views id s :
  view_account id s = head (account_views (fun a => acc_id a =? id) s).
Proof. reflexivity. Qed.

(** The read-back of a row inserted under a fresh id. *)
Lemma views_of_inserted (keep : account -> bool) row s t ts c cs :
  (forall a, In a (accounts s) -> keep a = false) ->
  keep row = true ->
  List.filter (fun t => at_id t =? acc_account_type_id row) (account_types s) = t :: ts ->
  List.filter (fun c => bool_decide (acc_account_category_id row = Some (cat_id c)))
              (account_categories s) = c :: cs ->
  account_views keep (insert_account row s)
  = map (project_account (row, t)) (map Some (c :: cs))
    ++ flat_map (fun t => map (project_account (row, t)) (map Some (c :: cs))) ts.
Proof.
  intros Hf Hk Ht Hc. rewrite account_views_insert.
  rewrite account_views_none by exact Hf.
  rewrite Hk, Ht. cbn [app flat_map].
  unfold categories_of. rewrite Hc. reflexivity.
Qed.

Lemma fresh_id_eqb id s :
  ~ In id (map acc_id (accounts s)) ->
  forall a, In a (accounts s) -> (acc_id a =? id) = false.
Proof.
  intros Hf a Ha. destruct (Z.eqb_spec (acc_id a) id) as [<-|]; [|reflexivity].
  exfalso. apply Hf. now apply List.in_map.
Qed.

Lemma filter_cons_In {A} (p : A -> bool) l x xs :
  List.filter p l = x :: xs -> In x l /\ p x = true.
Proof.
  intros H. apply List.filter_In. rewrite H. now left.
Qed.

(** The two ways out of POST /accounts. *)
Lemma createAccount_cases now s req :
  (exists code message,
      createAccount now s req = (s, bad_request code message)
      /\ In code reference_refusals)
  \/ (exists t ts c cs,
      let row := new_account now (next_id (map acc_id (accounts s))) req in
      List.filter (fun a => (acc_organization_id a =? n_organizationId req)
                            && String.eqb (acc_code a) (n_code req))
                  (accounts s) = []
      /\ List.filter (fun t => at_id t =? acc_account_type_id row) (account_types s)
         = t :: ts
      /\ List.filter (fun c => bool_decide (acc_account_category_id row = Some (cat_id c)))
                     (account_categories s) = c :: cs
      /\ createAccount now s req
         = (insert_account row s,
            json 201 (Data (Some "Account created successfully")
                           (project_account (row, t) (Some c))))).
Proof.
  unfold createAccount, reference_refusals.
  destruct (List.filter _ (accounts s)) as [|? ?];
    [|left; eexists _, _; split; [reflexivity|cbn; tauto]].
  destruct (List.filter _ (account_types s)) as [|t ts] eqn:Ht;
    [left; eexists _, _; split; [reflexivity|cbn; tauto]|].
  destruct (List.filter _ (account_categories s)) as [|c cs] eqn:Hc;
    [left; eexists _, _; split; [reflexivity|cbn; tauto]|].
  destruct (truthy_id (n_parentAccountId req) && _);
    [left; eexists _, _; split; [reflexivity|cbn; tauto]|].
  right. cbv zeta.
  set (row := new_account now (next_id (map acc_id (accounts s))) req).
  pose proof (next_id_fresh (map acc_id (accounts s))) as Hfresh.
  assert (Hcat : exists c' cs',
             List.filter (fun c => bool_decide (acc_account_category_id row = Some (cat_id c)))
                         (account_categories s) = c' :: cs').
  { destruct (List.filter (fun c => bool_decide (acc_account_category_id row = Some (cat_id c)))
                          (account_categories s)) as [|c' cs'] eqn:Hf; [|eauto].
    exfalso. apply filter_cons_In in Hc as [Hin Hp].
    apply andb_prop in Hp as [Hid _]. apply Z.eqb_eq in Hid.
    assert (Hc' : In c (List.filter
                (fun c => bool_decide (acc_account_category_id row = Some (cat_id c)))
                (account_categories s))).
    { apply List.filter_In. split; [exact Hin|].
      apply bool_decide_eq_true. cbn [row new_account acc_account_category_id].
      now rewrite Hid. }
    rewrite Hf in Hc'. destruct Hc'. }
  destruct Hcat as (c' & cs' & Hc').
  exists t, ts, c', cs'.
  split; [reflexivity|]. split; [first [exact Ht|reflexivity]|]. split; [exact Hc'|].
  rewrite view_account_views.
  rewrite (views_of_inserted _ row s t ts c' cs'); [reflexivity| | |exact Ht|exact Hc'].
  - apply fresh_id_eqb. exact Hfresh.
  - apply Z.eqb_refl.
Qed.

Lemma bad_request_not_201 {A} code message m (data : A) :
  bad_request code message <> json 201 (Data m data).
Proof. discriminate. Qed.

(** X14.  POST /accounts either refuses or appends.  On a validated
    body the handler never hands an error to the middleware.  Either it
    answers 400 with one of DUPLICATE_ACCOUNT_CODE, INVALID_ACCOUNT_TYPE,
    INVALID_ACCOUNT_CATEGORY and INVALID_PARENT_ACCOUNT and the store is
    as it was, or it answers 201: the accounts table gains exactly one
    row, of the organization of the request and under an id no account
    had, the answer carries that id, and no other table is written; in
    particular no balance row is created for the new account. *)
Theorem createAccount_refuses_or_appends (now : Z) (s : db) (req : account_create) :
  let s' := fst (createAccount now s req) in
  let answer := snd (createAccount now s req) in
  (exists code message,
      answer = bad_request code message /\ In code reference_refusals /\ s' = s)
  \/ (exists account row,
      answer = json 201 (Data (Some "Account created successfully") account)
      /\ accounts s' = accounts s ++ [row]
      /\ ~ In (acc_id row) (map acc_id (accounts s))
      /\ acc_organization_id row = n_organizationId req
      /\ av_id account = acc_id row
      /\ same_books s s').
Proof.
  cbv zeta.
  destruct (createAccount_cases now s req)
    as [(code & message & -> & Hc)|(t & ts & c & cs & _ & _ & _ & ->)].
  - left. exists code, message. done.
  - right. eexists _, _. split; [reflexivity|]. cbn [fst].
    split; [reflexivity|]. split; [apply next_id_fresh|].
    unfold same_books. done.
Qed.

(** X15.  What the 201 answer of POST /accounts shows.  The created
    account is answered with the code, name, description, parent,
    flags and bank details of the request, with the requested account
    type and category, and with the time of the insert. *)
Theorem createAccount_answer_shows_request
    (now : Z) (s : db) (req : account_create) m account :
  snd (createAccount now s req) = json 201 (Data m account) ->
  shows_request now req account.
Proof.
  intros H.
  destruct (createAccount_cases now s req)
    as [(code & message & E & _)|(t & ts & c & cs & _ & Ht & Hc & E)];
    rewrite E in H; cbn [snd] in H.
  - now apply bad_request_not_201 in H.
  - injection H as _ <-.
    apply filter_cons_In in Ht as [_ Ht]. apply Z.eqb_eq in Ht.
    apply filter_cons_In in Hc as [_ Hc]. apply bool_decide_eq_true in Hc.
    cbn [new_account acc_account_type_id acc_account_category_id] in Ht, Hc.
    unfold shows_request, project_account.
    cbn [fst snd new_account av_code av_name av_description av_parentAccountId
         av_isActive av_isBankAccount av_bankAccountDetails av_accountTypeId
         av_accountCategoryId av_updatedAt acc_code acc_name acc_description
         acc_parent_account_id acc_is_active acc_is_bank_account
         acc_bank_account_details acc_updated_at option_map].
    repeat split; try reflexivity; [exact Ht|now symmetry].
Qed.

Lemma createAccount_answer_shows_request_witness :
  exists m account,
    snd (createAccount 9 categorized_books savings_account) = json 201 (Data m account)
    /\ shows_request 9 savings_account account.
Proof.
  eexists _, _. split; [vm_compute; reflexivity|].
  eapply (createAccount_answer_shows_request 9 categorized_books savings_account).
  vm_compute. reflexivity.
Defined.

(** X16.  Creating an account and reading it.  After a 201 answer,
    GET /accounts/:accountId/organization/:organizationId with the
    answered id and the organization of the request answers 200 with
    the very account the creation answered. *)
Theorem createAccount_then_getAccount
    (now : Z) (s : db) (req : account_create) m account :
  snd (createAccount now s req) = json 201 (Data m account) ->
  getAccount (fst (createAccount now s req)) (av_id account) (n_organizationId req)
  = json 200 (Data None account).
Proof.
  intros H.
  destruct (createAccount_cases now s req)
    as [(code & message & E & _)|(t & ts & c & cs & _ & Ht & Hc & E)];
    rewrite E in H |- *; cbn [fst snd] in H |- *.
  - now apply bad_request_not_201 in H.
  - injection H as _ <-. unfold getAccount.
    rewrite (views_of_inserted _ _ s t ts c cs); [reflexivity| | |exact Ht|exact Hc].
    + intros a Ha. cbn [project_account av_id fst new_account acc_id].
      rewrite (fresh_id_eqb _ s (next_id_fresh _) a Ha). reflexivity.
    + cbn [project_account av_id fst new_account acc_id acc_organization_id].
      now rewrite !Z.eqb_refl.
Qed.

Lemma createAccount_then_getAccount_witness :
  exists m account,
    snd (createAccount 9 categorized_books savings_account) = json 201 (Data m account)
    /\ getAccount (fst (createAccount 9 categorized_books savings_account))
                  (av_id account) (n_organizationId savings_account)
       = json 200 (Data None account).
Proof.
  eexists _, _. split; [vm_compute; reflexivity|].
  eapply (createAccount_then_getAccount 9 categorized_books savings_account).
  vm_compute. reflexivity.
Defined.

(** X17.  POST /accounts keeps the keys of the accounts table.  When
    account ids are distinct and no two accounts share organization
    and code, the same holds of the store the handler leaves, whatever
    it answers. *)
Theorem createAccount_keeps_keys_unique (now : Z) (s : db) (req : account_create) :
  List.NoDup (map acc_id (accounts s)) ->
  List.NoDup (map code_key (accounts s)) ->
  List.NoDup (map acc_id (accounts (fst (createAccount now s req))))
  /\ List.NoDup (map code_key (accounts (fst (createAccount now s req)))).
Proof.
  intros Hid Hkey.
  destruct (createAccount_cases now s req)
    as [(code & message & E & _)|(t & ts & c & cs & Hd & _ & _ & E)];
    rewrite E; cbn [fst]; [done|].
  cbn [insert_account accounts]. rewrite !map_app. cbn [map]. split.
  - apply NoDup_app_fresh; [exact Hid|constructor; [intros []|constructor]|].
    intros x [<-|[]]. apply next_id_fresh.
  - apply NoDup_app_fresh; [exact Hkey|constructor; [intros []|constructor]|].
    intros x [<-|[]] Hin. apply List.in_map_iff in Hin as (a & Hk & Ha).
    unfold code_key in Hk. cbn [new_account acc_organization_id acc_code] in Hk.
    injection Hk as Ho Hc.
    assert (Hf : In a (List.filter
                         (fun a => (acc_organization_id a =? n_organizationId req)
                                   && String.eqb (acc_code a) (n_code req))
                         (accounts s))).
    { apply List.filter_In. split; [exact Ha|].
      rewrite Ho, Hc, Z.eqb_refl, String.eqb_refl. reflexivity. }
    rewrite Hd in Hf. destruct Hf.
Qed.

Lemma createAccount_keeps_keys_unique_witness :
  List.NoDup (map acc_id (accounts (fst (createAccount 9 categorized_books savings_account))))
  /\ List.NoDup (map code_key
                     (accounts (fst (createAccount 9 categorized_books savings_account)))).
Proof.
  apply (createAccount_keeps_keys_unique 9 categorized_books savings_account).
  - distinct_ids.
  - vm_compute. repeat (constructor; [cbn; intuition discriminate|]). constructor.
Defined.

(** The rows of the trial balance query come from the accounts of the
    organization and their balance rows. *)
Lemma tb_query_rows org s r :
  In r (tb_query org s) ->
  exists a t b,
    In (a, t) (accounts_with_types s)
    /\ acc_organization_id a = org
    /\ In b (balances_of a s)
    /\ tr_id r = acc_id a
    /\ tr_code r = acc_code a
    /\ tr_balance r = option_map bal_balance b.
Proof.
  intros H. unfold tb_query in H. apply order_by_In in H.
  apply List.in_flat_map in H as ([a t] & Hat & H).
  apply List.filter_In in Hat as [Hat Ho]. apply Z.eqb_eq in Ho.
  cbn [fst snd] in H, Ho.
  apply List.in_flat_map in H as (c & _ & H).
  apply List.in_map_iff in H as (b & <- & Hb).
  exists a, t, b. done.
Qed.

Lemma classify_row r : ta_row (classify r) = r.
Proof. unfold classify. destruct (String.eqb _ _), (Qle_bool _ _); reflexivity. Qed.

(** X18.  A new account in the trial balance.  Where every balance row
    belongs to a stored account, an account just created has no
    balance row: no row of the balances table of the store after the
    201 answer names it.  A trial balance of its organization that is
    answered 200 lists it, and lists it under the code of the request
    with balance 0 in both columns. *)
Theorem createAccount_then_trialBalance
    (now : Z) (s : db) (req : account_create) m account
    (asOfDate : option string) (today : string) m' tb :
  balances_reference_accounts s ->
  snd (createAccount now s req) = json 201 (Data m account) ->
  trialBalance (fst (createAccount now s req)) (n_organizationId req) asOfDate today
    = json 200 (Data m' tb) ->
  Forall (fun b => bal_account_id b <> av_id account)
         (account_balances (fst (createAccount now s req)))
  /\ (exists r, In r (tb_listed tb) /\ tr_id (ta_row r) = av_id account)
  /\ (forall r, In r (tb_listed tb) -> tr_id (ta_row r) = av_id account ->
        tr_code (ta_row r) = n_code req
        /\ ta_balance r = 0%Q
        /\ ta_debitBalance r = 0%Q
        /\ ta_creditBalance r = 0%Q).
Proof.
  intros Hfk H Htb.
  destruct (createAccount_cases now s req)
    as [(code & message & E & _)|(t & ts & c & cs & _ & Ht & Hc & E)];
    rewrite E in H, Htb |- *; cbn [fst snd] in H, Htb |- *.
  { now apply bad_request_not_201 in H. }
  injection H as _ <-.
  set (row := new_account now (next_id (map acc_id (accounts s))) req) in *.
  set (s' := insert_account row s) in *.
  change (av_id (project_account (row, t) (Some c)))
    with (next_id (map acc_id (accounts s))).
  assert (Hrows : Forall (fun b => bal_account_id b <> next_id (map acc_id (accounts s)))
                         (account_balances s')).
  { apply List.Forall_forall. intros b Hb Heq.
    cbn [s' insert_account account_balances] in Hb.
    apply (next_id_fresh (map acc_id (accounts s))).
    specialize (Hfk b Hb). now rewrite Heq in Hfk. }
  assert (Hnone : balances_of row s' = [None]).
  { unfold balances_of. rewrite filter_none; [reflexivity|].
    intros b Hb. rewrite List.Forall_forall in Hrows. specialize (Hrows b Hb).
    destruct (Z.eqb_spec (bal_account_id b) (acc_id row)) as [Heq|]; [|reflexivity].
    now exfalso. }
  assert (Hin : In (row, t) (accounts_with_types s')).
  { unfold s'. rewrite accounts_with_types_insert. apply List.in_app_iff. right.
    apply List.in_map. rewrite Ht. now left. }
  pose proof (trialBalance_lists_the_query _ _ _ _ _ _ Htb) as Hp.
  split; [exact Hrows|]. split.
  - destruct (tb_query_lists s' (n_organizationId req) row t None Hin eq_refl)
      as (r & Hr & Hid & _).
    { rewrite Hnone. now left. }
    exists (classify r). split.
    + apply (Permutation_in _ (Permutation_sym Hp)). now apply List.in_map.
    + rewrite classify_row. exact Hid.
  - intros r Hr Hid. apply (Permutation_in _ Hp) in Hr.
    apply List.in_map_iff in Hr as (q & <- & Hq).
    rewrite classify_row in Hid |- *.
    apply tb_query_rows in Hq as (a & t' & b & Hat & _ & Hb & Hqid & Hqc & Hqb).
    assert (Ha : a = row).
    { apply accounts_with_types_In in Hat as (Ha & _).
      cbn [s' insert_account accounts] in Ha. apply List.in_app_iff in Ha as [Ha|[<-|[]]];
        [|reflexivity].
      exfalso. apply (next_id_fresh (map acc_id (accounts s))).
      rewrite Hqid in Hid. rewrite <- Hid. now apply List.in_map. }
    subst a. rewrite Hnone in Hb. destruct Hb as [<-|[]]. cbn [option_map] in Hqb.
    split; [rewrite Hqc; reflexivity|].
    unfold classify. rewrite Hqb. cbn [default from_option Datatypes.id].
    destruct (String.eqb _ _); repeat split; reflexivity.
Qed.

(** A savings account opened on the example books. *)
Lemma createAccount_then_trialBalance_witness :
  exists m account m' tb,
    snd (createAccount 9 categorized_books savings_account) = json 201 (Data m account)
    /\ trialBalance (fst (createAccount 9 categorized_books savings_account))
                    (n_organizationId savings_account) None "2024-02-01"
       = json 200 (Data m' tb)
    /\ Forall (fun b => bal_account_id b <> av_id account)
              (account_balances (fst (createAccount 9 categorized_books savings_account)))
    /\ (exists r, In r (tb_listed tb) /\ tr_id (ta_row r) = av_id account)
    /\ (forall r, In r (tb_listed tb) -> tr_id (ta_row r) = av_id account ->
          tr_code (ta_row r) = n_code savings_account
          /\ ta_balance r = 0%Q
          /\ ta_debitBalance r = 0%Q
          /\ ta_creditBalance r = 0%Q).
Proof.
  eexists _, _, _, _.
  split; [vm_compute; reflexivity|].
  split; [vm_compute; reflexivity|].
  eapply (createAccount_then_trialBalance 9 categorized_books savings_account
            _ _ None "2024-02-01").
  - intros b Hb. vm_compute in Hb. vm_compute. intuition (subst; cbn; auto).
  - vm_compute. reflexivity.
  - vm_compute. reflexivity.
Defined.

(** ** Account registry: update *)

Lemma duplicate_code_check_refusal s org id existing u refusal :
  duplicate_code_check s org id existing u = Some refusal ->
  exists code message, refusal = bad_request code message.
Proof.
  unfold duplicate_code_check. destruct (_ && _); [|discriminate].
  destruct (List.filter _ _); [discriminate|]. intros [= <-]. eauto.
Qed.

Lemma account_type_check_refusal s u refusal :
  account_type_check s u = Some refusal ->
  exists code message, refusal = bad_request code message.
Proof.
  unfold account_type_check. destruct (truthy_id _); [|discriminate].
  destruct (List.filter _ _); [|discriminate]. intros [= <-]. eauto.
Qed.

Lemma account_category_check_refusal s org u refusal :
  account_category_check s org u = Some refusal ->
  exists code message, refusal = bad_request code message.
Proof.
  unfold account_category_check. destruct (truthy_id _); [|discriminate].
  destruct (List.filter _ _); [|discriminate]. intros [= <-]. eauto.
Qed.

Lemma parent_account_check_refusal s org accountId u refusal :
  parent_account_check s org accountId u = Some refusal ->
  exists code message, refusal = bad_request code message.
Proof.
  unfold parent_account_check. cbv zeta.
  destruct (negb (strict_equals _ JUndefined)); [|discriminate].
  destruct (strict_equals _ (JString _)); [intros [= <-]; eauto|].
  destruct (negb (strict_equals _ JNull)); [|discriminate].
  destruct (List.filter _ _); [|discriminate]. intros [= <-]. eauto.
Qed.

Ltac untouched_and_no_200 :=
  left; split; [reflexivity|intros ? ?; cbn [snd]; discriminate].

(** The two ways out of PUT /accounts: the store untouched and no 200,
    or the update applied to the rows of the id. *)
Lemma updateAccount_cases now s accountId organizationId u :
  (fst (updateAccount now s accountId organizationId u) = s
   /\ forall m account,
        snd (updateAccount now s accountId organizationId u)
        <> json 200 (Data m account))
  \/ (exists id org existing rest,
        store_int accountId = Some id
        /\ store_int organizationId = Some org
        /\ List.filter (fun a => (acc_id a =? id) && (acc_organization_id a =? org))
                       (accounts s) = existing :: rest
        /\ duplicate_code_check s org id existing u = None
        /\ updateAccount now s accountId organizationId u
           = (update_account_rows now id u s,
              match view_account id (update_account_rows now id u s) with
              | Some account =>
                  json 200 (Data (Some "Account updated successfully") account)
              | None => Next undefined_account_error
              end)).
Proof.
  unfold updateAccount.
  destruct (store_int accountId) as [id|];
    [|destruct (store_int organizationId); untouched_and_no_200].
  destruct (store_int organizationId) as [org|];
    [|untouched_and_no_200].
  destruct (List.filter _ (accounts s)) as [|existing rest] eqn:Hf;
    [untouched_and_no_200|].
  destruct (duplicate_code_check s org id existing u) as [r|] eqn:H1.
  { apply duplicate_code_check_refusal in H1 as (c & m & ->).
    untouched_and_no_200. }
  destruct (account_type_check s u) as [r|] eqn:H2.
  { apply account_type_check_refusal in H2 as (c & m & ->).
    untouched_and_no_200. }
  destruct (account_category_check s org u) as [r|] eqn:H3.
  { apply account_category_check_refusal in H3 as (c & m & ->).
    untouched_and_no_200. }
  destruct (parent_account_check s org accountId u) as [r|] eqn:H4.
  { apply parent_account_check_refusal in H4 as (c & m & ->).
    untouched_and_no_200. }
  right. exists id, org, existing, rest. cbv zeta.
  split; [reflexivity|]. split; [reflexivity|]. split; [exact Hf|].
  split; [exact H1|].
  destruct (view_account id (update_account_rows now id u s)); reflexivity.
Qed.

Lemma Forall2_refl_on {A} (R : A -> A -> Prop) (l : list A) :
  (forall x, R x x) -> Forall2 R l l.
Proof. intros H. induction l; constructor; auto. Qed.

(** X19.  What PUT /accounts can change.  Whatever the request and the
    answer, only the accounts table is written; every account keeps its
    id and its organization, and an account whose id the URL does not
    name is left as it was.  A JSON answer with a status other than 200
    leaves the whole store as it was, and so does every error the
    handler throws except one: the TypeError of reading the updated
    account back, which comes after the write. *)
Theorem updateAccount_touches_one_account
    (now : Z) (s : db) (accountId organizationId : string) (u : account_update) :
  let s' := fst (updateAccount now s accountId organizationId u) in
  same_books s s'
  /\ Forall2 (kept_by_update accountId) (accounts s) (accounts s')
  /\ (forall st b,
        snd (updateAccount now s accountId organizationId u) = json st b ->
        st <> 200 -> s' = s)
  /\ (forall error,
        snd (updateAccount now s accountId organizationId u) = Next error ->
        error <> undefined_account_error -> s' = s).
Proof.
  cbv zeta.
  destruct (updateAccount_cases now s accountId organizationId u)
    as [[-> _]|(id & org & existing & rest & Hid & Horg & _ & _ & ->)].
  - split; [unfold same_books; done|]. split; [|done].
    apply Forall2_refl_on. intros a. unfold kept_by_update. done.
  - cbn [fst snd]. split; [unfold same_books; done|]. split; [|split].
    + cbn [update_account_rows accounts]. apply Forall2_map_self.
      intros a. unfold kept_by_update.
      destruct (Z.eqb_spec (acc_id a) id) as [Heq|Hne].
      * split; [reflexivity|]. split; [reflexivity|].
        intros Hc. exfalso. apply Hc. now rewrite Hid, Heq.
      * split; [reflexivity|]. split; reflexivity.
    + intros st b H Hst.
      destruct (view_account id (update_account_rows now id u s));
        [|discriminate]. injection H as <- _. done.
    + intros error H Hne.
      destruct (view_account id (update_account_rows now id u s));
        [discriminate|]. injection H as <-. done.
Qed.

(** The error after the write.  An account type id of 0 passes the
    check of the type, which only looks at a truthy id; the row of
    account 1 is written with type 0, no row joins it any more, reading
    the account back throws, and the client is answered 500 while the
    store has changed. *)
Example updateAccount_type_zero_writes_then_throws :
  updateAccount 9 books "1" "1" (set_type 0)
  = (update_account_rows 9 1 (set_type 0) books, Next undefined_account_error)
  /\ map acc_account_type_id
         (List.filter (fun a => acc_id a =? 1)
                      (accounts (fst (updateAccount 9 books "1" "1" (set_type 0)))))
     = [0]
  /\ map acc_account_type_id (List.filter (fun a => acc_id a =? 1) (accounts books))
     = [1]
  /\ respond false (snd (updateAccount 9 books "1" "1" (set_type 0))) = server_error.
Proof. vm_compute. repeat split; reflexivity. Qed.

Lemma NoDup_ids_eq (accs : list account) a b :
  List.NoDup (map acc_id accs) -> In a accs -> In b accs ->
  acc_id a = acc_id b -> a = b.
Proof.
  intros Hnd Ha Hb Hid.
  assert (H : In b (List.filter (fun x => acc_id x =? acc_id a) accs)).
  { apply List.filter_In. split; [exact Hb|]. apply Z.eqb_eq. now symmetry. }
  rewrite (filter_unique_id accs a Hnd Ha) in H. destruct H as [H|[]]. exact H.
Qed.

(** X20.  Updating an account and reading it.  Where account ids are
    distinct, after a 200 answer of PUT /accounts the GET handler of
    the same account and organization answers 200 with the very
    account the update answered. *)
Theorem updateAccount_then_getAccount
    (now : Z) (s : db) (accountId organizationId : string) (u : account_update)
    (id org : Z) m account :
  List.NoDup (map acc_id (accounts s)) ->
  store_int accountId = Some id ->
  store_int organizationId = Some org ->
  snd (updateAccount now s accountId organizationId u) = json 200 (Data m account) ->
  getAccount (fst (updateAccount now s accountId organizationId u)) id org
  = json 200 (Data None account).
Proof.
  intros Hnd Hid Horg H.
  destruct (updateAccount_cases now s accountId organizationId u)
    as [[_ Hno]|(id' & org' & existing & rest & Hid' & Horg' & Hf & _ & E)].
  { now apply Hno in H. }
  rewrite Hid in Hid'. injection Hid' as <-.
  rewrite Horg in Horg'. injection Horg' as <-.
  rewrite E in H |- *. cbn [fst snd] in H |- *.
  set (s' := update_account_rows now id u s) in *.
  destruct (view_account id s') as [v|] eqn:Hv; [|discriminate].
  injection H as _ <-.
  apply filter_cons_In in Hf as [Hex Hkeys].
  apply andb_prop in Hkeys as [Hexid Hexorg].
  apply Z.eqb_eq in Hexid. apply Z.eqb_eq in Hexorg.
  unfold getAccount.
  assert (Hsame : account_views (fun a => (acc_id a =? id) && (acc_organization_id a =? org)) s'
                  = account_views (fun a => acc_id a =? id) s').
  { unfold account_views. f_equal. apply List.filter_ext_in.
    intros [a t] Hat. cbn [fst].
    apply accounts_with_types_In in Hat as (Ha & _).
    cbn [s' update_account_rows accounts] in Ha.
    apply List.in_map_iff in Ha as (a0 & <- & Ha0).
    destruct (Z.eqb_spec (acc_id a0) id) as [Ha0id|Hne].
    - cbn [merge_update acc_id acc_organization_id].
      rewrite (NoDup_ids_eq (accounts s) a0 existing Hnd Ha0 Hex) by congruence.
      rewrite Hexid, Hexorg, !Z.eqb_refl. reflexivity.
    - apply Z.eqb_neq in Hne. rewrite Hne. reflexivity. }
  rewrite Hsame, <- view_account_views, Hv. reflexivity.
Qed.

Lemma updateAccount_then_getAccount_witness :
  exists m account,
    snd (updateAccount 9 books "3" "1" (set_parent (Some 1))) = json 200 (Data m account)
    /\ getAccount (fst (updateAccount 9 books "3" "1" (set_parent (Some 1)))) 3 1
       = json 200 (Data None account).
Proof.
  eexists _, _. split; [vm_compute; reflexivity|].
  eapply (updateAccount_then_getAccount 9 books "3" "1" (set_parent (Some 1)) 3 1).
  - distinct_ids.
  - reflexivity.
  - reflexivity.
  - vm_compute. reflexivity.
Defined.

(** X21.  An account is not visible from another organization.  When
    no account carries both the id and the organization of the URL,
    the account read, the ledger and the update all answer 404
    ACCOUNT_NOT_FOUND, and the update leaves the store as it was,
    whether or not another organization has an account of that id. *)
Theorem account_of_another_organization_is_not_found
    (now : Z) (s : db) (accountId organizationId : string) (id org : Z)
    (u : account_update) (startDate endDate : option Z) (page limit : Z) :
  store_int accountId = Some id ->
  store_int organizationId = Some org ->
  (forall a, In a (accounts s) -> acc_id a = id -> acc_organization_id a <> org) ->
  getAccount s id org = account_not_found
  /\ getLedger s id org startDate endDate page limit = account_not_found
  /\ updateAccount now s accountId organizationId u = (s, account_not_found).
Proof.
  intros Hid Horg Hnone.
  assert (Hkeep : forall a, In a (accounts s) ->
            (acc_id a =? id) && (acc_organization_id a =? org) = false).
  { intros a Ha. destruct (Z.eqb_spec (acc_id a) id) as [Heq|]; [|reflexivity].
    apply (Hnone a Ha) in Heq. apply Z.eqb_neq in Heq. now rewrite Heq. }
  split; [|split].
  - unfold getAccount. now rewrite account_views_none.
  - unfold getLedger, ledger_account_of. rewrite filter_none; [reflexivity|].
    intros [a t] Hat. apply accounts_with_types_In in Hat as (Ha & _).
    now apply Hkeep.
  - unfold updateAccount. rewrite Hid, Horg. now rewrite filter_none.
Qed.

(** Cash of organization 2 (id 4), asked for by organization 1. *)
Lemma account_of_another_organization_is_not_found_witness :
  getAccount books 4 1 = account_not_found
  /\ getLedger books 4 1 None None 1 50 = account_not_found
  /\ updateAccount 9 books "4" "1" (set_parent None) = (books, account_not_found).
Proof.
  apply (account_of_another_organization_is_not_found 9 books "4" "1" 4 1).
  - reflexivity.
  - reflexivity.
  - intros a Ha. vm_compute in Ha.
    intuition (subst; cbn in *; discriminate).
Defined.

Lemma NoDup_map_eq {A K} (k : A -> K) (l : list A) a b :
  List.NoDup (map k l) -> In a l -> In b l -> k a = k b -> a = b.
Proof.
  induction l as [|x l IH]; intros Hnd Ha Hb Hk; [destruct Ha|].
  cbn [map] in Hnd. apply List.NoDup_cons_iff in Hnd as [Hx Hnd].
  destruct Ha as [->|Ha], Hb as [->|Hb]; [reflexivity| | |now apply IH].
  - exfalso. apply Hx. rewrite Hk. now apply List.in_map.
  - exfalso. apply Hx. rewrite <- Hk. now apply List.in_map.
Qed.

(** Rewriting the rows singled out by [p] keeps a key unique when the
    new key of a rewritten row is the key of no other row. *)
Lemma NoDup_map_update {A K} (k : A -> K) (f : A -> A) (p : A -> bool) (l : list A) :
  List.NoDup (map k l) ->
  (forall a b, In a l -> In b l -> p a = true -> p b = true -> a = b) ->
  (forall a b, In a l -> In b l -> p a = true -> p b = false -> k (f a) <> k b) ->
  List.NoDup (map k (map (fun a => if p a then f a else a) l)).
Proof.
  induction l as [|x l IH]; intros Hnd Hone Hnew; [constructor|].
  cbn [map] in Hnd |- *. apply List.NoDup_cons_iff in Hnd as [Hx Hnd].
  constructor.
  - intros Hin. apply List.in_map_iff in Hin as (y & Hky & Hy).
    apply List.in_map_iff in Hy as (b & <- & Hb).
    destruct (p x) eqn:Hpx, (p b) eqn:Hpb.
    + apply Hx. rewrite (Hone x b) by (try (now left); try (now right); done).
      now apply List.in_map.
    + apply (Hnew x b); [now left|now right|done..].
    + apply (Hnew b x); [now right|now left|done..].
    + apply Hx. rewrite <- Hky. now apply List.in_map.
  - apply IH; [exact Hnd| |].
    + intros a b Ha Hb. apply Hone; now right.
    + intros a b Ha Hb. apply Hnew; now right.
Qed.

(** X22.  PUT /accounts keeps the keys of the accounts table.  When
    account ids are distinct, no two accounts share organization and
    code, and the code of the body, if any, is not empty, the same
    holds of the store the handler leaves, whatever it answers. *)
Theorem updateAccount_keeps_keys_unique
    (now : Z) (s : db) (accountId organizationId : string) (u : account_update) :
  List.NoDup (map acc_id (accounts s)) ->
  List.NoDup (map code_key (accounts s)) ->
  u_code u <> Some EmptyString ->
  List.NoDup (map acc_id
                  (accounts (fst (updateAccount now s accountId organizationId u))))
  /\ List.NoDup (map code_key
                     (accounts (fst (updateAccount now s accountId organizationId u)))).
Proof.
  intros Hid Hkey Hcode.
  destruct (updateAccount_cases now s accountId organizationId u)
    as [[-> _]|(id & org & existing & rest & _ & _ & Hf & Hdup & ->)]; [done|].
  cbn [fst update_account_rows accounts].
  apply filter_cons_In in Hf as [Hex Hkeys].
  apply andb_prop in Hkeys as [Hexid Hexorg].
  apply Z.eqb_eq in Hexid. apply Z.eqb_eq in Hexorg.
  split.
  - rewrite map_map.
    rewrite (map_ext (fun a => acc_id (if acc_id a =? id then merge_update now u a else a))
                     acc_id); [exact Hid|].
    intros a. now destruct (acc_id a =? id).
  - apply NoDup_map_update; [exact Hkey| |].
    + intros a b Ha Hb Hpa Hpb. apply Z.eqb_eq in Hpa. apply Z.eqb_eq in Hpb.
      apply (NoDup_map_eq acc_id (accounts s)); [exact Hid|exact Ha|exact Hb|congruence].
    + intros a b Ha Hb Hpa Hpb Heq. apply Z.eqb_eq in Hpa.
      assert (a = existing)
        by (apply (NoDup_map_eq acc_id (accounts s)); [exact Hid|exact Ha|exact Hex|congruence]).
      subst a.
      unfold code_key in Heq. cbn [merge_update acc_organization_id acc_code] in Heq.
      injection Heq as Horg Hc.
      destruct (u_code u) as [c|] eqn:Hu; cbn [default from_option Datatypes.id] in Hc.
      * unfold duplicate_code_check in Hdup. rewrite Hu in Hdup.
        cbn [truthy_string] in Hdup.
        destruct (String.eqb_spec c EmptyString) as [->|_]; [now destruct Hcode|].
        cbn [negb andb] in Hdup.
        destruct (bool_decide (Some c = Some (acc_code existing))) eqn:Hsame.
        -- apply bool_decide_eq_true in Hsame. injection Hsame as ->.
           assert (existing = b)
             by (apply (NoDup_map_eq code_key (accounts s));
                 [exact Hkey|exact Hex|exact Hb|unfold code_key; congruence]).
           subst b. rewrite Hpa, Z.eqb_refl in Hpb. discriminate.
        -- cbn [negb] in Hdup.
           destruct (List.filter _ (accounts s)) as [|? ?] eqn:Hfil; [|discriminate].
           assert (Hin : In b (List.filter
                       (fun a => (acc_organization_id a =? org)
                                 && bool_decide (Some (acc_code a) = Some c)
                                 && negb (acc_id a =? id))
                       (accounts s))).
           { apply List.filter_In. split; [exact Hb|].
             rewrite <- Horg, Hexorg, Z.eqb_refl, Hpb, <- Hc.
             now rewrite bool_decide_eq_true_2. }
           rewrite Hfil in Hin. destruct Hin.
      * assert (existing = b)
          by (apply (NoDup_map_eq code_key (accounts s));
              [exact Hkey|exact Hex|exact Hb|unfold code_key; congruence]).
        subst b. rewrite Hpa, Z.eqb_refl in Hpb. discriminate.
Qed.

(** Renaming the code of Rent (id 3) to a code no account of
    organization 1 has. *)
Lemma updateAccount_keeps_keys_unique_witness :
  List.NoDup (map acc_id
                  (accounts (fst (updateAccount 9 books "3" "1" (set_code "5100")))))
  /\ List.NoDup (map code_key
                     (accounts (fst (updateAccount 9 books "3" "1" (set_code "5100"))))).
Proof.
  apply (updateAccount_keeps_keys_unique 9 books "3" "1" (set_code "5100")).
  - distinct_ids.
  - vm_compute. repeat (constructor; [cbn; intuition discriminate|]). constructor.
  - discriminate.
Defined.

(** ** Journal entries: the listing and the detail view *)

Lemma flat_map_single {L B C} (k : L -> list B) (mk : L -> B -> C)
    (f : C -> Q) (g : L -> Q) (ls : list L) :
  (forall l, In l ls -> exists b, k l = [b]) ->
  (forall l b, f (mk l b) = g l) ->
  map f (flat_map (fun l => map (mk l) (k l)) ls) = map g ls.
Proof.
  intros Hk Hfg. induction ls as [|l ls IH]; [reflexivity|].
  cbn [flat_map map]. destruct (Hk l) as [b ->]; [now left|].
  cbn [map app]. rewrite Hfg. f_equal. apply IH. intros l' Hl'. apply Hk. now right.
Qed.

Lemma account_of_line s l :
  List.NoDup (map acc_id (accounts s)) ->
  In (jel_account_id l) (map acc_id (accounts s)) ->
  exists a, List.filter (fun a => acc_id a =? jel_account_id l) (accounts s) = [a].
Proof.
  intros Hnd Hin. apply List.in_map_iff in Hin as (a & Hid & Ha).
  exists a. rewrite <- Hid. now apply filter_unique_id.
Qed.

(** With distinct account ids and every line on a stored account, the
    lines of the detail view add up to the stored lines of the entry. *)
Lemma created_lines_sum (f : created_line -> Q) (g : journal_entry_line -> Q) s id :
  List.NoDup (map acc_id (accounts s)) ->
  lines_reference_accounts s ->
  (forall l a,
      f {| cl_id := jel_id l;
           cl_accountId := jel_account_id l;
           cl_accountCode := acc_code a;
           cl_accountName := acc_name a;
           cl_description := jel_description l;
           cl_debitAmount := jel_debit_amount l;
           cl_creditAmount := jel_credit_amount l;
           cl_taxRate := jel_tax_rate l;
           cl_taxAmount := jel_tax_amount l |} = g l) ->
  (Qsum (map f (created_lines id s))
   == Qsum (map g (List.filter (fun l => jel_journal_entry_id l =? id)
                               (journal_entry_lines s))))%Q
  /\ length (created_lines id s)
     = length (List.filter (fun l => jel_journal_entry_id l =? id)
                           (journal_entry_lines s)).
Proof.
  intros Hnd Hfk Hfg. unfold created_lines.
  set (joined := flat_map _ _).
  assert (Hone : forall l,
            In l (List.filter (fun l => jel_journal_entry_id l =? id)
                              (journal_entry_lines s)) ->
            exists a, List.filter (fun a => acc_id a =? jel_account_id l) (accounts s)
                      = [a]).
  { intros l Hl. apply List.filter_In in Hl as [Hl _].
    apply account_of_line; [exact Hnd|].
    unfold lines_reference_accounts in Hfk. rewrite List.Forall_forall in Hfk.
    now apply Hfk. }
  split.
  - rewrite (Qsum_perm _ _ (Permutation_map f (order_by_perm _ joined))).
    unfold joined.
    rewrite (flat_map_single
               (fun l => List.filter (fun a => acc_id a =? jel_account_id l) (accounts s))
               (fun l a =>
                  {| cl_id := jel_id l;
                     cl_accountId := jel_account_id l;
                     cl_accountCode := acc_code a;
                     cl_accountName := acc_name a;
                     cl_description := jel_description l;
                     cl_debitAmount := jel_debit_amount l;
                     cl_creditAmount := jel_credit_amount l;
                     cl_taxRate := jel_tax_rate l;
                     cl_taxAmount := jel_tax_amount l |})
               f g _ Hone Hfg).
    reflexivity.
  - rewrite (Permutation_length (order_by_perm _ joined)).
    rewrite <- (length_map (fun _ => 0%Q) joined). unfold joined.
    rewrite (flat_map_single
               (fun l => List.filter (fun a => acc_id a =? jel_account_id l) (accounts s))
               (fun l a =>
                  {| cl_id := jel_id l;
                     cl_accountId := jel_account_id l;
                     cl_accountCode := acc_code a;
                     cl_accountName := acc_name a;
                     cl_description := jel_description l;
                     cl_debitAmount := jel_debit_amount l;
                     cl_creditAmount := jel_credit_amount l;
                     cl_taxRate := jel_tax_rate l;
                     cl_taxAmount := jel_tax_amount l |})
               (fun _ => 0%Q) (fun _ => 0%Q) _ Hone (fun _ _ => eq_refl)).
    apply length_map.
Qed.

(** X23.  The listing and the detail view agree.  With distinct
    account ids and every stored line on a stored account, an entry
    shown on a page of the listing is found by the detail view of the
    same organization, which answers 200 with an entry of that id, as
    many lines as the entry has stored lines, and the total debit and
    total credit the listing shows. *)
Theorem listed_entry_totals_agree_with_detail
    (s : db) (organization_id : Z) (startDate endDate : option Z)
    (page limit : Z) (m : option string) (p : entry_page) (e : entry_summary) :
  List.NoDup (map acc_id (accounts s)) ->
  lines_reference_accounts s ->
  listJournalEntries s organization_id startDate endDate page limit
    = json 200 (Data m p) ->
  In e (ep_entries p) ->
  exists d,
    getJournalEntry s (je_id (es_entry e)) organization_id = json 200 (Data None d)
    /\ je_id (ed_entry d) = je_id (es_entry e)
    /\ length (ed_lines d)
       = length (List.filter (fun l => jel_journal_entry_id l =? je_id (es_entry e))
                             (journal_entry_lines s))
    /\ (ed_totalDebit d == es_totalDebit e)%Q
    /\ (ed_totalCredit d == es_totalCredit e)%Q.
Proof.
  intros Hnd Hfk H He. unfold listJournalEntries in H.
  destruct ((limit <? 0) || ((page - 1) * limit <? 0)); [discriminate|].
  injection H as _ <-. cbn [ep_entries] in He.
  apply List.in_map_iff in He as (e0 & <- & He0).
  rewrite with_totals_sums by now apply List.in_map.
  cbn [es_entry es_totalDebit es_totalCredit].
  unfold limit_offset in He0. apply In_firstn, In_skipn in He0.
  unfold entries_window in He0. apply order_by_In in He0.
  apply List.filter_In in He0 as [Hin Hp].
  apply andb_true_iff in Hp as [Hp _]. apply andb_true_iff in Hp as [Horg _].
  unfold getJournalEntry.
  destruct (List.filter (fun e => (je_id e =? je_id e0)
                                  && (je_organization_id e =? organization_id))
                        (journal_entries s)) as [|found rest] eqn:Hf.
  { exfalso.
    assert (Hc : In e0 (List.filter (fun e => (je_id e =? je_id e0)
                                              && (je_organization_id e =? organization_id))
                                    (journal_entries s))).
    { apply List.filter_In. split; [exact Hin|]. now rewrite Z.eqb_refl, Horg. }
    rewrite Hf in Hc. destruct Hc. }
  apply filter_cons_In in Hf as [_ Hfound]. apply andb_prop in Hfound as [Hfid _].
  apply Z.eqb_eq in Hfid.
  eexists. split; [reflexivity|].
  cbn [ed_entry ed_lines ed_totalDebit ed_totalCredit].
  split; [exact Hfid|].
  destruct (created_lines_sum cl_debitAmount jel_debit_amount s (je_id e0) Hnd Hfk
              (fun _ _ => eq_refl)) as [Hd Hlen].
  destruct (created_lines_sum cl_creditAmount jel_credit_amount s (je_id e0) Hnd Hfk
              (fun _ _ => eq_refl)) as [Hc _].
  split; [exact Hlen|].
  rewrite !fold_left_Qplus, Hd, Hc. split; reflexivity.
Qed.

Lemma listed_entry_totals_agree_with_detail_witness :
  exists m p e d,
    listJournalEntries three_sales 1 None None 1 2 = json 200 (Data m p)
    /\ In e (ep_entries p)
    /\ getJournalEntry three_sales (je_id (es_entry e)) 1 = json 200 (Data None d)
    /\ je_id (ed_entry d) = je_id (es_entry e)
    /\ length (ed_lines d)
       = length (List.filter (fun l => jel_journal_entry_id l =? je_id (es_entry e))
                             (journal_entry_lines three_sales))
    /\ (ed_totalDebit d == es_totalDebit e)%Q
    /\ (ed_totalCredit d == es_totalCredit e)%Q.
Proof.
  assert (E : exists m p e,
             listJournalEntries three_sales 1 None None 1 2 = json 200 (Data m p)
             /\ In e (ep_entries p)).
  { eexists _, _, _. split; [vm_compute; reflexivity|]. left. reflexivity. }
  destruct E as (m & p & e & E & He).
  destruct (listed_entry_totals_agree_with_detail three_sales 1 None None 1 2 m p e)
    as (d & Hd); [distinct_ids| |exact E|exact He|].
  - unfold lines_reference_accounts. each_row ltac:(cbn; tauto).
  - exists m, p, e, d. auto.
Defined.

(** ** Listings ordered by account type *)

Section KeySorting.
Context {A : Type} (le : A -> A -> bool) (key : A -> Z).
Hypothesis le_key : forall x y, le x y = true -> key x <= key y.
Hypothesis nle_key : forall x y, le x y = false -> key y <= key x.

Lemma insert_by_key_sorted x l :
  StronglySorted (fun a b => key a <= key b) l ->
  StronglySorted (fun a b => key a <= key b) (insert_by le x l).
Proof.
  induction 1 as [|y l Hs IH Hy]; cbn [insert_by].
  - repeat constructor.
  - destruct (le x y) eqn:Hxy.
    + apply le_key in Hxy. constructor; [now constructor|].
      constructor; [exact Hxy|].
      rewrite List.Forall_forall in Hy |- *. intros z Hz. specialize (Hy z Hz). lia.
    + apply nle_key in Hxy. constructor; [exact IH|].
      apply List.Forall_forall. intros z Hz. apply insert_by_In in Hz as [->|Hz].
      * exact Hxy.
      * rewrite List.Forall_forall in Hy. now apply Hy.
Qed.

Lemma order_by_key_sorted l :
  StronglySorted (fun a b => key a <= key b) (order_by le l).
Proof.
  induction l as [|x l IH]; cbn [order_by fold_right]; [constructor|].
  now apply insert_by_key_sorted.
Qed.

End KeySorting.

Lemma account_order_key x y :
  account_order x y = true -> av_accountTypeId x <= av_accountTypeId y.
Proof.
  unfold account_order. intros H. apply orb_prop in H as [H|H].
  - apply Z.ltb_lt in H. lia.
  - apply andb_prop in H as [H _]. apply Z.eqb_eq in H. lia.
Qed.

Lemma account_order_not_key x y :
  account_order x y = false -> av_accountTypeId y <= av_accountTypeId x.
Proof.
  unfold account_order. intros H. apply orb_false_elim in H as [H _].
  apply Z.ltb_ge in H. exact H.
Qed.

Lemma account_views_In keep s v :
  In v (account_views keep s) <->
  exists a t c,
    In (a, t) (accounts_with_types s) /\ keep a = true
    /\ In c (categories_of a s) /\ v = project_account (a, t) c.
Proof.
  unfold account_views. rewrite List.in_flat_map. split.
  - intros ([a t] & Hat & Hv). apply List.filter_In in Hat as [Hat Hk].
    apply List.in_map_iff in Hv as (c & <- & Hc). exists a, t, c. done.
  - intros (a & t & c & Hat & Hk & Hc & ->). exists (a, t). split.
    + apply List.filter_In. done.
    + apply List.in_map. exact Hc.
Qed.

(** X24.  The account listing of an organization.  The listing answers
    200 with the accounts in ascending order of account type id.  Every
    listed account is a stored account of the organization, and every
    stored account of the organization that has a type is listed with
    that type.  Each listed account is found by the account read of the
    same organization, which answers 200 with an account of that id. *)
Theorem listAccounts_lists_the_organization (s : db) (organization_id : Z) :
  exists views,
    listAccounts s organization_id = json 200 (Data None views)
    /\ StronglySorted (fun x y => av_accountTypeId x <= av_accountTypeId y) views
    /\ (forall v, In v views ->
          exists a, In a (accounts s)
                    /\ acc_organization_id a = organization_id
                    /\ av_id v = acc_id a /\ av_code v = acc_code a
                    /\ av_name v = acc_name a)
    /\ (forall a t, In (a, t) (accounts_with_types s) ->
          acc_organization_id a = organization_id ->
          exists v, In v views /\ av_id v = acc_id a
                    /\ av_accountTypeId v = at_id t)
    /\ (forall v, In v views ->
          exists found,
            getAccount s (av_id v) organization_id = json 200 (Data None found)
            /\ av_id found = av_id v).
Proof.
  unfold listAccounts. eexists. split; [reflexivity|].
  split; [|split; [|split]].
  - apply order_by_key_sorted; [apply account_order_key|apply account_order_not_key].
  - intros v Hv. apply order_by_In in Hv.
    apply account_views_In in Hv as (a & t & c & Hat & Hk & _ & ->).
    apply accounts_with_types_In in Hat as (Ha & _). apply Z.eqb_eq in Hk.
    exists a. done.
  - intros a t Hat Ho.
    destruct (left_join_inhabited
                (List.filter (fun c => bool_decide (acc_account_category_id a = Some (cat_id c)))
                             (account_categories s))) as [c Hc].
    exists (project_account (a, t) c). split; [|done].
    apply order_by_In. apply account_views_In. exists a, t, c.
    split; [exact Hat|]. split; [now apply Z.eqb_eq|]. split; [exact Hc|reflexivity].
  - intros v Hv. apply order_by_In in Hv.
    apply account_views_In in Hv as (a & t & c & Hat & Hk & Hc & ->).
    apply Z.eqb_eq in Hk. unfold getAccount.
    destruct (account_views _ s) as [|found rest] eqn:Hviews.
    + exfalso.
      assert (Hin : In (project_account (a, t) c)
                       (account_views
                          (fun a0 => (acc_id a0 =? av_id (project_account (a, t) c))
                                     && (acc_organization_id a0 =? organization_id)) s)).
      { apply account_views_In. exists a, t, c. split; [exact Hat|].
        split; [|done]. cbn [project_account av_id fst].
        now rewrite Hk, !Z.eqb_refl. }
      rewrite Hviews in Hin. destruct Hin.
    + cbn [head]. eexists. split; [reflexivity|].
      assert (Hin : In found (account_views
                          (fun a0 => (acc_id a0 =? av_id (project_account (a, t) c))
                                     && (acc_organization_id a0 =? organization_id)) s)).
      { rewrite Hviews. now left. }
      apply account_views_In in Hin as (a' & t' & c' & _ & Hk' & _ & ->).
      apply andb_prop in Hk' as [Hk' _]. apply Z.eqb_eq in Hk'. exact Hk'.
Qed.

(** ** The trial balance read from the tables *)

Lemma find_head_filter {A} (p : A -> bool) (l : list A) :
  List.find p l = head (List.filter p l).
Proof.
  induction l as [|x l IH]; cbn [List.find List.filter]; [reflexivity|].
  destruct (p x); [reflexivity|exact IH].
Qed.

Lemma existsb_filter {A} (p q : A -> bool) (l : list A) :
  existsb (fun x => p x && q x) l = existsb q (List.filter p l).
Proof.
  induction l as [|x l IH]; cbn [existsb List.filter]; [reflexivity|].
  destruct (p x); cbn [existsb andb]; now rewrite IH.
Qed.

Lemma existsb_head_filter {A} (p : A -> bool) (l : list A) :
  existsb p l = match List.filter p l with [] => false | _ :: _ => true end.
Proof.
  induction l as [|x l IH]; cbn [existsb List.filter]; [reflexivity|].
  destruct (p x); [reflexivity|exact IH].
Qed.

(** A filter on a key selects at most one row of a table whose keys are
    distinct. *)
Lemma filter_at_most_one {A K} (k : A -> K) (p : A -> bool) (l : list A) :
  List.NoDup (map k l) ->
  (forall x y, p x = true -> p y = true -> k x = k y) ->
  List.filter p l = [] \/ exists x, List.filter p l = [x].
Proof.
  intros Hnd Hp. induction l as [|a l IH]; cbn [List.filter]; [now left|].
  cbn [map] in Hnd. apply List.NoDup_cons_iff in Hnd as [Hnotin Hnd].
  destruct (p a) eqn:Ha; [|now apply IH].
  right. exists a. f_equal.
  destruct (List.filter p l) as [|y rest] eqn:Hf; [reflexivity|].
  exfalso. apply Hnotin.
  assert (Hy : In y (List.filter p l)) by (rewrite Hf; now left).
  apply List.filter_In in Hy as [Hy Hpy].
  rewrite (Hp a y Ha Hpy). now apply List.in_map.
Qed.

Lemma types_at_most_one s a :
  List.NoDup (map at_id (account_types s)) ->
  List.filter (fun t => at_id t =? acc_account_type_id a) (account_types s) = []
  \/ exists t, List.filter (fun t => at_id t =? acc_account_type_id a)
                           (account_types s) = [t].
Proof.
  intros H. apply (filter_at_most_one at_id); [exact H|].
  intros x y Hx Hy. apply Z.eqb_eq in Hx, Hy. congruence.
Qed.

(** With distinct category ids the left join on the category gives one
    row. *)
Lemma categories_of_one s a :
  List.NoDup (map cat_id (account_categories s)) ->
  exists c, categories_of a s = [c].
Proof.
  intros H. unfold categories_of.
  destruct (filter_at_most_one cat_id
              (fun c => bool_decide (acc_account_category_id a = Some (cat_id c)))
              (account_categories s) H) as [->|[c ->]].
  - intros x y Hx Hy. apply bool_decide_eq_true_1 in Hx, Hy. congruence.
  - now exists None.
  - now exists (Some c).
Qed.

(** With distinct balance keys the left join on the balance gives one
    row, which carries the stored balance. *)
Lemma balances_of_one s a :
  List.NoDup (map (fun b => (bal_account_id b, bal_organization_id b))
                  (account_balances s)) ->
  exists b, balances_of a s = [b]
            /\ default 0%Q (option_map bal_balance b) = stored_balance a s.
Proof.
  intros H. unfold balances_of, stored_balance. rewrite find_head_filter.
  destruct (filter_at_most_one (fun b => (bal_account_id b, bal_organization_id b))
              (fun b => (bal_account_id b =? acc_id a)
                        && (bal_organization_id b =? acc_organization_id a))
              (account_balances s) H) as [->|[b ->]].
  - intros x y Hx Hy. apply andb_prop in Hx as [Hx1 Hx2], Hy as [Hy1 Hy2].
    apply Z.eqb_eq in Hx1, Hx2, Hy1, Hy2. congruence.
  - now exists None.
  - now exists (Some b).
Qed.

Lemma classify_listed r :
  ta_balance (classify r) = default 0%Q (tr_balance r)
  /\ ta_debitBalance (classify r)
     = debit_column (tr_normalBalance r) (default 0%Q (tr_balance r))
  /\ ta_creditBalance (classify r)
     = credit_column (tr_normalBalance r) (default 0%Q (tr_balance r)).
Proof.
  unfold classify, debit_column, credit_column. cbv zeta.
  destruct (String.eqb _ _), (Qle_bool _ _); done.
Qed.

(** The rows the query selects before it orders them, account by
    account of a part [accs] of the accounts table. *)
Lemma tb_rows_listed s organization_id (accs : list account) :
  List.NoDup (map at_id (account_types s)) ->
  List.NoDup (map cat_id (account_categories s)) ->
  List.NoDup (map (fun b => (bal_account_id b, bal_organization_id b))
                  (account_balances s)) ->
  Forall2 (listed_as s)
    (map classify
       (flat_map (fun row =>
          let a := fst row in
          let t := snd row in
          flat_map (fun c =>
            map (fun b =>
                   {| tr_id := acc_id a;
                      tr_code := acc_code a;
                      tr_name := acc_name a;
                      tr_accountTypeId := at_id t;
                      tr_accountTypeName := at_name t;
                      tr_normalBalance := at_normal_balance t;
                      tr_accountCategoryId := option_map cat_id c;
                      tr_accountCategoryName := option_map cat_name c;
                      tr_balance := option_map bal_balance b |})
                (balances_of a s))
            (categories_of a s))
          (List.filter (fun row => acc_organization_id (fst row) =? organization_id)
             (flat_map (fun a =>
                          map (fun t => (a, t))
                              (List.filter (fun t => at_id t =? acc_account_type_id a)
                                           (account_types s)))
                       accs))))
    (List.filter (fun a => (acc_organization_id a =? organization_id) && has_type a s)
                 accs).
Proof.
  intros Ht Hc Hb. induction accs as [|a accs IH]; [constructor|].
  cbn [flat_map List.filter].
  rewrite List.filter_app, flat_map_app, map_app.
  unfold has_type at 1. rewrite existsb_head_filter.
  destruct (types_at_most_one s a Ht) as [Hf|[t Hf]]; rewrite Hf.
  - rewrite andb_false_r. exact IH.
  - rewrite andb_true_r. cbn [map List.filter fst].
    destruct (acc_organization_id a =? organization_id); [|exact IH].
    cbn [flat_map fst snd]. rewrite app_nil_r.
    destruct (categories_of_one s a Hc) as [c ->].
    destruct (balances_of_one s a Hb) as (b & -> & Hbal).
    cbn [flat_map map app]. constructor; [|exact IH].
    assert (Hn : normal_balance_of a s = at_normal_balance t).
    { unfold normal_balance_of. now rewrite find_head_filter, Hf. }
    assert (Hid : at_id t = acc_account_type_id a).
    { assert (Hin : In t (List.filter (fun t => at_id t =? acc_account_type_id a)
                                      (account_types s))) by (rewrite Hf; now left).
      apply List.filter_In in Hin as [_ Hin]. now apply Z.eqb_eq in Hin. }
    destruct (classify_listed
                {| tr_id := acc_id a; tr_code := acc_code a; tr_name := acc_name a;
                   tr_accountTypeId := at_id t; tr_accountTypeName := at_name t;
                   tr_normalBalance := at_normal_balance t;
                   tr_accountCategoryId := option_map cat_id c;
                   tr_accountCategoryName := option_map cat_name c;
                   tr_balance := option_map bal_balance b |}) as (H1 & H2 & H3).
    unfold listed_as. rewrite classify_row, H1, H2, H3, Hn.
    cbn [tr_id tr_code tr_name tr_accountTypeId tr_normalBalance tr_balance].
    rewrite Hbal. done.
Qed.

(** X25.  The trial balance read from the tables.  Balances are taken
    as the numbers the store hands over.  Where type ids, category ids
    and the (account, organization) keys of the balance rows are
    distinct, a trial balance that is answered 200 lists the accounts
    of the organization that have a type row, each of them once and no
    other: up to the order of the listing, the listed accounts are the
    rows of the accounts table, each with its id, code and name, the
    normal balance of its type, its stored balance (0 when it has no
    balance row), and the two columns: a balance of at least 0 in the
    column of the normal side, the absolute value of a negative one in
    the other column, and 0 in the remaining column. *)
Theorem trialBalance_lists_each_account_once
    (s : db) (organization_id : Z) (asOfDate : option string) (today : string)
    (m : option string) (tb : trial_balance) :
  List.NoDup (map at_id (account_types s)) ->
  List.NoDup (map cat_id (account_categories s)) ->
  List.NoDup (map (fun b => (bal_account_id b, bal_organization_id b))
                  (account_balances s)) ->
  trialBalance s organization_id asOfDate today = json 200 (Data m tb) ->
  exists listed,
    Permutation (tb_listed tb) listed
    /\ Forall2 (listed_as s) listed (accounts_typed organization_id s).
Proof.
  intros Ht Hc Hb H.
  eexists. split.
  - rewrite (trialBalance_lists_the_query _ _ _ _ _ _ H).
    apply Permutation_map. unfold tb_query. apply order_by_perm.
  - apply (tb_rows_listed s organization_id (accounts s) Ht Hc Hb).
Qed.

(** The books after three sales. *)
Lemma trialBalance_lists_each_account_once_witness :
  exists m tb listed,
    trialBalance three_sales 1 None "2024-02-01" = json 200 (Data m tb)
    /\ Permutation (tb_listed tb) listed
    /\ Forall2 (listed_as three_sales) listed (accounts_typed 1 three_sales).
Proof.
  assert (E : exists m tb,
             trialBalance three_sales 1 None "2024-02-01" = json 200 (Data m tb)).
  { eexists _, _. vm_compute. reflexivity. }
  destruct E as (m & tb & E).
  destruct (trialBalance_lists_each_account_once three_sales 1 None "2024-02-01" m tb)
    as (listed & Hp & Hl).
  - vm_compute. repeat constructor; cbn; intuition discriminate.
  - vm_compute. repeat constructor; cbn; intuition discriminate.
  - vm_compute. repeat constructor; cbn; intuition discriminate.
  - exact E.
  - exists m, tb, listed. auto.
Defined.

(** ** A posting seen by the income statement *)

Lemma flat_map_ext_on {A B} (f g : A -> list B) (l : list A) :
  (forall x, In x l -> f x = g x) -> flat_map f l = flat_map g l.
Proof.
  induction l as [|x l IH]; intros H; [reflexivity|]. cbn [flat_map].
  rewrite (H x) by now left. f_equal. apply IH. intros y Hy. apply H. now right.
Qed.

(** The join of lines and entries after a committed posting: the old
    rows, then the new lines with the new entry. *)
Lemma lines_with_entries_committed now req st :
  lines_reference_entries st ->
  lines_with_entries (committed_store now req st)
  = lines_with_entries st
    ++ map (fun l => (l, posted_entry now req st)) (posted_lines req st).
Proof.
  intros Hfk. unfold lines_with_entries.
  cbn [committed_store journal_entry_lines journal_entries].
  rewrite flat_map_app. f_equal.
  - apply flat_map_ext_on. intros l Hl. rewrite List.filter_app.
    cbn [List.filter posted_entry je_id].
    unfold lines_reference_entries in Hfk. rewrite List.Forall_forall in Hfk.
    specialize (Hfk l Hl). apply next_id_above in Hfk.
    destruct (Z.eqb_spec (next_id (map je_id (journal_entries st)))
                         (jel_journal_entry_id l)); [lia|].
    now rewrite app_nil_r.
  - unfold posted_lines.
    generalize (next_id (map jel_id (journal_entry_lines st))).
    induction (lines req) as [|line ls IH]; intros first; [reflexivity|].
    cbn [number_lines flat_map map]. rewrite IH. f_equal.
    rewrite List.filter_app. cbn [List.filter posted_entry je_id line_row
                                   jel_journal_entry_id].
    rewrite Z.eqb_refl. rewrite filter_none; [reflexivity|].
    intros e He. apply Z.eqb_neq. intros Heq.
    apply (next_id_fresh (map je_id (journal_entries st))).
    rewrite <- Heq. now apply List.in_map.
Qed.









(** ** Error handling middleware *)

(** X27.  What the error middleware answers.  Whatever the error, the
    answer is a failure with status 503 and code DATABASE_ERROR, status
    400 and code VALIDATION_ERROR, or status 500 and code SERVER_ERROR.
    A refused connection is answered 503 whatever the name of the
    error, and 400 is answered only to an error named ValidationError.
    Outside development the 503 and 500 answers carry no details; in
    development they carry the message of the error. *)
Theorem errorMiddleware_answers {A} (development : bool) (err : js_error) :
  exists code message details,
    payload (@errorMiddleware A development err) = Failure code message details
    /\ In (status (@errorMiddleware A development err), code)
          [(503, "DATABASE_ERROR"); (400, "VALIDATION_ERROR"); (500, "SERVER_ERROR")]
    /\ (e_code err = Some "ECONNREFUSED" ->
        status (@errorMiddleware A development err) = 503)
    /\ (status (@errorMiddleware A development err) = 400 ->
        e_name err = "ValidationError")
    /\ (status (@errorMiddleware A development err) <> 400 ->
        details = if development then Some (MessageDetails (e_message err)) else None).
Proof.
  unfold errorMiddleware.
  destruct (_ || includes (e_message err) "connection") eqn:Hdb.
  - eexists _, _, _. cbn [payload status]. split; [reflexivity|].
    split; [now left|]. repeat split; try done.
  - destruct (String.eqb (e_name err) "ValidationError") eqn:Hname.
    + eexists _, _, _. cbn [payload status]. split; [reflexivity|].
      split; [right; now left|]. split; [|split].
      * intros Hc. rewrite Hc in Hdb. cbn in Hdb. discriminate.
      * intros _. now apply String.eqb_eq.
      * intros Hne. now destruct Hne.
    + eexists _, _, _. cbn [payload status]. split; [reflexivity|].
      split; [right; right; now left|]. split; [|split].
      * intros Hc. rewrite Hc in Hdb. cbn in Hdb. discriminate.
      * discriminate.
      * reflexivity.
Qed.

(** ** A posting seen by the ledger and by the listing *)

Lemma order_by_length {A} (le : A -> A -> bool) l :
  length (order_by le l) = length l.
Proof. apply Permutation_length, order_by_perm. Qed.

Lemma posted_window_length now req st account_id organization_id startDate endDate :
  Z.of_nat (length (List.filter
                      (fun row => posted_for account_id organization_id row
                                  && from_date startDate row
                                  && to_date endDate row)
                      (map (fun l => (l, posted_entry now req st))
                           (posted_lines req st))))
  = if (organizationId req =? organization_id)
       && within_dates startDate endDate (date req)
    then lines_on account_id req else 0.
Proof.
  unfold lines_on, posted_lines.
  generalize (next_id (map jel_id (journal_entry_lines st))).
  assert (Hrow : forall l,
            posted_for account_id organization_id (l, posted_entry now req st)
            && from_date startDate (l, posted_entry now req st)
            && to_date endDate (l, posted_entry now req st)
            = (jel_account_id l =? account_id)
              && ((organizationId req =? organization_id)
                  && within_dates startDate endDate (date req))).
  { intros l. unfold posted_for, from_date, to_date, within_dates.
    cbn [fst snd posted_entry je_organization_id je_status je_date].
    change (String.eqb "posted" "posted") with true.
    rewrite andb_true_r, <- !andb_assoc. reflexivity. }
  induction (lines req) as [|line ls IH]; intros first.
  - cbn [number_lines map List.filter length]. now destruct (_ && _).
  - cbn [number_lines map List.filter]. rewrite Hrow.
    change (jel_account_id (line_row (next_id (map je_id (journal_entries st))) first line))
      with (accountId line).
    specialize (IH (first + 1)).
    destruct (accountId line =? account_id);
      destruct ((organizationId req =? organization_id)
                && within_dates startDate endDate (date req));
      cbn [andb length] in IH |- *; lia.
Qed.

(** X28.  A posting seen by the ledger.  Where every stored line is on
    a stored entry, after a posting answered 201 a ledger that was
    answered 200 is answered 200 again for the same account, and its
    total count has grown by the number of lines of the request on that
    account when the entry is of the organization asked and dated
    within the requested dates, and by nothing otherwise. *)
Theorem postJournalEntry_then_getLedger
    (now : Z) (st : db) (req : journal_entry_input) st' m data
    (account_id organization_id : Z) (startDate endDate : option Z)
    (page limit : Z) m0 (l : ledger) :
  lines_reference_entries st ->
  postJournalEntry now st req = (st', json 201 (Data m data)) ->
  getLedger st account_id organization_id startDate endDate page limit
    = json 200 (Data m0 l) ->
  exists l',
    getLedger st' account_id organization_id startDate endDate page limit
      = json 200 (Data None l')
    /\ lg_account l' = lg_account l
    /\ pg_total (lg_pagination l')
       = pg_total (lg_pagination l)
         + (if (organizationId req =? organization_id)
               && within_dates startDate endDate (date req)
            then lines_on account_id req else 0).
Proof.
  intros Hfk H Hl. apply postJournalEntry_created_inv in H as (_ & _ & ->).
  unfold getLedger in Hl |- *.
  change (ledger_account_of account_id organization_id (committed_store now req st))
    with (ledger_account_of account_id organization_id st).
  destruct (ledger_account_of account_id organization_id st) as [account|];
    [|discriminate].
  cbv zeta in Hl |- *.
  destruct ((limit <? 0) || ((page - 1) * limit <? 0)); [discriminate|].
  injection Hl as _ <-. eexists. split; [reflexivity|].
  cbn [lg_account lg_pagination pg_total]. split; [reflexivity|].
  unfold window_rows. rewrite !order_by_length.
  rewrite lines_with_entries_committed by exact Hfk.
  rewrite List.filter_app, length_app, Nat2Z.inj_add.
  now rewrite posted_window_length.
Qed.

(** A fourth sale, seen by the ledger of Cash. *)
Lemma postJournalEntry_then_getLedger_witness :
  exists m0 l l',
    getLedger three_sales 1 1 None None 1 50 = json 200 (Data m0 l)
    /\ getLedger (fst (postJournalEntry 7 three_sales (cash_sale_on 20240125 25)))
                 1 1 None None 1 50
       = json 200 (Data None l')
    /\ lg_account l' = lg_account l
    /\ pg_total (lg_pagination l')
       = pg_total (lg_pagination l)
         + (if (organizationId (cash_sale_on 20240125 25) =? 1)
               && within_dates None None (date (cash_sale_on 20240125 25))
            then lines_on 1 (cash_sale_on 20240125 25) else 0).
Proof.
  assert (E : exists m0 l,
             getLedger three_sales 1 1 None None 1 50 = json 200 (Data m0 l)).
  { eexists _, _. vm_compute. reflexivity. }
  destruct E as (m0 & l & E).
  destruct (postJournalEntry_then_getLedger 7 three_sales (cash_sale_on 20240125 25)
              (fst (postJournalEntry 7 three_sales (cash_sale_on 20240125 25)))
              (Some "Journal entry created successfully")
              (read_created 4 25 25
                 (fst (postJournalEntry 7 three_sales (cash_sale_on 20240125 25))))
              1 1 None None 1 50 m0 l) as (l' & Hl').
  - unfold lines_reference_entries. each_row ltac:(cbn; tauto).
  - vm_compute. reflexivity.
  - exact E.
  - exists m0, l, l'. split; [exact E|exact Hl'].
Defined.

(** X29.  A posting seen by the listing of journal entries.  After a
    posting answered 201 a listing that was answered 200 is answered
    200 again, and its total count has grown by one when the entry is
    of the organization asked and dated within the requested dates,
    and by nothing otherwise. *)
Theorem postJournalEntry_then_listJournalEntries
    (now : Z) (st : db) (req : journal_entry_input) st' m data
    (organization_id : Z) (startDate endDate : option Z)
    (page limit : Z) m0 (p : entry_page) :
  postJournalEntry now st req = (st', json 201 (Data m data)) ->
  listJournalEntries st organization_id startDate endDate page limit
    = json 200 (Data m0 p) ->
  exists p',
    listJournalEntries st' organization_id startDate endDate page limit
      = json 200 (Data None p')
    /\ pg_total (ep_pagination p')
       = pg_total (ep_pagination p)
         + (if (organizationId req =? organization_id)
               && within_dates startDate endDate (date req)
            then 1 else 0).
Proof.
  intros H Hp. apply postJournalEntry_created_inv in H as (_ & _ & ->).
  unfold listJournalEntries in Hp |- *. cbv zeta in Hp |- *.
  destruct ((limit <? 0) || ((page - 1) * limit <? 0)); [discriminate|].
  injection Hp as _ <-. eexists. split; [reflexivity|].
  cbn [ep_pagination pg_total]. unfold entries_window.
  rewrite !order_by_length.
  cbn [committed_store journal_entries].
  rewrite List.filter_app, length_app, Nat2Z.inj_add. f_equal.
  cbn [List.filter].
  change (je_organization_id (posted_entry now req st)) with (organizationId req).
  unfold entry_from_date, entry_to_date, within_dates.
  change (je_date (posted_entry now req st)) with (date req).
  rewrite <- andb_assoc.
  destruct ((organizationId req =? organization_id) && _); reflexivity.
Qed.

Lemma postJournalEntry_then_listJournalEntries_witness :
  exists m0 p p',
    listJournalEntries three_sales 1 (Some 20240120) None 1 2 = json 200 (Data m0 p)
    /\ listJournalEntries (fst (postJournalEntry 7 three_sales (cash_sale_on 20240125 25)))
                          1 (Some 20240120) None 1 2
       = json 200 (Data None p')
    /\ pg_total (ep_pagination p')
       = pg_total (ep_pagination p)
         + (if (organizationId (cash_sale_on 20240125 25) =? 1)
               && within_dates (Some 20240120) None (date (cash_sale_on 20240125 25))
            then 1 else 0).
Proof.
  assert (E : exists m0 p,
             listJournalEntries three_sales 1 (Some 20240120) None 1 2
             = json 200 (Data m0 p)).
  { eexists _, _. vm_compute. reflexivity. }
  destruct E as (m0 & p & E).
  destruct (postJournalEntry_then_listJournalEntries 7 three_sales
              (cash_sale_on 20240125 25)
              (fst (postJournalEntry 7 three_sales (cash_sale_on 20240125 25)))
              (Some "Journal entry created successfully")
              (read_created 4 25 25
                 (fst (postJournalEntry 7 three_sales (cash_sale_on 20240125 25))))
              1 (Some 20240120) None 1 2 m0 p) as (p' & Hp').
  - vm_compute. reflexivity.
  - exact E.
  - exists m0, p, p'. split; [exact E|exact Hp'].
Defined.

(** ** The income statement read from the tables *)

(** With distinct type and category ids, the accounts a side selects
    are the accounts of the organization whose type row carries the
    name, one row each. *)
Lemma accounts_of_type_named s typeName organization_id (accs : list account) :
  List.NoDup (map at_id (account_types s)) ->
  List.NoDup (map cat_id (account_categories s)) ->
  map fst
      (flat_map (fun row => map (fun c => (fst row, c)) (categories_of (fst row) s))
         (List.filter (fun row => (acc_organization_id (fst row) =? organization_id)
                                  && String.eqb (at_name (snd row)) typeName)
            (flat_map (fun a =>
                         map (fun t => (a, t))
                             (List.filter (fun t => at_id t =? acc_account_type_id a)
                                          (account_types s)))
                      accs)))
  = List.filter (fun a => (acc_organization_id a =? organization_id)
                          && existsb (fun t => (at_id t =? acc_account_type_id a)
                                               && String.eqb (at_name t) typeName)
                                     (account_types s))
                accs.
Proof.
  intros Ht Hc. induction accs as [|a accs IH]; [reflexivity|].
  cbn [flat_map List.filter].
  rewrite List.filter_app, flat_map_app, map_app, IH.
  rewrite (existsb_filter (fun t => at_id t =? acc_account_type_id a)
                          (fun t => String.eqb (at_name t) typeName)).
  destruct (types_at_most_one s a Ht) as [->|[t ->]].
  - cbn [map List.filter flat_map existsb app]. now rewrite andb_false_r.
  - cbn [map List.filter existsb fst snd]. rewrite orb_false_r.
    destruct ((acc_organization_id a =? organization_id)
              && String.eqb (at_name t) typeName); [|reflexivity].
    cbn [flat_map fst]. destruct (categories_of_one s a Hc) as [c ->].
    reflexivity.
Qed.

(** With distinct entry ids, the period lines of an account are its
    lines on a posted entry of the organization dated within the
    period. *)
Lemma period_lines_posted s id organization_id startDate endDate
    (ls : list journal_entry_line) :
  List.NoDup (map je_id (journal_entries s)) ->
  map fst
      (List.filter (fun row => (jel_account_id (fst row) =? id)
                               && (je_organization_id (snd row) =? organization_id)
                               && String.eqb (je_status (snd row)) "posted"
                               && (startDate <=? je_date (snd row))
                               && (je_date (snd row) <=? endDate))
         (flat_map (fun l =>
                      map (fun e => (l, e))
                          (List.filter (fun e => je_id e =? jel_journal_entry_id l)
                                       (journal_entries s)))
                   ls))
  = List.filter (fun l => (jel_account_id l =? id)
                          && posted_in_period organization_id startDate endDate s l)
                ls.
Proof.
  intros He. induction ls as [|l ls IH]; [reflexivity|].
  cbn [flat_map List.filter]. rewrite List.filter_app, map_app, IH.
  unfold posted_in_period at 2.
  rewrite (existsb_filter (fun e => je_id e =? jel_journal_entry_id l)).
  destruct (filter_at_most_one je_id (fun e => je_id e =? jel_journal_entry_id l)
              (journal_entries s) He) as [->|[e ->]].
  - intros x y Hx Hy. apply Z.eqb_eq in Hx, Hy. congruence.
  - cbn [map List.filter existsb app]. now rewrite andb_false_r.
  - cbn [map List.filter existsb fst snd]. rewrite orb_false_r.
    destruct (jel_account_id l =? id),
             (je_organization_id e =? organization_id),
             (String.eqb (je_status e) "posted"),
             (startDate <=? je_date e),
             (je_date e <=? endDate); reflexivity.
Qed.

(** One side of the statement, account by account of the table. *)
Lemma statement_side_reports typeName (amount : journal_entry_line -> Q)
    organization_id startDate endDate s :
  List.NoDup (map at_id (account_types s)) ->
  List.NoDup (map cat_id (account_categories s)) ->
  List.NoDup (map je_id (journal_entries s)) ->
  let side := statement_side typeName amount organization_id startDate endDate s in
  Forall2 (reports amount organization_id startDate endDate s)
          (fst side) (accounts_named typeName organization_id s)
  /\ (snd side ==
      Qsum (map (period_total amount organization_id startDate endDate s)
                (accounts_named typeName organization_id s)))%Q.
Proof.
  intros Ht Hc He side.
  destruct (statement_side_balances typeName amount organization_id startDate endDate s)
    as [Hb Htotal].
  cbv zeta in Hb, Htotal. fold side in Hb, Htotal.
  assert (Hside : exists b, fst side
                            = map (with_balance b)
                                  (accounts_of_type typeName organization_id s))
    by (eexists; reflexivity).
  destruct Hside as [b Hside].
  pose proof (accounts_of_type_named s typeName organization_id (accounts s) Ht Hc)
    as Hnamed.
  change (map fst (accounts_of_type typeName organization_id s)
          = accounts_named typeName organization_id s) in Hnamed.
  assert (Hall : Forall2 (reports amount organization_id startDate endDate s)
                         (fst side) (accounts_named typeName organization_id s)).
  { rewrite <- Hnamed. rewrite Hside in Hb |- *. clear Hside Hnamed Htotal.
    revert Hb. generalize (accounts_of_type typeName organization_id s).
    intros rows. induction rows as [|row rows IH]; intros Hb;
      cbn [map]; [constructor|].
    cbn [map] in Hb. apply List.Forall_cons_iff in Hb as [Hrow Hb].
    constructor; [|exact (IH Hb)].
    unfold reports. cbn [with_balance ia_id ia_code ia_name ia_balance] in Hrow |- *.
    split; [reflexivity|]. split; [reflexivity|]. split; [reflexivity|].
    rewrite Hrow. unfold period_total, period_lines_of, lines_with_entries.
    now rewrite (period_lines_posted s _ organization_id startDate endDate
                   (journal_entry_lines s) He). }
  split; [exact Hall|].
  rewrite Htotal. clear -Hall.
  induction Hall as [|x a xs accs (_ & _ & _ & Hx) _ IH]; cbn [map].
  - reflexivity.
  - rewrite !Qsum_cons, Hx, IH. reflexivity.
Qed.

(** X30.  The income statement read from the tables.  Amounts are
    taken as the numbers the store hands over and added exactly.  Where
    type ids, category ids and entry ids are distinct, an income
    statement that is answered 200 reports on its revenue side the
    accounts of the organization whose type is named 'Revenue', each of
    them once and no other, and on its expense side those whose type is
    named 'Expense': up to the order of the listing, the reported
    accounts are the rows of the accounts table, each with its id, code
    and name and, as its balance, the sum over its lines on posted
    entries of the organization dated from the start date to the end
    date, both included, of credit less debit for revenue and of debit
    less credit for expenses.  The two totals add these sums up, so
    that accounts of other types contribute nothing, and the net income
    is the total revenue less the total expenses. *)
Theorem incomeStatement_reports_period_totals
    (s : db) (organization_id startDate endDate : Z)
    (m : option string) (statement : income_statement) :
  List.NoDup (map at_id (account_types s)) ->
  List.NoDup (map cat_id (account_categories s)) ->
  List.NoDup (map je_id (journal_entries s)) ->
  incomeStatement s organization_id (Some startDate) (Some endDate)
    = json 200 (Data m statement) ->
  (exists reported,
     Permutation (statement_accounts (revenue statement)) reported
     /\ Forall2 (reports revenue_amount organization_id startDate endDate s)
                reported (accounts_named "Revenue" organization_id s))
  /\ (exists reported,
        Permutation (statement_accounts (expenses statement)) reported
        /\ Forall2 (reports expense_amount organization_id startDate endDate s)
                   reported (accounts_named "Expense" organization_id s))
  /\ (sec_total (revenue statement) ==
      Qsum (map (period_total revenue_amount organization_id startDate endDate s)
                (accounts_named "Revenue" organization_id s)))%Q
  /\ (sec_total (expenses statement) ==
      Qsum (map (period_total expense_amount organization_id startDate endDate s)
                (accounts_named "Expense" organization_id s)))%Q
  /\ netIncome statement
     = (sec_total (revenue statement) - sec_total (expenses statement))%Q.
Proof.
  intros Ht Hc He H. apply incomeStatement_answered in H as (_ & _ & ->).
  cbn [revenue expenses netIncome sec_total].
  destruct (statement_side_reports "Revenue" revenue_amount
              organization_id startDate endDate s Ht Hc He) as [Hr Hrt].
  destruct (statement_side_reports "Expense" expense_amount
              organization_id startDate endDate s Ht Hc He) as [Hx Hxt].
  cbv zeta in Hr, Hrt, Hx, Hxt.
  split; [|split; [|split; [exact Hrt|split; [exact Hxt|reflexivity]]]].
  - eexists. split; [|exact Hr].
    unfold statement_accounts. cbn [sec_categories].
    apply answered_categories_accounts.
  - eexists. split; [|exact Hx].
    unfold statement_accounts. cbn [sec_categories].
    apply answered_categories_accounts.
Qed.

(** The statement of January on the books after three sales. *)
Lemma incomeStatement_reports_period_totals_witness :
  exists m statement,
    incomeStatement three_sales 1 (Some 20240101) (Some 20240131)
      = json 200 (Data m statement)
    /\ (exists reported,
          Permutation (statement_accounts (revenue statement)) reported
          /\ Forall2 (reports revenue_amount 1 20240101 20240131 three_sales)
                     reported (accounts_named "Revenue" 1 three_sales))
    /\ (exists reported,
          Permutation (statement_accounts (expenses statement)) reported
          /\ Forall2 (reports expense_amount 1 20240101 20240131 three_sales)
                     reported (accounts_named "Expense" 1 three_sales))
    /\ (sec_total (revenue statement) ==
        Qsum (map (period_total revenue_amount 1 20240101 20240131 three_sales)
                  (accounts_named "Revenue" 1 three_sales)))%Q
    /\ (sec_total (expenses statement) ==
        Qsum (map (period_total expense_amount 1 20240101 20240131 three_sales)
                  (accounts_named "Expense" 1 three_sales)))%Q
    /\ netIncome statement
       = (sec_total (revenue statement) - sec_total (expenses statement))%Q.
Proof.
  eexists _, _. split; [vm_compute; reflexivity|].
  eapply (incomeStatement_reports_period_totals three_sales 1 20240101 20240131).
  - vm_compute. repeat constructor; cbn; intuition discriminate.
  - vm_compute. repeat constructor; cbn; intuition discriminate.
  - vm_compute. repeat constructor; cbn; intuition discriminate.
  - vm_compute. reflexivity.
Defined.
